(** * Roster extraction engine of the ICU staffing dashboard

    A shallow embedding of the document parser (the module that exports
    [readDocxFile] and [parseRosterFromHtml]) together with the properties
    its specification states about it.  The repository holds two versions
    of the parser.  The one that the specification describes, with
    [parseDate], [autoMapHeaders] and [parseAssignmentsAndBottomSection], is
    embedded at the top level; the one in services/docProcessor.ts, which
    the application imports, is embedded in [DocProcessor].  [readDocxFile]
    wraps the converter of the binary document and is not part of the
    embedding: the parser starts from the markup.  What the application
    computes from a roster is embedded after the parsers: the statistics
    service ([StatsService]), the cell escaping of the export service
    ([ExportService]), the list editor of the grid ([ListEditor]), the data
    of the bar charts ([Charts]) and the nurse lists of the editor ([App]).

    Conventions of the embedding.
    - Text is a [string] of code units below 256; the characters that matter
      to the parser (labels, digits, separators) are ASCII.  Of the code
      units above 127 the no-break space (160) is white space, as it is for
      the host; the others are carried through unchanged: they are neither
      white space nor word characters and have no case.
    - A JavaScript number that holds an integer is a [Z]; [NaN] is [None].
    - An array is a list; an [AssignmentRow[]] that is written by index is a
      list of optional rows, [None] standing for a hole ([undefined]).
    - An object used as a dictionary is a [gmap] on its keys; a [Map] or a
      [Set], whose order of insertion shows in the result, is the list of
      its entries in that order.
    - The DOM is reduced to what the parser reads from it: for a table its
      [textContent] and its [tr] descendants, for a row its [innerText], its
      [cells] collection and its [th,td] and [td] descendants, for a cell
      its [innerText].
    - [throw] is the [Throw] constructor of [completion]; a call that may
      throw returns a [completion].
    - The host's [Date] (the clock, the string parser and the time zone) is
      a parameter. *)

From Stdlib Require Import ZArith Ascii String List Lia Bool.
From Stdlib Require Import DecimalString DecimalFacts DecimalPos DecimalZ.
From Stdlib Require Import Sorted.
From stdpp Require Import base option list gmap strings.

Open Scope string_scope.
Open Scope Z_scope.

(* ===================================================================== *)
(** ** Host primitives: strings, numbers, arrays                          *)
(* ===================================================================== *)

Module JS.

Definition chars (s : string) : list ascii := list_ascii_of_string s.
Definition str (l : list ascii) : string := string_of_list_ascii l.

Definition code (c : ascii) : Z := Z.of_N (N_of_ascii c).
Definition chr (z : Z) : ascii := ascii_of_N (Z.to_N z).

(** White space of [\s], of [String.prototype.trim] and of [parseInt]:
    TAB, LF, VT, FF, CR, SPACE and NO-BREAK SPACE, the white space and the
    line terminators among the code units below 256. *)
Definition isWhiteSpace (c : ascii) : bool :=
  let n := code c in ((9 <=? n) && (n <=? 13)) || (n =? 32) || (n =? 160).

Definition isDigit (c : ascii) : bool :=
  let n := code c in (48 <=? n) && (n <=? 57).

Definition isUpper (c : ascii) : bool :=
  let n := code c in (65 <=? n) && (n <=? 90).

Definition isLower (c : ascii) : bool :=
  let n := code c in (97 <=? n) && (n <=? 122).

(** [\w] *)
Definition isWordChar (c : ascii) : bool :=
  isUpper c || isLower c || isDigit c || (code c =? 95).

(** Line terminators, which [.] does not match. *)
Definition isLineTerminator (c : ascii) : bool :=
  (code c =? 10) || (code c =? 13).

Definition upperChar (c : ascii) : ascii :=
  if isLower c then chr (code c - 32) else c.

Definition lowerChar (c : ascii) : ascii :=
  if isUpper c then chr (code c + 32) else c.

Definition toUpperCase (s : string) : string := str (map upperChar (chars s)).
Definition toLowerCase (s : string) : string := str (map lowerChar (chars s)).

Fixpoint dropWhile {A} (p : A -> bool) (l : list A) : list A :=
  match l with
  | [] => []
  | x :: l' => if p x then dropWhile p l' else l
  end.

Fixpoint takeWhile {A} (p : A -> bool) (l : list A) : list A :=
  match l with
  | [] => []
  | x :: l' => if p x then x :: takeWhile p l' else []
  end.

Definition trimStart (l : list ascii) : list ascii := dropWhile isWhiteSpace l.
Definition trimEnd (l : list ascii) : list ascii := rev (dropWhile isWhiteSpace (rev l)).

(** [s.trim()] *)
Definition trim (s : string) : string := str (trimEnd (trimStart (chars s))).

(** [s.includes(t)] *)
Fixpoint includes (s t : string) : bool :=
  String.prefix t s ||
  match s with
  | EmptyString => false
  | String _ s' => includes s' t
  end.

(** [s.split(sep)] for a separator of one character. *)
Fixpoint split (sep : ascii) (s : string) : list string :=
  match s with
  | EmptyString => [EmptyString]
  | String c s' =>
      if Ascii.eqb c sep then EmptyString :: split sep s'
      else match split sep s' with
           | hd :: tl => String c hd :: tl
           | [] => [String c EmptyString]
           end
  end.

(** [s.replace(/\s/g, '')] *)
Definition stripWhiteSpace (s : string) : string :=
  str (List.filter (fun c => negb (isWhiteSpace c)) (chars s)).

(** Truthiness of a string: [Boolean(s)]. *)
Definition truthy (s : string) : bool :=
  match s with EmptyString => false | _ => true end.

(** [a || b] on strings where [a] may be [undefined]. *)
Definition orElse (a : option string) (b : string) : string :=
  match a with
  | Some s => if truthy s then s else b
  | None => b
  end.

(** [n.toString()] of an integer. *)
Definition Number_toString (n : Z) : string :=
  NilZero.string_of_int (Z.to_int n).

Definition digitValue (c : ascii) : Z := code c - 48.

Definition digitsValue (ds : list ascii) : Z :=
  fold_left (fun acc c => 10 * acc + digitValue c) ds 0.

(** [parseInt(s, 10)]: white space is skipped, one sign is read, then the
    longest run of decimal digits; [NaN] when that run is empty. *)
Definition parseInt10 (s : string) : option Z :=
  let cs := trimStart (chars s) in
  let '(neg, cs1) :=
    match cs with
    | c :: r => if Ascii.eqb c "-"%char then (true, r)
                else if Ascii.eqb c "+"%char then (false, r)
                else (false, cs)
    | [] => (false, cs)
    end in
  match takeWhile isDigit cs1 with
  | [] => None
  | ds => Some (if neg : bool then - digitsValue ds else digitsValue ds)
  end.

(** [arr[i]]: [undefined] off the array, also at a negative index. *)
Definition array_get {A} (arr : list A) (i : Z) : option A :=
  if i <? 0 then None else arr !! Z.to_nat i.

(** [arr[i] = v] on an array with holes.  At an index beyond the end the
    array grows and the gap is filled with holes; a negative index names
    an ordinary property and leaves the elements alone. *)
Definition array_set {A} (arr : list (option A)) (i : Z) (v : A)
  : list (option A) :=
  if i <? 0 then arr
  else
    let n := Z.to_nat i in
    if (n <? length arr)%nat then <[n := Some v]> arr
    else arr ++ replicate (n - length arr) None ++ [Some v].

(** [Array.from({length: n}, (_, i) => f(i))]; a negative length counts
    as zero. *)
Definition array_from {A} (n : Z) (f : Z -> A) : list A :=
  map (fun i => f (Z.of_nat i)) (seq 0 (Z.to_nat n)).

Fixpoint findIndex_from {A} (p : A -> Z -> bool) (i : Z) (l : list A) : Z :=
  match l with
  | [] => -1
  | x :: l' => if p x i then i else findIndex_from p (i + 1) l'
  end.

(** [arr.findIndex((x, i) => p(x, i))] *)
Definition findIndex {A} (p : A -> Z -> bool) (arr : list A) : Z :=
  findIndex_from p 0 arr.

(** [arr.find(p)] together with the position of what it finds; elements
    of the DOM are compared by identity, which the position stands for. *)
Definition find_pos {A} (p : A -> bool) (arr : list A) : option (nat * A) :=
  let i := findIndex (fun x _ => p x) arr in
  if i <? 0 then None
  else (fun x => (Z.to_nat i, x)) <$> arr !! Z.to_nat i.

(** The value of a decimal numeral read from its most significant digit,
    after the digits already read as [acc]. *)
Fixpoint uval (u : Decimal.uint) (acc : Z) : Z :=
  match u with
  | Decimal.Nil => acc
  | Decimal.D0 l => uval l (10 * acc + 0)
  | Decimal.D1 l => uval l (10 * acc + 1)
  | Decimal.D2 l => uval l (10 * acc + 2)
  | Decimal.D3 l => uval l (10 * acc + 3)
  | Decimal.D4 l => uval l (10 * acc + 4)
  | Decimal.D5 l => uval l (10 * acc + 5)
  | Decimal.D6 l => uval l (10 * acc + 6)
  | Decimal.D7 l => uval l (10 * acc + 7)
  | Decimal.D8 l => uval l (10 * acc + 8)
  | Decimal.D9 l => uval l (10 * acc + 9)
  end.

End JS.

(* ===================================================================== *)
(** ** Regular expressions                                                *)
(* ===================================================================== *)

(** A backtracking matcher with the priorities of the host's engine: the
    leftmost start wins, alternatives are tried in order, a greedy
    quantifier tries one more round before it tries to stop and a lazy one
    the other way round, and a round of a quantifier that consumes nothing
    is rejected. *)
Module Regex.

Inductive regex : Type :=
| Empty
| Class (p : ascii -> bool)
| Seq (r1 r2 : regex)
| Alt (r1 r2 : regex)
| Star (greedy : bool) (r : regex)
| Group (n : nat) (r : regex)
| WordBoundary.

(** The matcher's state: the character before the cursor, the cursor,
    the text after it and the capture groups closed so far. *)
Record mstate : Type := MState {
  prev : option ascii;
  pos : nat;
  rest : list ascii;
  caps : list (nat * (nat * nat))
}.

Definition isWordOpt (c : option ascii) : bool :=
  match c with Some c => JS.isWordChar c | None => false end.

Fixpoint run (r : regex) (k : mstate -> option mstate) (s : mstate)
  : option mstate :=
  match r with
  | Empty => k s
  | Class p =>
      match rest s with
      | c :: tl =>
          if p c then k (MState (Some c) (S (pos s)) tl (caps s)) else None
      | [] => None
      end
  | Seq r1 r2 => run r1 (run r2 k) s
  | Alt r1 r2 =>
      match run r1 k s with
      | Some m => Some m
      | None => run r2 k s
      end
  | Star greedy r' =>
      (fix loop (fuel : nat) (s : mstate) {struct fuel} : option mstate :=
         match fuel with
         | O => k s
         | S fuel' =>
             let again :=
               run r' (fun s' => if (pos s <? pos s')%nat
                                 then loop fuel' s' else None) s in
             if greedy
             then match again with Some m => Some m | None => k s end
             else match k s with Some m => Some m | None => again end
         end) (S (length (rest s))) s
  | Group n r' =>
      run r' (fun s' =>
                k (MState (prev s') (pos s') (rest s')
                          ((n, (pos s, pos s')) :: caps s'))) s
  | WordBoundary =>
      if xorb (isWordOpt (prev s)) (isWordOpt (head (rest s)))
      then k s else None
  end.

(** The result of [exec]: where the match starts and ends in the input
    and the capture groups. *)
Record MatchResult : Type := Match {
  input : string;
  index : nat;
  lastIndex : nat;
  groups : list (nat * (nat * nat))
}.

Fixpoint exec_from (r : regex) (whole : string) (p : option ascii)
  (i : nat) (txt : list ascii) : option MatchResult :=
  match run r Some (MState p i txt []) with
  | Some m => Some (Match whole i (pos m) (caps m))
  | None =>
      match txt with
      | [] => None
      | c :: tl => exec_from r whole (Some c) (S i) tl
      end
  end.

(** [re.exec(s)], also [s.match(re)], for a regular expression without
    the [g] flag. *)
Definition exec (r : regex) (s : string) : option MatchResult :=
  exec_from r s None 0%nat (JS.chars s).

(** [re.test(s)] *)
Definition test (r : regex) (s : string) : bool :=
  match exec r s with Some _ => true | None => false end.

(** [m[0]] *)
Definition matched (m : MatchResult) : string :=
  String.substring (index m) (lastIndex m - index m) (input m).

Fixpoint assoc (n : nat) (l : list (nat * (nat * nat))) : option (nat * nat) :=
  match l with
  | [] => None
  | (n', v) :: l' => if (n =? n')%nat then Some v else assoc n l'
  end.

(** [m[n]] for [n >= 1]; the empty string for a group that took no part
    in the match (every group of the expressions below takes part in
    every match). *)
Definition group (n : nat) (m : MatchResult) : string :=
  match assoc n (groups m) with
  | Some (a, b) => String.substring a (b - a) (input m)
  | None => EmptyString
  end.

(** [s.replace(re, f)] without the [g] flag: the first match only. *)
Definition replace (r : regex) (f : MatchResult -> string) (s : string)
  : string :=
  match exec r s with
  | None => s
  | Some m =>
      String.substring 0 (index m) s +:+ f m +:+
      String.substring (lastIndex m) (String.length s - lastIndex m) s
  end.

Fixpoint replaceAll_from (fuel : nat) (r : regex) (f : MatchResult -> string)
  (whole : string) (p : option ascii) (i : nat) (txt : list ascii)
  : list ascii :=
  match fuel with
  | O => txt
  | S fuel' =>
      match exec_from r whole p i txt with
      | None => txt
      | Some m =>
          let before := take (index m - i) txt in
          let after := drop (lastIndex m - i) txt in
          let last := last (take (lastIndex m - i) txt) in
          let p' := match last with Some c => Some c | None => p end in
          if (index m <? lastIndex m)%nat
          then before ++ JS.chars (f m) ++
               replaceAll_from fuel' r f whole p' (lastIndex m) after
          else match after with
               | [] => before ++ JS.chars (f m)
               | c :: tl =>
                   before ++ JS.chars (f m) ++ c ::
                   replaceAll_from fuel' r f whole (Some c) (S (lastIndex m)) tl
               end
      end
  end.

(** [s.replace(re, f)] with the [g] flag: every match, left to right,
    none overlapping. *)
Definition replaceAll (r : regex) (f : MatchResult -> string) (s : string)
  : string :=
  JS.str (replaceAll_from (S (String.length s)) r f s None 0%nat (JS.chars s)).

(** *** Building blocks *)

Definition lit (c : ascii) : regex := Class (Ascii.eqb c).

(** A literal under the [i] flag: characters are compared after
    canonicalisation to upper case. *)
Definition liti (c : ascii) : regex :=
  Class (fun x => Ascii.eqb (JS.upperChar x) (JS.upperChar c)).

Definition digit : regex := Class JS.isDigit.             (* \d *)
Definition wordc : regex := Class JS.isWordChar.          (* \w *)
Definition space : regex := Class JS.isWhiteSpace.        (* \s *)
Definition nonspace : regex :=                            (* \S *)
  Class (fun c => negb (JS.isWhiteSpace c)).
Definition dot : regex :=                                 (* . *)
  Class (fun c => negb (JS.isLineTerminator c)).

Definition opt (r : regex) : regex := Alt r Empty.        (* r? *)
Definition star (r : regex) : regex := Star true r.       (* r* *)
Definition plus (r : regex) : regex := Seq r (Star true r).       (* r+ *)
Definition plus_lazy (r : regex) : regex := Seq r (Star false r). (* r+? *)

Fixpoint seqs (rs : list regex) : regex :=
  match rs with
  | [] => Empty
  | [r] => r
  | r :: rs' => Seq r (seqs rs')
  end.

Fixpoint alts (rs : list regex) : regex :=
  match rs with
  | [] => Class (fun _ => false)
  | [r] => r
  | r :: rs' => Alt r (alts rs')
  end.

(** A literal word, case-sensitive and under the [i] flag. *)
Definition word (s : string) : regex := seqs (map lit (JS.chars s)).
Definition wordi (s : string) : regex := seqs (map liti (JS.chars s)).

End Regex.

(* ===================================================================== *)
(** ** Completions                                                        *)
(* ===================================================================== *)

(** The errors that the parser and the host throw, and the outcome of a
    call: a value or a thrown error. *)
Inductive exn : Type :=
| Error (message : string)
| TypeError (message : string)
| RangeError (message : string).

Inductive completion (A : Type) : Type :=
| Normal (a : A)
| Throw (e : exn).
Arguments Normal {A} _.
Arguments Throw {A} _.

#[global] Instance completion_ret : MRet completion := fun A a => Normal a.

#[global] Instance completion_bind : MBind completion :=
  fun A B f c =>
    match c with
    | Normal a => f a
    | Throw e => Throw e
    end.

(* ===================================================================== *)
(** ** The host's [Date]                                                  *)
(* ===================================================================== *)

Module Date.

Definition msPerDay : Z := 86400000.

(** The civil date (year, month 1..12, day 1..31) of a day number counted
    from 1970-01-01, in the proleptic Gregorian calendar: the host's
    [YearFromTime], [MonthFromTime] and [DateFromTime]. *)
Definition civil_of_doe (era doe : Z) : Z * Z * Z :=
  let yoe := (doe - doe / 1460 + doe / 36524 - doe / 146096) / 365 in
  let y := yoe + era * 400 in
  let doy := doe - (365 * yoe + yoe / 4 - yoe / 100) in
  let mp := (5 * doy + 2) / 153 in
  let d := doy - (153 * mp + 2) / 5 + 1 in
  let m := if mp <? 10 then mp + 3 else mp - 9 in
  (if m <=? 2 then y + 1 else y, m, d).

Definition civil_from_days (day : Z) : Z * Z * Z :=
  let z := day + 719468 in
  civil_of_doe (z / 146097) (z mod 146097).

(** The day number of a civil date. *)
Definition days_from_civil (y m d : Z) : Z :=
  let y' := if m <=? 2 then y - 1 else y in
  let era := y' / 400 in
  let yoe := y' - era * 400 in
  let doy := (153 * (if 2 <? m then m - 3 else m + 9) + 2) / 5 + d - 1 in
  let doe := yoe * 365 + yoe / 4 - yoe / 100 + doy in
  era * 146097 + doe - 719468.

(** [ToZeroPaddedDecimalString(n, minLength)] for [n >= 0]. *)
Definition zeroPad (minLength : nat) (n : Z) : string :=
  let s := JS.Number_toString n in
  JS.str (replicate (minLength - String.length s) "0"%char) +:+ s.

(** The year of [toISOString]: four digits from 0 to 9999, a sign and six
    digits outside. *)
Definition isoYear (y : Z) : string :=
  if (0 <=? y) && (y <=? 9999) then zeroPad 4 y
  else if y <? 0 then "-" +:+ zeroPad 6 (- y)
  else "+" +:+ zeroPad 6 y.

(** The text of [toISOString] for a valid time value [t] (milliseconds
    since the epoch, UTC). *)
Definition isoFormat (t : Z) : string :=
  let '(y, m, d) := civil_from_days (t / msPerDay) in
  let ms := t mod msPerDay in
  isoYear y +:+ "-" +:+ zeroPad 2 m +:+ "-" +:+ zeroPad 2 d +:+ "T" +:+
  zeroPad 2 (ms / 3600000) +:+ ":" +:+
  zeroPad 2 (ms / 60000 mod 60) +:+ ":" +:+
  zeroPad 2 (ms / 1000 mod 60) +:+ "." +:+
  zeroPad 3 (ms mod 1000) +:+ "Z".

(** A [Date] object is its time value, [None] for an invalid date.
    [isNaN(d.getTime())] and [d.toISOString()], which throws on an invalid
    date. *)
Definition isNaN (d : option Z) : bool :=
  match d with
  | Some _ => false
  | None => true
  end.

Definition toISOString (d : option Z) : completion string :=
  match d with
  | Some t => Normal (isoFormat t)
  | None => Throw (RangeError "Invalid time value")
  end.

(** What the parsers need of the host: the clock read by [new Date()], the
    time value of [new Date(s)] ([None] when it is [NaN]) and the local time
    zone adjustment, in milliseconds, that the local getters add to a time
    value. *)
Record Host : Type := {
  now : Z;
  parse : string -> option Z;
  localTZA : Z -> Z
}.

(** [d.getFullYear()], [d.getMonth()] and [d.getDate()] of a valid date. *)
Definition localCivil (h : Host) (t : Z) : Z * Z * Z :=
  civil_from_days ((t + localTZA h t) / msPerDay).

Definition getFullYear (h : Host) (t : Z) : Z := fst (fst (localCivil h t)).
Definition getMonth (h : Host) (t : Z) : Z := snd (fst (localCivil h t)) - 1.
Definition getDate (h : Host) (t : Z) : Z := snd (localCivil h t).

(** Time values from 0000-01-01T00:00:00.000Z to 9999-12-31T23:59:59.999Z,
    whose year [toISOString] writes with four digits. *)
Definition fourDigitYear (t : Z) : Prop :=
  -62167219200000 <= t <= 253402300799999.

(** The date part of [toISOString] for a year of four digits. *)
Definition dateText (day : Z) : string :=
  let '(y, m, d) := civil_from_days day in
  zeroPad 4 y +:+ "-" +:+ zeroPad 2 m +:+ "-" +:+ zeroPad 2 d.

(** Checks that are run over whole ranges: the civil date of a day of the
    400-year cycle, and the shape of padded numbers. *)
Definition doeOk (doe : Z) : bool :=
  let '(y, m, d) := civil_of_doe 0 doe in
  (1 <=? m) && (m <=? 12) && (1 <=? d) && (d <=? 31) &&
  (0 <=? y) && (y <=? 400) &&
  (if doe <=? 146036 then y <=? 399 else y =? 400).

Definition doeRoundTrip (doe : Z) : bool :=
  let '(y, m, d) := civil_of_doe 0 doe in
  days_from_civil y m d + 719468 =? doe.

Definition allDigits (n : nat) (s : string) : bool :=
  (length (JS.chars s) =? n)%nat && forallb JS.isDigit (JS.chars s).

(** [p] holds of the [n] integers from [from] on. *)
Fixpoint forallFrom (n : nat) (from : Z) (p : Z -> bool) : bool :=
  match n with
  | O => true
  | S n' => p from && forallFrom n' (from + 1) p
  end.

Definition upto (n : Z) (p : Z -> bool) : bool := forallFrom (Z.to_nat n) 0 p.

(** *** A reference host

    A host for worked examples.  It reads the three shapes of text that
    the parser hands to [new Date(s)] the way current engines do: a
    date-only ISO string is UTC midnight; "<weekday> <month> <day> <year>"
    (commas allowed after the weekday and the day) and "<month>/<day>/<year>"
    are midnight local time, [tz] minutes east of UTC.  It answers [NaN] to anything else and to dates whose UTC year
    does not have four digits. *)

Definition alpha : Regex.regex :=
  Regex.Class (fun c => JS.isUpper c || JS.isLower c).

Definition isoShape : Regex.regex :=
  Regex.seqs
    [Regex.Group 1 (Regex.seqs [Regex.digit; Regex.digit; Regex.digit; Regex.digit]);
     Regex.lit "-"%char; Regex.Group 2 (Regex.Seq Regex.digit Regex.digit);
     Regex.lit "-"%char; Regex.Group 3 (Regex.Seq Regex.digit Regex.digit)].

Definition longShape : Regex.regex :=
  Regex.seqs
    [Regex.plus alpha; Regex.opt (Regex.lit ","%char); Regex.plus (Regex.lit " "%char);
     Regex.Group 1 (Regex.plus alpha); Regex.plus (Regex.lit " "%char);
     Regex.Group 2 (Regex.Seq Regex.digit (Regex.opt Regex.digit));
     Regex.opt (Regex.lit ","%char); Regex.plus (Regex.lit " "%char);
     Regex.Group 3 (Regex.seqs [Regex.digit; Regex.digit; Regex.digit; Regex.digit])].

Definition slashShape : Regex.regex :=
  Regex.seqs
    [Regex.Group 1 (Regex.Seq Regex.digit (Regex.opt Regex.digit)); Regex.lit "/"%char;
     Regex.Group 2 (Regex.Seq Regex.digit (Regex.opt Regex.digit)); Regex.lit "/"%char;
     Regex.Group 3 (Regex.seqs [Regex.digit; Regex.digit; Regex.opt Regex.digit;
                                Regex.opt Regex.digit])].

(** A match of the whole of [s]. *)
Definition fullMatch (r : Regex.regex) (s : string) : option Regex.MatchResult :=
  match Regex.exec r s with
  | Some m =>
      if (Regex.index m =? 0)%nat && (Regex.lastIndex m =? String.length s)%nat
      then Some m else None
  | None => None
  end.

Definition num (n : nat) (m : Regex.MatchResult) : Z :=
  JS.digitsValue (JS.chars (Regex.group n m)).

Definition monthNames : list string :=
  ["jan"; "feb"; "mar"; "apr"; "may"; "jun"; "jul"; "aug"; "sep"; "oct";
   "nov"; "dec"].

(** The number (1..12) of a month name, read by its first three letters. *)
Definition monthOfName (name : string) : option Z :=
  let key := JS.toLowerCase (String.substring 0 3 name) in
  let i := JS.findIndex (fun n _ => String.eqb n key) monthNames in
  if i <? 0 then None else Some (i + 1).

Definition isLeap (y : Z) : bool :=
  ((y mod 4 =? 0) && negb (y mod 100 =? 0)) || (y mod 400 =? 0).

Definition daysInMonth (y m : Z) : Z :=
  if m =? 2 then (if isLeap y then 29 else 28)
  else if (m =? 4) || (m =? 6) || (m =? 9) || (m =? 11) then 30
  else 31.

(** Years of one or two digits outside the ISO shape: 0..49 mean 20xx and
    50..99 mean 19xx. *)
Definition legacyYear (y : Z) : Z :=
  if y <? 50 then y + 2000 else if y <? 100 then y + 1900 else y.

Definition localMidnight (tz y m d : Z) : option Z :=
  if (1 <=? m) && (m <=? 12) && (1 <=? d) && (d <=? 31)
  then Some ((days_from_civil y m 1 + (d - 1)) * msPerDay - tz * 60000)
  else None.

Definition inWindow (t : Z) : bool :=
  (-62167219200000 <=? t) && (t <=? 253402300799999).

Definition refParse (tz : Z) (s : string) : option Z :=
  let t :=
    match fullMatch isoShape s with
    | Some m =>
        let '(y, mo, d) := (num 1 m, num 2 m, num 3 m) in
        if (1 <=? mo) && (mo <=? 12) && (1 <=? d) && (d <=? daysInMonth y mo)
        then Some (days_from_civil y mo d * msPerDay)
        else None
    | None =>
        match fullMatch longShape s with
        | Some m =>
            match monthOfName (Regex.group 1 m) with
            | Some mo => localMidnight tz (legacyYear (num 3 m)) mo (num 2 m)
            | None => None
            end
        | None =>
            match fullMatch slashShape s with
            | Some m => localMidnight tz (legacyYear (num 3 m)) (num 1 m) (num 2 m)
            | None => None
            end
        end
    end in
  match t with
  | Some t => if inWindow t then Some t else None
  | None => None
  end.

Definition refHost (tz clock : Z) : Host :=
  {| now := clock; parse := refParse tz; localTZA := fun _ => tz * 60000 |}.

End Date.

(* ===================================================================== *)
(** ** The document tree and the roster                                   *)
(* ===================================================================== *)

(** A [th] or [td] element. *)
Record Cell : Type := { cell_innerText : string }.

(** A [tr] element: its rendered text, its [cells] collection and the
    results of [querySelectorAll('th,td')] and [querySelectorAll('td')] on
    it. *)
Record Row : Type := {
  row_innerText : string;
  row_cells : list Cell;
  row_thtd : list Cell;
  row_td : list Cell
}.

(** A [table] element: its [textContent] and the result of
    [querySelectorAll('tr')] on it. *)
Record Table : Type := {
  table_textContent : string;
  table_tr : list Row
}.

(** The parsed document: [querySelectorAll('table')] in document order and
    [body.innerText]. *)
Record Document : Type := {
  doc_tables : list Table;
  doc_bodyText : string
}.

Record AssignmentRow : Type := {
  room : string;
  prec : string;
  patient : string;
  mrn : string;
  status : string;
  rnDay : string;
  extDay : string;
  rnNight : string;
  extNight : string
}.

Record Shifts (A : Type) : Type := { day : A; night : A }.
Arguments day {A} _.
Arguments night {A} _.
Arguments Build_Shifts {A} _ _.

Record Roster : Type := {
  date : string;
  pctsDay : string;
  pctsNight : string;
  chargeNurses : Shifts string;
  assignments : list (option AssignmentRow);
  floats : Shifts (list string);
  respiratory : list string
}.

(** [Partial<Roster>] as [parseInfoTable] fills it. *)
Record PartialRoster : Type := {
  p_date : option string;
  p_pctsDay : option string;
  p_pctsNight : option string;
  p_chargeNurses : option (Shifts string)
}.

(** What [parseAssignmentsAndBottomSection] returns. *)
Record GridSections : Type := {
  g_assignments : list (option AssignmentRow);
  g_floats : Shifts (list string);
  g_respiratory : list string
}.

(** A [for (let i = from; i < to; ++i)] loop over a state. *)
Fixpoint for_loop {S : Type} (n : nat) (i : Z) (body : Z -> S -> S) (s : S) : S :=
  match n with
  | O => s
  | S n' => for_loop n' (i + 1) body (body i s)
  end.

Definition for_range {S : Type} (from to : Z) (body : Z -> S -> S) (s : S) : S :=
  for_loop (Z.to_nat (to - from)) from body s.

(* ===================================================================== *)
(** ** The parser                                                         *)
(* ===================================================================== *)

(** *** Cell and list parsing *)

Definition getCellText (cell : option Cell) : string :=
  match cell with
  | Some c => JS.trim (cell_innerText c)
  | None => ""
  end.

Definition extractListFromCell (cell : option Cell) : list string :=
  List.filter JS.truthy (map JS.trim (JS.split "010"%char (getCellText cell))).

(** *** The regular expressions of the module *)

Import Regex.

Definition weekdays : regex :=
  alts [wordi "mon"; wordi "tue"; wordi "wed"; wordi "thu"; wordi "fri";
        wordi "sat"; wordi "sun"].

Definition ordinal : regex := alts [word "st"; word "nd"; word "rd"; word "th"].
Definition ordinali : regex := alts [wordi "st"; wordi "nd"; wordi "rd"; wordi "th"].

(** [/\b(?:mon|tue|wed|thu|fri|sat|sun)\w*,?\s+\w+\s+\d{1,2}(?:st|nd|rd|th)?,?\s+\d{4}\b/i] *)
Definition dateRegex : regex :=
  seqs [WordBoundary; weekdays; star wordc; opt (lit ","%char); plus space;
        plus wordc; plus space; digit; opt digit; opt ordinali;
        opt (lit ","%char); plus space; digit; digit; digit; digit; WordBoundary].

(** [/(\d{1,2})(st|nd|rd|th)/] *)
Definition ordinalRegex : regex :=
  seqs [Group 1 (Seq digit (opt digit)); Group 2 ordinal].

(** [/,\s+/g] *)
Definition commaRegex : regex := Seq (lit ","%char) (plus space).

(** [/\d{4}-\d{2}-\d{2}/] *)
Definition isoRegex : regex :=
  seqs [digit; digit; digit; digit; lit "-"%char; digit; digit; lit "-"%char; digit; digit].

(** [/\d{1,2}\/\d{1,2}\/\d{2,4}/] *)
Definition usRegex : regex :=
  seqs [digit; opt digit; lit "/"%char; digit; opt digit; lit "/"%char;
        digit; digit; opt digit; opt digit].

(** [/(FLOAT|RESPIRATORY|CPU)/i] *)
Definition bottomLabelRegex : regex :=
  Group 1 (alts [wordi "FLOAT"; wordi "RESPIRATORY"; wordi "CPU"]).

(** [/\b(?:mon|tue|wed|thu|fri|sat|sun)/], without the [i] flag. *)
Definition weekdayRegex : regex :=
  Seq WordBoundary
      (alts [word "mon"; word "tue"; word "wed"; word "thu"; word "fri";
             word "sat"; word "sun"]).

Definition oneOf (a b : ascii) : regex :=
  Class (fun c => Ascii.eqb c a || Ascii.eqb c b).

(** [/PCT\S*:?\s*(.+?)\s*(?:7[aA]-7[pP]|DAY)/] *)
Definition pctDayRegex : regex :=
  seqs [word "PCT"; star nonspace; opt (lit ":"%char); star space;
        Group 1 (plus_lazy dot); star space;
        Alt (seqs [lit "7"%char; oneOf "a"%char "A"%char; word "-7"; oneOf "p"%char "P"%char]) (word "DAY")].

(** [/PCT\S*:?\s*(.+?)\s*(?:7[pP]-7[aA]|NIGHT)/] *)
Definition pctNightRegex : regex :=
  seqs [word "PCT"; star nonspace; opt (lit ":"%char); star space;
        Group 1 (plus_lazy dot); star space;
        Alt (seqs [lit "7"%char; oneOf "p"%char "P"%char; word "-7"; oneOf "a"%char "A"%char]) (word "NIGHT")].

(** [/CHARGE NURSE:\s*([\w\-]+)/i] *)
Definition chargeNurseRegex : regex :=
  seqs [wordi "CHARGE NURSE:"; star space;
        Group 1 (plus (Class (fun c => JS.isWordChar c || Ascii.eqb c "-"%char)))].

(** *** Date extraction *)

(** The date part of the ISO text of a valid time value. *)
Definition isoDate (t : Z) : string :=
  hd "" (JS.split "T"%char (Date.isoFormat t)).

(** [d.toISOString().split('T')[0]] *)
Definition isoDateOf (d : option Z) : completion string :=
  s ← Date.toISOString d; mret (hd "" (JS.split "T"%char s)).

Section DateExtraction.

Variable host : Date.Host.

(** [new Date().toISOString().split('T')[0]] *)
Definition today : completion string := isoDateOf (Some (Date.now host)).

Definition parseDate (input : string) : completion string :=
  let fallback :=
    let fallbackMatch :=
      match exec isoRegex input with
      | Some m => Some m
      | None => exec usRegex input
      end in
    match fallbackMatch with
    | Some fm =>
        let d := Date.parse host (matched fm) in
        if negb (Date.isNaN d) then isoDateOf d else today
    | None => today
    end in
  match exec dateRegex input with
  | Some m =>
      let cleaned :=
        replaceAll commaRegex (fun _ => " ")
          (replace ordinalRegex (group 1) (matched m)) in
      let d := Date.parse host cleaned in
      if negb (Date.isNaN d) then isoDateOf d else fallback
  | None => fallback
  end.

End DateExtraction.

(** *** Header column mapping *)

(** The test of [autoMapHeaders] on one header cell [h] for one [key]. *)
Definition headerMatches (key h : string) : bool :=
  JS.includes (JS.toLowerCase (JS.stripWhiteSpace h))
              (JS.stripWhiteSpace (JS.toLowerCase key)).

Definition autoMapHeaders (headerCells keys : list string) : gmap string Z :=
  fold_left
    (fun colIdx key =>
       let idx := JS.findIndex (fun h _ => headerMatches key h) headerCells in
       <[key := idx]> colIdx)
    keys ∅.

(** *** The assignment grid and the bottom sections *)

Definition gridKeys : list string :=
  ["room"; "prec"; "patient"; "mrn"; "status"; "rnday"; "extday"; "rnnight";
   "extnight"].

(** [cells[colMap[key]]] *)
Definition cellAt (cells : list Cell) (colMap : gmap string Z) (key : string)
  : option Cell :=
  colMap !! key ≫= JS.array_get cells.

Definition defaultRow (startRoom i : Z) : AssignmentRow :=
  {| room := JS.Number_toString (startRoom + i);
     prec := ""; patient := ""; mrn := ""; status := "";
     rnDay := ""; extDay := ""; rnNight := ""; extNight := "" |}.

(** The object literal that the assignment loop stores for a row. *)
Definition buildRow (colMap : gmap string Z) (cells : list Cell) (roomStr : string)
  : AssignmentRow :=
  {| room := roomStr;
     prec := getCellText (cellAt cells colMap "prec");
     patient := getCellText (cellAt cells colMap "patient");
     mrn := getCellText (cellAt cells colMap "mrn");
     status := getCellText (cellAt cells colMap "status");
     rnDay := getCellText (cellAt cells colMap "rnday");
     extDay := getCellText (cellAt cells colMap "extday");
     rnNight := getCellText (cellAt cells colMap "rnnight");
     extNight := getCellText (cellAt cells colMap "extnight") |}.

(** The predicate of the header search. *)
Definition isGridHeader (r : Row) : bool :=
  JS.truthy (row_innerText r) &&
  JS.includes (JS.toUpperCase (row_innerText r)) "ROOM" &&
  JS.includes (JS.toUpperCase (row_innerText r)) "PATIENT".

(** The body of the assignment loop on one row. *)
Definition placeRow (colMap : gmap string Z) (startRoom endRoom : Z)
  (row : Row) (assignments : list (option AssignmentRow))
  : list (option AssignmentRow) :=
  let cells := row_cells row in
  let roomStr := getCellText (cellAt cells colMap "room") in
  match JS.parseInt10 roomStr with
  | Some room =>
      if (startRoom <=? room) && (room <=? endRoom)
      then JS.array_set assignments (room - startRoom) (buildRow colMap cells roomStr)
      else assignments
  | None => assignments
  end.

(** The body of the bottom-section loop on one row. *)
Definition bottomRow (row : Row) (st : Shifts (list string) * list string)
  : Shifts (list string) * list string :=
  let '(floats, respiratory) := st in
  let txt := JS.toUpperCase (row_innerText row) in
  let first := JS.array_get (row_cells row) 0 in
  let floats :=
    if JS.includes txt "FLOATS" || JS.includes txt "FLOAT" then
      let floats :=
        if JS.includes txt "7A-7P"
        then {| day := extractListFromCell first; night := night floats |}
        else floats in
      if JS.includes txt "7P-7A"
      then {| day := day floats; night := extractListFromCell first |}
      else floats
    else floats in
  let respiratory :=
    if JS.includes txt "RESPIRATORY" then extractListFromCell first
    else respiratory in
  (floats, respiratory).

(** The index of the grid header, [-1] when there is none. *)
Definition headerRowIdxOf (rows : list Row) : Z :=
  JS.findIndex (fun r _ => isGridHeader r) rows.

(** The index at which the grid ends. *)
Definition gridEndIdxOf (rows : list Row) (headerRowIdx : Z) : Z :=
  let gridEndIdx :=
    JS.findIndex (fun r i => (headerRowIdx <? i) &&
                             test bottomLabelRegex (row_innerText r)) rows in
  if gridEndIdx =? -1 then Z.of_nat (length rows) else gridEndIdx.

Definition parseAssignmentsAndBottomSection
  (rows : list Row) (startRoom endRoom : Z) : completion GridSections :=
  let numRooms := endRoom - startRoom + 1 in
  let assignments :=
    JS.array_from numRooms (fun i => Some (defaultRow startRoom i)) in
  let floats := {| day := []; night := [] |} in
  let respiratory := [] in
  (* Find grid header *)
  let headerRowIdx := headerRowIdxOf rows in
  if headerRowIdx =? -1 then Throw (Error "Assignment table header not found.")
  else
    match JS.array_get rows headerRowIdx with
    | None => Throw (TypeError "headerRow is undefined")
    | Some headerRow =>
        let headerCells := map (fun c => getCellText (Some c)) (row_thtd headerRow) in
        let colMap := autoMapHeaders headerCells gridKeys in
        (* End grid at first row containing any bottom label *)
        let gridEndIdx := gridEndIdxOf rows headerRowIdx in
        (* Assignment parsing loop *)
        let assignments :=
          for_range (headerRowIdx + 1) gridEndIdx
            (fun i assignments =>
               match JS.array_get rows i with
               | None => assignments   (* if (!row || !row.cells) continue *)
               | Some row => placeRow colMap startRoom endRoom row assignments
               end)
            assignments in
        (* Bottom section *)
        let '(floats, respiratory) :=
          for_range gridEndIdx (Z.of_nat (length rows))
            (fun i st =>
               match JS.array_get rows i with
               | None => st            (* not reached: i < rows.length *)
               | Some row => bottomRow row st
               end)
            (floats, respiratory) in
        Normal {| g_assignments := assignments;
                  g_floats := floats;
                  g_respiratory := respiratory |}
    end.

Section Assembly.

Variable host : Date.Host.

(** *** The info table *)

(** The body of the loop of [parseInfoTable] on one row. *)
Definition infoRow (row : Row) (roster : PartialRoster) : completion PartialRoster :=
  let txt := JS.toUpperCase (row_innerText row) in
  (* Parse date *)
  roster ←
    (if negb (JS.truthy (default "" (p_date roster))) && test weekdayRegex txt
     then d ← parseDate host txt;
          mret {| p_date := Some d;
                  p_pctsDay := p_pctsDay roster;
                  p_pctsNight := p_pctsNight roster;
                  p_chargeNurses := p_chargeNurses roster |}
     else mret roster);
  (* Parse PCTs (any shift) *)
  let roster :=
    if JS.includes txt "PCT" then
      let roster :=
        if JS.includes txt "7A-7P" || JS.includes txt "DAY" then
          match exec pctDayRegex (row_innerText row) with
          | Some m => {| p_date := p_date roster;
                         p_pctsDay := Some (JS.trim (group 1 m));
                         p_pctsNight := p_pctsNight roster;
                         p_chargeNurses := p_chargeNurses roster |}
          | None => roster
          end
        else roster in
      if JS.includes txt "7P-7A" || JS.includes txt "NIGHT" then
        match exec pctNightRegex (row_innerText row) with
        | Some m => {| p_date := p_date roster;
                       p_pctsDay := p_pctsDay roster;
                       p_pctsNight := Some (JS.trim (group 1 m));
                       p_chargeNurses := p_chargeNurses roster |}
        | None => roster
        end
      else roster
    else roster in
  (* Parse Charge Nurse (any shift) *)
  let setCharge (f : Shifts string -> Shifts string) (roster : PartialRoster) :=
    {| p_date := p_date roster;
       p_pctsDay := p_pctsDay roster;
       p_pctsNight := p_pctsNight roster;
       p_chargeNurses := f <$> p_chargeNurses roster |} in
  mret
    (if JS.includes txt "CHARGE NURSE" then
       let roster :=
         if JS.includes txt "7A-7P" || JS.includes txt "DAY" then
           match exec chargeNurseRegex (row_innerText row) with
           | Some m =>
               setCharge (fun cn => {| day := JS.trim (group 1 m); night := night cn |})
                         roster
           | None => roster
           end
         else roster in
       if JS.includes txt "7P-7A" || JS.includes txt "NIGHT" then
         match exec chargeNurseRegex (row_innerText row) with
         | Some m =>
             setCharge (fun cn => {| day := day cn; night := JS.trim (group 1 m) |})
                       roster
         | None => roster
         end
       else roster
     else roster).

Definition parseInfoTable (table : Table) : completion PartialRoster :=
  let rows := table_tr table in
  let roster := {| p_date := None; p_pctsDay := None; p_pctsNight := None;
                   p_chargeNurses := Some {| day := ""; night := "" |} |} in
  fold_left (fun acc row => roster ← acc; infoRow row roster) rows (mret roster).

(** *** Main entry *)

Definition mentionsChargeNurse (t : Table) : bool :=
  JS.includes (JS.toUpperCase (table_textContent t)) "CHARGE NURSE".

(** The info table with its position among the tables: the first table
    with "charge nurse", or [tables[0]], or [undefined]. *)
Definition infoTableOf (tables : list Table) : option (nat * Table) :=
  match JS.find_pos mentionsChargeNurse tables with
  | Some found => Some found
  | None => (fun t => (0%nat, t)) <$> JS.array_get tables 0
  end.

(** The rows of every table that is not the info table. *)
Definition contentRowsOf (tables : list Table) (infoTable : option (nat * Table))
  : list Row :=
  let others :=
    match infoTable with
    | Some (k, _) => delete k tables
    | None => tables
    end in
  flat_map table_tr others.

Definition parseRosterFromHtml (doc : Document) : completion Roster :=
  let tables := doc_tables doc in
  (* Info table: first table with "charge nurse" or fallback *)
  let infoTable := infoTableOf tables in
  (* Assignment tables: everything else *)
  let contentRows := contentRowsOf tables infoTable in
  (* Date fallback: whole doc body *)
  let bodyText := doc_bodyText doc in
  dateFromBody ← parseDate host bodyText;
  (* Parse main data *)
  grid ← parseAssignmentsAndBottomSection contentRows 501 532;
  info ← match infoTable with
         | Some (_, t) => parseInfoTable t
         | None => Throw (TypeError "table is undefined")
         end;
  (* Date order: infoTable > body > now *)
  finalDate ←
    (if JS.truthy (default "" (p_date info)) then mret (default "" (p_date info))
     else if JS.truthy dateFromBody then mret dateFromBody
     else today host);
  mret {| date := finalDate;
          pctsDay := JS.orElse (p_pctsDay info) "";
          pctsNight := JS.orElse (p_pctsNight info) "";
          chargeNurses := default {| day := ""; night := "" |} (p_chargeNurses info);
          assignments := g_assignments grid;
          floats := g_floats grid;
          respiratory := g_respiratory grid |}.

End Assembly.

(* ===================================================================== *)
(** ** The parser of services/docProcessor.ts                             *)
(* ===================================================================== *)

(** The application imports a second version of the parser.  It shares
    [getCellText], the roster types and the shape of the assignment loop
    with the one above and differs in how it selects the tables, finds the
    grid header, reads the info table and builds the date. *)
Module DocProcessor.

(** [arr.join(sep)] *)
Fixpoint join (sep : string) (l : list string) : string :=
  match l with
  | [] => ""
  | [x] => x
  | x :: l' => x +:+ sep +:+ join sep l'
  end.

(** [arr.slice(a, b)]; a negative index counts from the end. *)
Definition clampIndex (n i : Z) : Z :=
  if i <? 0 then Z.max (n + i) 0 else Z.min i n.

Definition slice {A} (l : list A) (a b : Z) : list A :=
  let n := Z.of_nat (length l) in
  let a' := clampIndex n a in
  let b' := clampIndex n b in
  take (Z.to_nat (b' - a')) (drop (Z.to_nat a') l).

(** [arr.forEach((x, i) => ...)] and [arr.reduce((acc, x, i) => ..., acc)]
    over a state. *)
Fixpoint forEach_from {A S : Type} (f : A -> Z -> S -> S) (i : Z) (l : list A) (s : S) : S :=
  match l with
  | [] => s
  | x :: l' => forEach_from f (i + 1) l' (f x i s)
  end.

Definition forEach {A S : Type} (f : A -> Z -> S -> S) (l : list A) (s : S) : S :=
  forEach_from f 0 l s.

Definition extractListFromCell (cell : option Cell) : list string :=
  match cell with
  | None => []
  | Some _ =>
      List.filter JS.truthy (map JS.trim (JS.split "010"%char (getCellText cell)))
  end.

(** [/DATE:?/i] *)
Definition dateLabelRegex : regex := Seq (wordi "DATE") (opt (lit ":"%char)).

(** [/\b\w+, \w+ \d{1,2}(st|nd|rd|th)?, \d{4}\b/] *)
Definition longDateRegex : regex :=
  seqs [WordBoundary; plus wordc; word ", "; plus wordc; lit " "%char;
        digit; opt digit; opt (Group 1 ordinal); word ", ";
        digit; digit; digit; digit; WordBoundary].

(** [/PCT'S:?/i] *)
Definition pctLabelRegex : regex := Seq (wordi "PCT'S") (opt (lit ":"%char)).

(** [/CHARGE NURSE:\s*(#?\S+)/] *)
Definition chargeNurseRegex : regex :=
  seqs [word "CHARGE NURSE:"; star space;
        Group 1 (Seq (opt (lit "#"%char)) (plus nonspace))].

Section InfoTable.

Variable host : Date.Host.

(** The template [`${year}-${month}-${day}`] over the local getters. *)
Definition localDate (t : Z) : string :=
  JS.Number_toString (Date.getFullYear host t) +:+ "-" +:+
  Date.zeroPad 2 (Date.getMonth host t + 1) +:+ "-" +:+
  Date.zeroPad 2 (Date.getDate host t).

Definition getRowTextFromCells (row : Row) : string :=
  join " " (map (fun c => getCellText (Some c)) (row_cells row)).

(** The date read from the day-shift row, [None] when none is set. *)
Definition dateOfDayRow (dayRow : Row) : option string :=
  let cells := row_cells dayRow in
  let dateText :=
    match List.find (fun c => String.prefix "DATE"
                                (JS.toUpperCase (getCellText (Some c)))) cells with
    | Some dateCell =>
        JS.trim (replace dateLabelRegex (fun _ => "") (getCellText (Some dateCell)))
    | None =>
        match List.find (fun c => test longDateRegex (getCellText (Some c))) cells with
        | Some dateCell => JS.trim (getCellText (Some dateCell))
        | None => ""
        end
    end in
  if JS.truthy dateText then
    let parsedDate :=
      match Date.parse host dateText with
      | Some t => Some t
      | None => Date.parse host (replace ordinalRegex (group 1) dateText)
      end in
    localDate <$> parsedDate
  else None.

Definition pctsOf (row : Row) : string :=
  let cell := List.find (fun c => JS.includes (JS.toUpperCase (getCellText (Some c)))
                                              "PCT'S") (row_cells row) in
  JS.trim (replace pctLabelRegex (fun _ => "") (getCellText cell)).

(** The charge nurse of a shift row, [None] when the row sets none. *)
Definition chargeOf (row : Row) : option string :=
  match List.find (fun c => JS.includes (getCellText (Some c)) "CHARGE NURSE:")
                  (row_cells row) with
  | Some cell => group 1 <$> exec chargeNurseRegex (getCellText (Some cell))
  | None => None
  end.

Definition parseInfoTable (table : Table) : PartialRoster :=
  let rows := table_tr table in
  (* Day shift row *)
  let dayRow := List.find (fun r => JS.includes (getRowTextFromCells r) "7A-7P") rows in
  let date := dayRow ≫= dateOfDayRow in
  let pctsDay := pctsOf <$> dayRow in
  let chargeDay := default "" (dayRow ≫= chargeOf) in
  (* Night shift row *)
  let nightRow := List.find (fun r => JS.includes (getRowTextFromCells r) "7P-7A") rows in
  let pctsNight := pctsOf <$> nightRow in
  let chargeNight := default "" (nightRow ≫= chargeOf) in
  let pctsNight :=
    if JS.truthy (default "" pctsDay) && negb (JS.truthy (default "" pctsNight))
    then pctsDay else pctsNight in
  {| p_date := date; p_pctsDay := pctsDay; p_pctsNight := pctsNight;
     p_chargeNurses := Some {| day := chargeDay; night := chargeNight |} |}.

End InfoTable.

Definition INFO_KEYWORDS : list string := ["CHARGE NURSE"; "TEAM A"; "PCT'S"].
Definition GRID_HEADER_KEYWORDS : list string := ["RM"; "PATIENT"; "RN DAYS"; "RN NIGHTS"].
Definition BOTTOM_HEADER_KEYWORDS : list string :=
  ["RESPIRATORY THERAPISTS"; "FLOATS (DAYS)"; "FLOATS (NIGHTS)"].

Definition isInfoTable (t : Table) : bool :=
  existsb (fun k => JS.includes (JS.toUpperCase (table_textContent t)) k) INFO_KEYWORDS.

(** The upper-case text of a row in the search for the headers. *)
Definition rowTextUpper (row : Row) : string :=
  JS.toUpperCase (join " " (map (fun c => getCellText (Some c)) (row_thtd row))).

Definition score (keywords : list string) (rowText : string) : Z :=
  Z.of_nat (length (List.filter (fun k => JS.includes rowText k) keywords)).

(** The state of the search for the best candidate rows. *)
Record Scan : Type := {
  gridHeaderIndex : Z;
  bottomHeaderIndex : Z;
  maxGridScore : Z;
  maxBottomScore : Z
}.

Definition scanRow (row : Row) (index : Z) (st : Scan) : Scan :=
  let rowText := rowTextUpper row in
  let gridScore := score GRID_HEADER_KEYWORDS rowText in
  let st :=
    if maxGridScore st <? gridScore
    then {| gridHeaderIndex := index; bottomHeaderIndex := bottomHeaderIndex st;
            maxGridScore := gridScore; maxBottomScore := maxBottomScore st |}
    else st in
  let bottomScore := score BOTTOM_HEADER_KEYWORDS rowText in
  if maxBottomScore st <? bottomScore
  then {| gridHeaderIndex := gridHeaderIndex st; bottomHeaderIndex := index;
          maxGridScore := maxGridScore st; maxBottomScore := bottomScore |}
  else st.

Definition scan (contentRows : list Row) : Scan :=
  forEach scanRow contentRows
    {| gridHeaderIndex := -1; bottomHeaderIndex := -1;
       maxGridScore := 0; maxBottomScore := 0 |}.

(** The column indices of the grid. *)
Record ColIdx : Type := {
  c_rm : Z; c_prec : Z; c_patient : Z; c_mrn : Z; c_status : Z;
  c_rnDay : Z; c_rnNight : Z; c_extDay : Z; c_extNight : Z
}.

Definition colIdxOf (headerCells : list string) : ColIdx :=
  let getIndex := fun text => JS.findIndex (fun h _ => JS.includes h text) headerCells in
  let rnDay := getIndex "RN DAYS" in
  let rnNight := getIndex "RN NIGHTS" in
  let extIndices :=
    List.filter (fun i => -1 <? i)
      (imap (fun i h => if JS.includes h "EXT" then Z.of_nat i else -1) headerCells) in
  {| c_rm := getIndex "RM";
     c_prec := getIndex "PREC";
     c_patient := getIndex "PATIENT";
     c_mrn := getIndex "MRN";
     c_status := getIndex "STATUS";
     c_rnDay := rnDay;
     c_rnNight := rnNight;
     c_extDay :=
       default (-1)
         (List.find (fun i => (rnDay <? i) &&
                              (if -1 <? rnNight then i <? rnNight else true))
                    extIndices);
     c_extNight := default (-1) (List.find (fun i => rnNight <? i) extIndices) |}.

(** The body of the assignment loop on one row. *)
Definition placeRow (colIdx : ColIdx) (row : Row) (a : list (option AssignmentRow))
  : list (option AssignmentRow) :=
  let cells := row_cells row in
  let roomNumberStr := getCellText (JS.array_get cells (c_rm colIdx)) in
  if JS.truthy roomNumberStr then
    match JS.parseInt10 roomNumberStr with
    | Some roomNumber =>
        if (501 <=? roomNumber) && (roomNumber <=? 532)
        then JS.array_set a (roomNumber - 501)
               {| room := roomNumberStr;
                  prec := getCellText (JS.array_get cells (c_prec colIdx));
                  patient := getCellText (JS.array_get cells (c_patient colIdx));
                  mrn := getCellText (JS.array_get cells (c_mrn colIdx));
                  status := getCellText (JS.array_get cells (c_status colIdx));
                  rnDay := getCellText (JS.array_get cells (c_rnDay colIdx));
                  extDay := getCellText (JS.array_get cells (c_extDay colIdx));
                  rnNight := getCellText (JS.array_get cells (c_rnNight colIdx));
                  extNight := getCellText (JS.array_get cells (c_extNight colIdx)) |}
        else a
    | None => a
    end
  else a.

(** The columns of the bottom header. *)
Record HeaderMap : Type := {
  hm_respiratory : option Z;
  hm_floatsDay : option Z;
  hm_floatsNight : option Z
}.

Definition headerMapStep (cell : Cell) (index : Z) (acc : HeaderMap) : HeaderMap :=
  let text := JS.toUpperCase (getCellText (Some cell)) in
  {| hm_respiratory :=
       if JS.includes text "RESPIRATORY" then Some index else hm_respiratory acc;
     hm_floatsDay :=
       if JS.includes text "FLOATS (DAYS)" then Some index else hm_floatsDay acc;
     hm_floatsNight :=
       if JS.includes text "FLOATS (NIGHTS)" then Some index else hm_floatsNight acc |}.

Definition bottomPartOf (contentRows : list Row) (bottomHeaderIndex : Z)
  : Shifts (list string) * list string :=
  let empty := ({| day := []; night := [] |}, []) in
  if bottomHeaderIndex =? -1 then empty
  else
    match slice contentRows bottomHeaderIndex (Z.of_nat (length contentRows)) with
    | bottomHeaderRow :: bottomDataRow :: _ =>
        let headerMap :=
          forEach headerMapStep (row_thtd bottomHeaderRow)
            {| hm_respiratory := None; hm_floatsDay := None; hm_floatsNight := None |} in
        let dataCells := row_td bottomDataRow in
        let cellOf := fun o => extractListFromCell (o ≫= JS.array_get dataCells) in
        ({| day := match hm_floatsDay headerMap with
                   | Some _ => cellOf (hm_floatsDay headerMap)
                   | None => []
                   end;
            night := match hm_floatsNight headerMap with
                     | Some _ => cellOf (hm_floatsNight headerMap)
                     | None => []
                     end |},
         match hm_respiratory headerMap with
         | Some _ => cellOf (hm_respiratory headerMap)
         | None => []
         end)
    | _ => empty
    end.

Definition parseRosterFromHtml (host : Date.Host) (doc : Document) : completion Roster :=
  let tables := doc_tables doc in
  if (length tables <? 2)%nat then
    Throw (Error ("Parsing failed: Expected at least 2 tables (info, content), but found "
                  +:+ JS.Number_toString (Z.of_nat (length tables)) +:+ "."))
  else
    (* Identify info table based on keywords *)
    match JS.find_pos isInfoTable tables with
    | None =>
        Throw (Error "Failed to identify the main information table (Charge Nurse, PCTs).")
    | Some (k, infoTable) =>
        let contentRows := flat_map table_tr (delete k tables) in
        (* Find the best candidate row for each header based on score *)
        let st := scan contentRows in
        if (gridHeaderIndex st =? -1) || (maxGridScore st <? 3) then
          Throw (Error "Could not find the main assignment grid header row (RM, PATIENT, etc.). Please check file formats.")
        else
          let bottomHeaderIndex :=
            if (bottomHeaderIndex st =? gridHeaderIndex st) ||
               (bottomHeaderIndex st <? gridHeaderIndex st) ||
               (maxBottomScore st <? 2)
            then -1 else bottomHeaderIndex st in
          (* Parse main grid *)
          let gridBodyEndIndex :=
            if bottomHeaderIndex =? -1 then Z.of_nat (length contentRows)
            else bottomHeaderIndex in
          let gridRows := slice contentRows (gridHeaderIndex st) gridBodyEndIndex in
          match gridRows with
          | [] => Throw (TypeError "mainGridHeaderRow is undefined")
          | mainGridHeaderRow :: mainGridBodyRows =>
              let initialAssignments :=
                JS.array_from 32 (fun i => Some (defaultRow 501 i)) in
              let headerCells :=
                map (fun c => JS.toUpperCase (getCellText (Some c)))
                    (row_thtd mainGridHeaderRow) in
              let colIdx := colIdxOf headerCells in
              let assignments :=
                if c_rm colIdx =? -1 then initialAssignments
                else fold_left (fun a row => placeRow colIdx row a)
                               mainGridBodyRows initialAssignments in
              (* Parse bottom section *)
              let '(floats, respiratory) := bottomPartOf contentRows bottomHeaderIndex in
              (* Combine and finalize *)
              let infoPart := parseInfoTable host infoTable in
              finalDate ←
                (if JS.truthy (default "" (p_date infoPart))
                 then mret (default "" (p_date infoPart))
                 else today host);
              mret {| date := finalDate;
                        pctsDay := JS.orElse (p_pctsDay infoPart) "";
                        pctsNight := JS.orElse (p_pctsNight infoPart) "";
                        chargeNurses :=
                          default {| day := ""; night := "" |} (p_chargeNurses infoPart);
                        assignments := assignments;
                        floats := floats;
                        respiratory := respiratory |}
          end
    end.

End DocProcessor.

(* ===================================================================== *)
(** ** Notions used to state the properties                               *)
(* ===================================================================== *)

(** The texts of the header row's cells, as the grid parser maps them. *)
Definition headerCellsOf (headerRow : Row) : list string :=
  map (fun c => getCellText (Some c)) (row_thtd headerRow).

(** The column map that the grid parser builds for [rows]. *)
Definition colMapOf (rows : list Row) : gmap string Z :=
  match JS.array_get rows (headerRowIdxOf rows) with
  | Some headerRow => autoMapHeaders (headerCellsOf headerRow) gridKeys
  | None => ∅
  end.

(** The body of the grid: the rows after the header and before the end of
    the grid, in document order. *)
Definition bodyRowsOf (rows : list Row) : list Row :=
  let h := headerRowIdxOf rows in
  let e := gridEndIdxOf rows h in
  take (Z.to_nat (e - (h + 1))) (drop (Z.to_nat (h + 1)) rows).

(** The text of a row's room cell and the room number read from it. *)
Definition roomTextOf (colMap : gmap string Z) (row : Row) : string :=
  getCellText (cellAt (row_cells row) colMap "room").

Definition roomOf (colMap : gmap string Z) (row : Row) : option Z :=
  JS.parseInt10 (roomTextOf colMap row).

(** [row] claims room [n]. *)
Definition claimsRoom (colMap : gmap string Z) (n : Z) (row : Row) : bool :=
  match roomOf colMap row with
  | Some room => room =? n
  | None => false
  end.

(** The last row of [body], in document order, that claims room [n]. *)
Definition lastClaimOf (colMap : gmap string Z) (body : list Row) (n : Z)
  : option Row :=
  last (List.filter (claimsRoom colMap n) body).

(** The assignment row built from a body row. *)
Definition rowFrom (colMap : gmap string Z) (row : Row) : AssignmentRow :=
  buildRow colMap (row_cells row) (roomTextOf colMap row).

(** The initial array of default rows. *)
Definition initialAssignments (startRoom endRoom : Z) : list (option AssignmentRow) :=
  JS.array_from (endRoom - startRoom + 1) (fun i => Some (defaultRow startRoom i)).

(** The assignment loop over the body of the grid. *)
Definition fill (colMap : gmap string Z) (lo hi : Z) (body : list Row)
  : list (option AssignmentRow) :=
  fold_left (fun a r => placeRow colMap lo hi r a) body (initialAssignments lo hi).

(** What slot [i] holds after the assignment loop: the row built from the
    last body row that claims its room, or the default row. *)
Definition slotOf (colMap : gmap string Z) (lo : Z) (body : list Row) (i : Z)
  : AssignmentRow :=
  match lastClaimOf colMap body (lo + i) with
  | Some r => rowFrom colMap r
  | None => defaultRow lo i
  end.


(** Lowercased and stripped of white space. *)
Definition normalize (s : string) : string :=
  JS.stripWhiteSpace (JS.toLowerCase s).

(** The shape YYYY-MM-DD. *)
Definition isCanonicalDate (s : string) : bool :=
  match JS.chars s with
  | [ya; yb; yc; yd; hy; ma; mb; hm; da; db] =>
      JS.isDigit ya && JS.isDigit yb && JS.isDigit yc && JS.isDigit yd &&
      Ascii.eqb hy "-"%char && JS.isDigit ma && JS.isDigit mb &&
      Ascii.eqb hm "-"%char && JS.isDigit da && JS.isDigit db
  | _ => false
  end.

(** The text that [parseDate] hands to the host for a long-form date: the
    first match of the long-form expression, its ordinal suffix and its
    commas removed. *)
Definition longFragment (input : string) : option string :=
  (fun m => replaceAll commaRegex (fun _ => " ")
              (replace ordinalRegex (group 1) (matched m)))
  <$> exec dateRegex input.

(** The text that [parseDate] hands to the host on the fallback path: the
    first ISO date, or else the first slash-delimited date. *)
Definition fallbackFragment (input : string) : option string :=
  matched <$> (match exec isoRegex input with
               | Some m => Some m
               | None => exec usRegex input
               end).

(** Documents for worked examples: a row from the texts of its cells, a
    table from its rows, a document from its tables; the text of a node is
    the concatenation of the texts below it. *)
Definition concat_text (l : list string) : string := fold_right String.append "" l.

Definition mkRow (cells : list string) : Row :=
  {| row_innerText := concat_text cells;
     row_cells := map Build_Cell cells;
     row_thtd := map Build_Cell cells;
     row_td := map Build_Cell cells |}.

Definition mkTable (rows : list (list string)) : Table :=
  {| table_textContent := concat_text (map concat_text rows);
     table_tr := map mkRow rows |}.

Definition mkDoc (tables : list (list (list string))) : Document :=
  {| doc_tables := map mkTable tables;
     doc_bodyText := concat_text (map (fun t => table_textContent (mkTable t)) tables) |}.

(** The content rows of a document: the rows of every table but the info
    table, in document order. *)
Definition contentRows (doc : Document) : list Row :=
  contentRowsOf (doc_tables doc) (infoTableOf (doc_tables doc)).

(** The room number that a slot of the array stands for: the number read
    from the room text of the row in the slot. *)
Definition roomNumberAt (a : list (option AssignmentRow)) (i : Z) : option Z :=
  match JS.array_get a i with
  | Some (Some r) => JS.parseInt10 (room r)
  | _ => None
  end.

(** One row per room of the range [[lo, hi]], in ascending room order: the
    array has [hi - lo + 1] slots, slot [i] holds a row whose room text reads
    as the number [lo + i], room numbers grow with the slots, and a slot
    whose room no row of [body] claims holds the default row. *)
Definition oneRowPerRoom (colMap : gmap string Z) (body : list Row) (lo hi : Z)
  (a : list (option AssignmentRow)) : Prop :=
  Z.of_nat (length a) = hi - lo + 1 /\
  (forall i, 0 <= i < hi - lo + 1 ->
     exists r, JS.array_get a i = Some (Some r) /\
       JS.parseInt10 (room r) = Some (lo + i) /\
       ((forall row, row ∈ body -> roomOf colMap row <> Some (lo + i)) ->
        r = defaultRow lo i)) /\
  (forall i j m n, 0 <= i -> i < j -> j < hi - lo + 1 ->
     roomNumberAt a i = Some m -> roomNumberAt a j = Some n -> m < n).

(** A row that the assignment loop skips: its room cell does not read as a
    number, or reads as a number outside the range. *)
Definition skipped (colMap : gmap string Z) (lo hi : Z) (row : Row) : Prop :=
  match roomOf colMap row with
  | Some room => ~ (lo <= room <= hi)
  | None => True
  end.

Definition placed (colMap : gmap string Z) (lo hi : Z) (row : Row) : bool :=
  match roomOf colMap row with
  | Some room => (lo <=? room) && (room <=? hi)
  | None => false
  end.

(** The two-table document of the end-to-end scenario, with two rows that
    claim room 505 and rows with rooms that are out of range, not a number
    and empty. *)
Definition scenarioDoc : Document :=
  mkDoc [ [["CHARGE NURSE: #7501"; "7A-7P"]];
          [["ROOM"; "PATIENT"; "RN DAYS"];
           ["512"; "J. Doe"; "#7502"];
           ["505"; "A. Early"; "#1"];
           ["999"; "Z"; "#9"];
           ["505"; "B. Later"; "#2"];
           ["abc"; "Y"; "#8"];
           [""; "X"; "#7"]] ].

(** A document in which no table names the charge nurse. *)
Definition unlabelledDoc : Document :=
  mkDoc [ [["7A-7P"; "PCT'S: Ann"]];
          [["ROOM"; "PATIENT"]; ["512"; "J. Doe"]] ].

(** A host on the east coast of the United States in winter. *)
Definition hostNY : Date.Host := Date.refHost (-300) 1762041600000.


(* ===================================================================== *)
(** ** The statistics service                                             *)
(* ===================================================================== *)

(** A [Map] with string keys: its entries in the order in which their keys
    were first set. *)
Module JSMap.

Definition t (V : Type) : Type := list (string * V).

Definition get {V} (m : t V) (k : string) : option V :=
  snd <$> List.find (fun e => String.eqb (fst e) k) m.

Definition has {V} (m : t V) (k : string) : bool :=
  match get m k with Some _ => true | None => false end.

(** [m.set(k, v)]: a new key goes to the end, a key that is present keeps
    its place. *)
Definition set {V} (m : t V) (k : string) (v : V) : t V :=
  if has m k
  then map (fun e => if String.eqb (fst e) k then (k, v) else e) m
  else (m ++ [(k, v)])%list.

(** A write to the object that [m.get(k)] returns; there is none when the
    key is absent. *)
Definition update {V} (m : t V) (k : string) (f : V -> V) : t V :=
  match get m k with
  | Some v => set m k (f v)
  | None => m
  end.

(** [m.forEach(v => ...)] where the callback writes to [v]. *)
Definition forEach {V} (f : V -> V) (m : t V) : t V :=
  map (fun e => (fst e, f (snd e))) m.

(** [Array.from(m.values())] *)
Definition values {V} (m : t V) : list V := map snd m.

End JSMap.

(** The statistics of services/statsService.ts, in the version whose
    [calculateNurseStats] keeps its nurses in one [Map]. *)
Module StatsService.

(** An entry of [NurseStats.patients]. *)
Record PatientRef : Type := { pt_room : string; pt_patient : string }.

Record NurseStats : Type := {
  name : string;
  patientCount : Z;
  patients : list PatientRef;
  isTriple : bool;
  isOneToOne : bool;
  isFloat : bool;
  isHighAssignment : bool;
  chargeNurse : string
}.

(** [s && s.trim() !== ''] *)
Definition nonBlank (s : string) : bool :=
  JS.truthy s && negb (String.eqb (JS.trim s) "").

Definition initializeNurse (name chargeNurse : string) (isFloat : bool)
  (nurseMap : JSMap.t NurseStats) : JSMap.t NurseStats :=
  if negb (JSMap.has nurseMap name) then
    JSMap.set nurseMap name
      {| name := name; patientCount := 0; patients := [];
         isTriple := false; isOneToOne := false; isFloat := isFloat;
         isHighAssignment := false; chargeNurse := chargeNurse |}
  else nurseMap.

(** [stats.patientCount++; stats.patients.push({ room, patient })] *)
Definition addPatient (room patient : string) (stats : NurseStats) : NurseStats :=
  {| name := name stats;
     patientCount := patientCount stats + 1;
     patients := (patients stats ++ [{| pt_room := room; pt_patient := patient |}])%list;
     isTriple := isTriple stats; isOneToOne := isOneToOne stats;
     isFloat := isFloat stats; isHighAssignment := isHighAssignment stats;
     chargeNurse := chargeNurse stats |}.

(** [stats.isOneToOne = true] *)
Definition setOneToOne (stats : NurseStats) : NurseStats :=
  {| name := name stats; patientCount := patientCount stats;
     patients := patients stats;
     isTriple := isTriple stats; isOneToOne := true;
     isFloat := isFloat stats; isHighAssignment := isHighAssignment stats;
     chargeNurse := chargeNurse stats |}.

(** One shift of one assignment: the nurse [rn] of the shift is entered
    and, when the row names a patient, gets the patient. *)
Definition shiftStep (rn chargeNurse room patient : string)
  (nurseMap : JSMap.t NurseStats) : JSMap.t NurseStats :=
  if nonBlank rn then
    let name := JS.trim rn in
    let nurseMap := initializeNurse name chargeNurse false nurseMap in
    if nonBlank patient
    then JSMap.update nurseMap name (addPatient room patient)
    else nurseMap
  else nurseMap.

Definition markOneToOne (rn : string) (nurseMap : JSMap.t NurseStats)
  : JSMap.t NurseStats :=
  if JS.truthy rn && JSMap.has nurseMap (JS.trim rn)
  then JSMap.update nurseMap (JS.trim rn) setOneToOne
  else nurseMap.

(** The body of the loop over the assignments. *)
Definition assignmentStep (chargeNurses : Shifts string) (a : AssignmentRow)
  (nurseMap : JSMap.t NurseStats) : JSMap.t NurseStats :=
  (* Day Shift *)
  let nurseMap := shiftStep (rnDay a) (day chargeNurses) (room a) (patient a) nurseMap in
  (* Night Shift *)
  let nurseMap := shiftStep (rnNight a) (night chargeNurses) (room a) (patient a) nurseMap in
  (* High-acuity assignments *)
  if nonBlank (patient a) && nonBlank (status a) then
    let s := JS.toLowerCase (status a) in
    if JS.includes s "1:1" || JS.includes s "1-1"
    then markOneToOne (rnNight a) (markOneToOne (rnDay a) nurseMap)
    else nurseMap
  else nurseMap.

(** The final pass over the map. *)
Definition finalize (stats : NurseStats) : NurseStats :=
  {| name := name stats; patientCount := patientCount stats;
     patients := patients stats;
     isTriple := if patientCount stats =? 3 then true else isTriple stats;
     isOneToOne := isOneToOne stats;
     isFloat := isFloat stats;
     isHighAssignment :=
       if 5 <=? patientCount stats then true else isHighAssignment stats;
     chargeNurse := chargeNurse stats |}.

(** The map after the floats and the assignments, before the final pass.
    [forEach] does not visit the holes of the array. *)
Definition nurseMapOf (roster : Roster) : JSMap.t NurseStats :=
  let chargeNurses := chargeNurses roster in
  let nurseMap : JSMap.t NurseStats := [] in
  let nurseMap :=
    fold_left (fun m name => initializeNurse (JS.trim name) (day chargeNurses) true m)
              (day (floats roster)) nurseMap in
  let nurseMap :=
    fold_left (fun m name => initializeNurse (JS.trim name) (night chargeNurses) true m)
              (night (floats roster)) nurseMap in
  fold_left (fun m a => match a with
                        | Some a => assignmentStep chargeNurses a m
                        | None => m
                        end)
            (assignments roster) nurseMap.

Definition calculateNurseStats (roster : Roster) : list NurseStats :=
  JSMap.values (JSMap.forEach finalize (nurseMapOf roster)).

Record SummaryStats : Type := {
  totalNurses : Z;
  totalPatients : Z;
  totalTriples : Z;
  totalOneToOnes : Z;
  totalFloats : Z
}.

Definition calculateSummaryStats (nurseStats : list NurseStats) : SummaryStats :=
  {| totalNurses := Z.of_nat (length nurseStats);
     totalPatients := fold_left (fun sum nurse => sum + patientCount nurse) nurseStats 0;
     totalTriples := Z.of_nat (length (List.filter isTriple nurseStats));
     totalOneToOnes := Z.of_nat (length (List.filter isOneToOne nurseStats));
     totalFloats := Z.of_nat (length (List.filter isFloat nurseStats)) |}.

(** [{ ...p, patient: `${p.patient} (${date})` }] *)
Definition tagPatient (date : string) (p : PatientRef) : PatientRef :=
  {| pt_room := pt_room p;
     pt_patient := pt_patient p +:+ " (" +:+ date +:+ ")" |}.

(** The writes to an entry that is already in the aggregate. *)
Definition mergeStat (date : string) (dailyStat existing : NurseStats) : NurseStats :=
  {| name := name existing;
     patientCount := patientCount existing + patientCount dailyStat;
     patients := (patients existing ++ map (tagPatient date) (patients dailyStat))%list;
     isTriple := isTriple existing || isTriple dailyStat;
     isOneToOne := isOneToOne existing || isOneToOne dailyStat;
     isFloat := isFloat existing || isFloat dailyStat;
     isHighAssignment := isHighAssignment existing;
     chargeNurse := chargeNurse existing |}.

Definition addDailyStat (date : string) (aggregatedStats : JSMap.t NurseStats)
  (dailyStat : NurseStats) : JSMap.t NurseStats :=
  let name := name dailyStat in
  if JSMap.has aggregatedStats name
  then JSMap.update aggregatedStats name (mergeStat date dailyStat)
  else JSMap.set aggregatedStats name dailyStat.

Definition addRoster (aggregatedStats : JSMap.t NurseStats) (roster : Roster)
  : JSMap.t NurseStats :=
  fold_left (addDailyStat (date roster)) (calculateNurseStats roster) aggregatedStats.

(** [stats.isHighAssignment = stats.patientCount >= 5] *)
Definition setHighAssignment (stats : NurseStats) : NurseStats :=
  {| name := name stats; patientCount := patientCount stats;
     patients := patients stats;
     isTriple := isTriple stats; isOneToOne := isOneToOne stats;
     isFloat := isFloat stats;
     isHighAssignment := 5 <=? patientCount stats;
     chargeNurse := chargeNurse stats |}.

Definition processBatchRosters (rosters : list Roster) : list NurseStats :=
  JSMap.values (JSMap.forEach setHighAssignment (fold_left addRoster rosters [])).

End StatsService.

(* ===================================================================== *)
(** ** The export service and the list editor                             *)
(* ===================================================================== *)

Module ExportService.

(** What a cell of the report holds. *)
Inductive CellData : Type :=
| CString (s : string)
| CNumber (n : Z)
| CBoolean (b : bool).

(** [String(cellData)] *)
Definition String_ (cellData : CellData) : string :=
  match cellData with
  | CString s => s
  | CNumber n => JS.Number_toString n
  | CBoolean b => if b then "true" else "false"
  end.

Definition quote : ascii := "034"%char.

(** The class of the double quote, the comma and the line feed. *)
Definition specialRegex : regex :=
  Class (fun c => Ascii.eqb c quote || Ascii.eqb c ","%char || Ascii.eqb c "010"%char).

(** The double quote, under the [g] flag where it is used. *)
Definition quoteRegex : regex := lit quote.

Definition escapeCsvCell (cellData : CellData) : string :=
  let stringData := String_ cellData in
  if test specialRegex stringData
  then String quote (replaceAll quoteRegex (fun _ => String quote (String quote ""))
                                stringData) +:+ String quote ""
  else stringData.

End ExportService.

(** The editor of the float and respiratory lists in
    components/AssignmentGrid.tsx. *)
Module ListEditor.

(** [(values || []).join('\n')] *)
Definition text (values : list string) : string :=
  DocProcessor.join (String "010"%char "") values.

(** What [handleSave] hands to [onChange]. *)
Definition handleSave (newText : string) : list string :=
  List.filter (fun line => negb (String.eqb (JS.trim line) ""))
              (JS.split "010"%char newText).

End ListEditor.

(* ===================================================================== *)
(** ** The charts and the nurse lists of the application                  *)
(* ===================================================================== *)

(** [arr.sort(cmp)].  The host's sort is stable, so that with a consistent
    comparator its result is the one of an insertion sort that puts an
    element behind the elements that compare equal to it and come before
    it in the array. *)
Fixpoint insertBy {A} (cmp : A -> A -> Z) (x : A) (l : list A) : list A :=
  match l with
  | [] => [x]
  | y :: l' => if 0 <? cmp x y then y :: insertBy cmp x l' else x :: l
  end.

Definition sortBy {A} (cmp : A -> A -> Z) (l : list A) : list A :=
  foldr (insertBy cmp) [] l.

(** The comparator of [arr.sort()] on texts: the order of the code units. *)
Definition compareText (a b : string) : Z :=
  match String.compare a b with
  | Lt => -1
  | Eq => 0
  | Gt => 1
  end.

(** A [Set] of texts: its elements in the order in which they were first
    added. *)
Module JSSet.

Definition t : Type := list string.

Definition has (s : t) (x : string) : bool := existsb (String.eqb x) s.

Definition add (s : t) (x : string) : t :=
  if has s x then s else (s ++ [x])%list.

(** [new Set(arr)] *)
Definition from (arr : list string) : t := fold_left add arr [].

End JSSet.

(** The data of the four bar charts of components/Charts.tsx. *)
Module Charts.

Record Datum : Type := { name : string; count : Z }.

(** [nurseStats.filter(keep).map(...).sort((a, b) => b.count - a.count)
    .slice(0, 10)] *)
Definition chartData (keep : StatsService.NurseStats -> bool)
  (nurseStats : list StatsService.NurseStats) : list Datum :=
  DocProcessor.slice
    (sortBy (fun a b => count b - count a)
       (map (fun n => {| name := StatsService.name n;
                         count := StatsService.patientCount n |})
            (List.filter keep nurseStats)))
    0 10.

Definition patientCountData := chartData (fun n => 0 <? StatsService.patientCount n).
Definition floatData := chartData StatsService.isFloat.
Definition tripleData := chartData StatsService.isTriple.
Definition oneToOneData := chartData StatsService.isOneToOne.

End Charts.

(** The nurse lists that App.tsx offers to the editor of the grid. *)
Module App.

(** The nurses of one shift: the floats of the shift that are not blank,
    then the trimmed nurse of each assignment that has one, without
    duplicates and sorted.  The loop is a [for...of], which visits a hole
    of the array as [undefined] and throws on reading its nurse. *)
Definition shiftNurses (floatsOfShift : list string) (rn : AssignmentRow -> string)
  (assignments : list (option AssignmentRow)) : completion (list string) :=
  let nurses := JSSet.from (List.filter StatsService.nonBlank floatsOfShift) in
  nurses ←
    fold_left
      (fun acc assignment =>
         nurses ← acc;
         match assignment with
         | Some a =>
             if JS.truthy (rn a) && JS.truthy (JS.trim (rn a))
             then mret (JSSet.add nurses (JS.trim (rn a)))
             else mret nurses
         | None =>
             Throw (TypeError "Cannot read properties of undefined")
         end)
      assignments (mret nurses);
  mret (sortBy compareText nurses).

Definition availableNurses (liveRoster : Roster) : completion (Shifts (list string)) :=
  dayNurses ← shiftNurses (day (floats liveRoster)) rnDay (assignments liveRoster);
  nightNurses ← shiftNurses (night (floats liveRoster)) rnNight (assignments liveRoster);
  mret {| day := dayNurses; night := nightNurses |}.

End App.

(* ===================================================================== *)
(** ** Further notions used to state the properties                       *)
(* ===================================================================== *)

(** The rows of the bottom sections: from the end of the grid on. *)
Definition bottomRowsOf (rows : list Row) : list Row :=
  drop (Z.to_nat (gridEndIdxOf rows (headerRowIdxOf rows))) rows.

(** The list read from the first cell of the last row of [rows] whose
    upper-cased text satisfies [p]; the empty list when there is none. *)
Definition lastListOf (p : string -> bool) (rows : list Row) : list string :=
  match last (List.filter (fun r => p (JS.toUpperCase (row_innerText r))) rows) with
  | Some r => extractListFromCell (JS.array_get (row_cells r) 0)
  | None => []
  end.

Definition lineFeed : string := String "010"%char "".

(** A cell with two names on lines of their own and a blank line. *)
Definition listCell : Cell :=
  {| cell_innerText := " Ann" +:+ lineFeed +:+ "  " +:+ lineFeed +:+ " Bob  " |}.

(** Content rows in which a float row stands between two patient rows. *)
Definition interruptedRows : list Row :=
  [mkRow ["ROOM"; "PATIENT"]; mkRow ["512"; "J. Doe"];
   mkRow ["Ann"; "Floats 7A-7P"]; mkRow ["505"; "A. Early"];
   mkRow ["Bob"; "floats 7a-7p"]; mkRow ["Cy"; "Respiratory"]].

(** A document whose only table holds the info row and the grid. *)
Definition mergedDoc : Document :=
  mkDoc [ [["CHARGE NURSE: 7501"; "7A-7P"];
           ["ROOM"; "PATIENT"; "RN DAYS"];
           ["512"; "J. Doe"; "#7502"]] ].

(** The keyword score of a row in the search for the grid header of
    services/docProcessor.ts. *)
Definition gridScoreOf (r : Row) : Z :=
  DocProcessor.score DocProcessor.GRID_HEADER_KEYWORDS (DocProcessor.rowTextUpper r).

(** A two-table document in the dialect of services/docProcessor.ts, whose
    grid header says RM. *)
Definition rmDoc : Document :=
  mkDoc [ [["CHARGE NURSE: #7501 "; "7A-7P "; "DATE: 2025-04-04"]];
          [["PATIENT "; "NOTES"];
           ["RM "; "PATIENT "; "RN DAYS "; "RN NIGHTS"];
           ["512 "; "J. Doe "; "#7502 "; "#7503"];
           ["RM "; "PATIENT "; "RN DAYS "; "RN NIGHTS"]] ].

(** What [JSMap.update] amounts to on a map with distinct keys: the entry
    of the key, if there is one, is rewritten in place. *)
Definition alterEntry {V} (k : string) (f : V -> V) (m : JSMap.t V) : JSMap.t V :=
  map (fun e => if String.eqb (fst e) k then (fst e, f (snd e)) else e) m.

(** The patients that a row gives to the nurse [n]: the row's patient once
    for the day shift and once for the night shift, each time the nurse of
    the shift, trimmed, is [n] and the row names a patient. *)
Definition shiftPatients (n rn room patient : string) : list StatsService.PatientRef :=
  if StatsService.nonBlank rn && String.eqb (JS.trim rn) n &&
     StatsService.nonBlank patient
  then [{| StatsService.pt_room := room; StatsService.pt_patient := patient |}]
  else [].

Definition rowPatients (n : string) (o : option AssignmentRow)
  : list StatsService.PatientRef :=
  match o with
  | Some a => (shiftPatients n (rnDay a) (room a) (patient a) ++
               shiftPatients n (rnNight a) (room a) (patient a))%list
  | None => []
  end.

Definition patientsOf (n : string) (assignments : list (option AssignmentRow))
  : list StatsService.PatientRef :=
  flat_map (rowPatients n) assignments.

(** The number of staffed patient shifts of a row: one for each shift of a
    row with a patient that has a nurse. *)
Definition rowShifts (o : option AssignmentRow) : Z :=
  match o with
  | Some a =>
      (if StatsService.nonBlank (rnDay a) && StatsService.nonBlank (patient a)
       then 1 else 0) +
      (if StatsService.nonBlank (rnNight a) && StatsService.nonBlank (patient a)
       then 1 else 0)
  | None => 0
  end.

Definition patientShifts (assignments : list (option AssignmentRow)) : Z :=
  foldr (fun o acc => rowShifts o + acc) 0 assignments.

(** The sum of the patient counts of a list of statistics, and of those of
    its entries that bear the name [n]. *)
Definition sumCounts (l : list StatsService.NurseStats) : Z :=
  foldr (fun s acc => StatsService.patientCount s + acc) 0 l.

Definition countOf (n : string) (l : list StatsService.NurseStats) : Z :=
  sumCounts (List.filter (fun s => String.eqb (StatsService.name s) n) l).

(** A roster from its assignments, floats and date, for worked examples. *)
Definition mkRoster (d : string) (rows : list AssignmentRow) (floatsDay : list string)
  : Roster :=
  {| date := d; pctsDay := ""; pctsNight := "";
     chargeNurses := {| day := "#7501"; night := "#7601" |};
     assignments := map Some rows;
     floats := {| day := floatsDay; night := [] |};
     respiratory := [] |}.

Definition mkAssignment (rm pt st dayRn nightRn : string) : AssignmentRow :=
  {| room := rm; prec := ""; patient := pt; mrn := ""; status := st;
     rnDay := dayRn; extDay := ""; rnNight := nightRn; extNight := "" |}.

Definition dayOneRoster : Roster :=
  mkRoster "2025-04-04"
    [mkAssignment "501" "A" "" " Ann " "Bob";
     mkAssignment "502" "B" "1:1" "Ann" "Ann";
     mkAssignment "503" "" "" "Cy" "";
     mkAssignment "504" "D" "" "Ann" "Bob"]
    [" Fay "].

Definition dayTwoRoster : Roster :=
  mkRoster "2025-04-05"
    [mkAssignment "501" "E" "" "Ann" "Dee";
     mkAssignment "502" "F" "" "Ann" ""]
    [].

(** The invariant of the nurse map of [calculateNurseStats] while it is
    built: the keys are distinct and trimmed, each entry bears its key as
    its name, holds the patients [P] owes to its key and counts them, and
    has no flag of the final pass set; [P] owes nothing to a name that is
    not a key. *)
Definition entryOk (P : string -> list StatsService.PatientRef)
  (e : string * StatsService.NurseStats) : Prop :=
  StatsService.name (snd e) = fst e /\
  JS.trim (fst e) = fst e /\
  StatsService.patients (snd e) = P (fst e) /\
  StatsService.patientCount (snd e) =
    Z.of_nat (length (StatsService.patients (snd e))) /\
  StatsService.isTriple (snd e) = false /\
  StatsService.isHighAssignment (snd e) = false.

Definition mapOk (P : string -> list StatsService.PatientRef)
  (m : JSMap.t StatsService.NurseStats) : Prop :=
  NoDup (map fst m) /\ Forall (entryOk P) m /\
  forall k, ~ In k (map fst m) -> P k = [].

(** The invariant of the aggregate of [processBatchRosters]: the keys are
    distinct and each entry bears its key as its name and counts its
    patients. *)
Definition aggOk (m : JSMap.t StatsService.NurseStats) : Prop :=
  NoDup (map fst m) /\
  Forall (fun e => StatsService.name (snd e) = fst e /\
                   StatsService.patientCount (snd e) =
                   Z.of_nat (length (StatsService.patients (snd e)))) m.

(** The patient counts that the rosters of a batch give, day by day, to
    the name [n], and the staffed patient shifts of the batch. *)
Definition dailyCountsOf (n : string) (rosters : list Roster) : Z :=
  foldr (fun r acc => countOf n (StatsService.calculateNurseStats r) + acc) 0 rosters.

Definition batchShifts (rosters : list Roster) : Z :=
  foldr (fun r acc => patientShifts (assignments r) + acc) 0 rosters.

(** The trimmed names of the floats of a roster, and the rows that name
    [n] as the nurse of a shift. *)
Definition floatNames (roster : Roster) : list string :=
  map JS.trim (day (floats roster) ++ night (floats roster))%list.

Definition nurseNamed (n : string) (o : option AssignmentRow) : Prop :=
  match o with
  | Some a =>
      (StatsService.nonBlank (rnDay a) = true /\ n = JS.trim (rnDay a)) \/
      (StatsService.nonBlank (rnNight a) = true /\ n = JS.trim (rnNight a))
  | None => False
  end.

(** A row with a patient whose status marks a one-to-one assignment, and
    the rows that give the one-to-one flag to the name [n]: such a row on
    which the nurse of a shift is not the empty text and, trimmed, is [n]. *)
Definition highAcuity (a : AssignmentRow) : bool :=
  StatsService.nonBlank (patient a) && StatsService.nonBlank (status a) &&
  (JS.includes (JS.toLowerCase (status a)) "1:1" ||
   JS.includes (JS.toLowerCase (status a)) "1-1").

Definition oneToOneFor (n : string) (o : option AssignmentRow) : Prop :=
  match o with
  | Some a =>
      highAcuity a = true /\
      ((JS.truthy (rnDay a) = true /\ JS.trim (rnDay a) = n) \/
       (JS.truthy (rnNight a) = true /\ JS.trim (rnNight a) = n))
  | None => False
  end.

(** Notions for the grid of services/docProcessor.ts: the room number read
    from a row (none when the RM cell is empty or absent), the assignment
    row built from a row, and what a slot holds after the loop: the row
    built from the last body row that claims its room, or the default
    row. *)
Definition dpRoomOf (colIdx : DocProcessor.ColIdx) (row : Row) : option Z :=
  let roomNumberStr :=
    getCellText (JS.array_get (row_cells row) (DocProcessor.c_rm colIdx)) in
  if JS.truthy roomNumberStr then JS.parseInt10 roomNumberStr else None.

Definition dpRowFrom (colIdx : DocProcessor.ColIdx) (row : Row) : AssignmentRow :=
  let cells := row_cells row in
  {| room := getCellText (JS.array_get cells (DocProcessor.c_rm colIdx));
     prec := getCellText (JS.array_get cells (DocProcessor.c_prec colIdx));
     patient := getCellText (JS.array_get cells (DocProcessor.c_patient colIdx));
     mrn := getCellText (JS.array_get cells (DocProcessor.c_mrn colIdx));
     status := getCellText (JS.array_get cells (DocProcessor.c_status colIdx));
     rnDay := getCellText (JS.array_get cells (DocProcessor.c_rnDay colIdx));
     extDay := getCellText (JS.array_get cells (DocProcessor.c_extDay colIdx));
     rnNight := getCellText (JS.array_get cells (DocProcessor.c_rnNight colIdx));
     extNight := getCellText (JS.array_get cells (DocProcessor.c_extNight colIdx)) |}.

Definition dpClaims (colIdx : DocProcessor.ColIdx) (n : Z) (row : Row) : bool :=
  match dpRoomOf colIdx row with
  | Some room => room =? n
  | None => false
  end.

Definition dpSlotOf (colIdx : DocProcessor.ColIdx) (body : list Row) (i : Z)
  : AssignmentRow :=
  match last (List.filter (dpClaims colIdx (501 + i)) body) with
  | Some r => dpRowFrom colIdx r
  | None => defaultRow 501 i
  end.

(** The content rows and the rows of the grid (the header row first) as
    services/docProcessor.ts selects them. *)
Definition dpContentRows (doc : Document) : list Row :=
  match JS.find_pos DocProcessor.isInfoTable (doc_tables doc) with
  | Some (k, _) => flat_map table_tr (delete k (doc_tables doc))
  | None => []
  end.

Definition dpGridRows (contentRows : list Row) : list Row :=
  let st := DocProcessor.scan contentRows in
  let bottomHeaderIndex :=
    if (DocProcessor.bottomHeaderIndex st =? DocProcessor.gridHeaderIndex st) ||
       (DocProcessor.bottomHeaderIndex st <? DocProcessor.gridHeaderIndex st) ||
       (DocProcessor.maxBottomScore st <? 2)
    then -1 else DocProcessor.bottomHeaderIndex st in
  let gridBodyEndIndex :=
    if bottomHeaderIndex =? -1 then Z.of_nat (length contentRows)
    else bottomHeaderIndex in
  DocProcessor.slice contentRows (DocProcessor.gridHeaderIndex st) gridBodyEndIndex.

Definition dpColIdxOf (header : Row) : DocProcessor.ColIdx :=
  DocProcessor.colIdxOf
    (map (fun c => JS.toUpperCase (getCellText (Some c))) (row_thtd header)).

(** A document in the dialect of services/docProcessor.ts with two rows
    that claim room 505. *)
Definition rmDuplicateDoc : Document :=
  mkDoc [ [["CHARGE NURSE: #7501 "; "7A-7P "]];
          [["RM "; "PATIENT "; "RN DAYS "; "EXT "; "RN NIGHTS "; "EXT"];
           ["505 "; "A. Early "; "#1 "; "11 "; "#2 "; "12"];
           ["abc "; "X "; "#3 "; "13 "; "#4 "; "14"];
           ["505 "; "B. Later "; "#5 "; "15 "; "#6 "; "16"]] ].

(** For the extension columns of services/docProcessor.ts: [i] is the
    position of a header cell that holds EXT, and [k] is the least such
    position that satisfies [p], or -1 when there is none. *)
Definition isExtColumn (headerCells : list string) (i : Z) : Prop :=
  exists h, JS.array_get headerCells i = Some h /\ JS.includes h "EXT" = true.

Definition leastExtColumn (headerCells : list string) (p : Z -> bool) (k : Z) : Prop :=
  (k = -1 /\ forall j, isExtColumn headerCells j -> p j = false) \/
  (isExtColumn headerCells k /\ p k = true /\
   forall j, isExtColumn headerCells j -> p j = true -> k <= j).

(** A list of names without blank entries: every entry is non-empty and
    is its own trimmed form. *)
Definition cleanList (l : list string) : Prop :=
  forall e, In e l -> e <> "" /\ JS.trim e = e.

(** The day-shift row of an info table in services/docProcessor.ts. *)
Definition dpDayRowOf (t : Table) : option Row :=
  List.find (fun r => JS.includes (DocProcessor.getRowTextFromCells r) "7A-7P")
            (table_tr t).

(** The text of the day-shift row that services/docProcessor.ts hands to
    the host as the date: the text of the first cell that starts with DATE,
    the label removed, or else the text of the first cell that holds a
    long-form date; empty when there is neither. *)
Definition dpDateTextOf (dayRow : Row) : string :=
  let cells := row_cells dayRow in
  match List.find (fun c => String.prefix "DATE"
                              (JS.toUpperCase (getCellText (Some c)))) cells with
  | Some dateCell =>
      JS.trim (replace DocProcessor.dateLabelRegex (fun _ => "")
                       (getCellText (Some dateCell)))
  | None =>
      match List.find (fun c => test DocProcessor.longDateRegex (getCellText (Some c)))
                      cells with
      | Some dateCell => JS.trim (getCellText (Some dateCell))
      | None => ""
      end
  end.

(** The text [`${year}-${month}-${day}`] of a civil date, the month and the
    day padded to two digits. *)
Definition civilText (c : Z * Z * Z) : string :=
  let '(y, m, d) := c in
  JS.Number_toString y +:+ "-" +:+ Date.zeroPad 2 m +:+ "-" +:+ Date.zeroPad 2 d.

(* ===================================================================== *)
(** ** Properties: host primitives                                        *)
(* ===================================================================== *)

Section ArrayFacts.

Context {A : Type}.
Implicit Types (arr : list (option A)) (l : list A).

Lemma array_get_nonneg l (i : Z) :
  0 <= i -> JS.array_get l i = l !! Z.to_nat i.
Proof.
  intros Hi. unfold JS.array_get.
  destruct (Z.ltb_spec i 0); [lia | reflexivity].
Qed.

Lemma array_get_negative l (i : Z) : i < 0 -> JS.array_get l i = None.
Proof.
  intros Hi. unfold JS.array_get.
  destruct (Z.ltb_spec i 0); [reflexivity | lia].
Qed.

Lemma array_get_beyond l (i : Z) :
  Z.of_nat (length l) <= i -> JS.array_get l i = None.
Proof.
  intros Hi. rewrite array_get_nonneg by lia.
  apply lookup_ge_None. lia.
Qed.

Lemma array_set_inside arr (i : Z) (v : A) :
  0 <= i < Z.of_nat (length arr) ->
  JS.array_set arr i v = <[Z.to_nat i := Some v]> arr.
Proof.
  intros Hi. unfold JS.array_set.
  destruct (Z.ltb_spec i 0); [lia |].
  destruct (Nat.ltb_spec (Z.to_nat i) (length arr)); [reflexivity | lia].
Qed.

Lemma array_set_length arr (i : Z) (v : A) :
  0 <= i < Z.of_nat (length arr) ->
  length (JS.array_set arr i v) = length arr.
Proof. intros Hi. rewrite array_set_inside by done. apply length_insert. Qed.

Lemma array_from_length (n : Z) (f : Z -> A) :
  length (JS.array_from n f) = Z.to_nat n.
Proof. unfold JS.array_from. by rewrite length_map, length_seq. Qed.

Lemma array_from_lookup (n : Z) (f : Z -> A) (i : nat) :
  (i < Z.to_nat n)%nat -> JS.array_from n f !! i = Some (f (Z.of_nat i)).
Proof.
  intros Hi. unfold JS.array_from.
  rewrite list_lookup_fmap, lookup_seq_lt by done. reflexivity.
Qed.

End ArrayFacts.

Section FindIndexFacts.

Context {A : Type}.
Implicit Types (p : A -> Z -> bool) (l : list A).

Lemma findIndex_from_range p i l :
  JS.findIndex_from p i l = -1 \/
  i <= JS.findIndex_from p i l < i + Z.of_nat (length l).
Proof.
  revert i. induction l as [|x l IH]; intros i; simpl; [by left |].
  destruct (p x i); [right; lia |].
  destruct (IH (i + 1)) as [->|?]; [by left | right; lia].
Qed.

(** A result that is not [-1] is the first position that satisfies the
    predicate. *)
Lemma findIndex_from_found p i l k :
  0 <= i -> JS.findIndex_from p i l = k -> k <> -1 ->
  exists x, l !! Z.to_nat (k - i) = Some x /\ p x k = true /\
    forall j y, (j < Z.to_nat (k - i))%nat -> l !! j = Some y ->
                p y (i + Z.of_nat j) = false.
Proof.
  revert i. induction l as [|x l IH]; intros i Hi Hk Hne; simpl in Hk; [lia |].
  destruct (p x i) eqn:Hp.
  - subst k. replace (i - i) with 0 by lia. exists x. split; [done |].
    split; [done |]. intros j y Hj. simpl in Hj. lia.
  - destruct (findIndex_from_range p (i + 1) l) as [E|E]; [lia |].
    rewrite Hk in E.
    destruct (IH (i + 1)) as (y & Hy & Hpy & Hfirst); [lia | done | done |].
    exists y. replace (Z.to_nat (k - i)) with (S (Z.to_nat (k - (i + 1)))) by lia.
    split; [done |]. split; [done |].
    intros [|j] z Hj Hz; simpl in Hz.
    + inversion Hz; subst. by rewrite Z.add_0_r.
    + replace (i + Z.of_nat (S j)) with (i + 1 + Z.of_nat j) by lia.
      apply Hfirst; [lia | done].
Qed.

(** The result is [-1] exactly when no position satisfies the predicate. *)
Lemma findIndex_from_none p i l :
  JS.findIndex_from p i l = -1 <->
  (i < 0 /\ JS.findIndex_from p i l = -1) \/
  forall j y, l !! j = Some y -> p y (i + Z.of_nat j) = false.
Proof.
  split.
  - revert i. induction l as [|x l IH]; intros i H; simpl in H.
    + right. intros j y Hj. by rewrite lookup_nil in Hj.
    + destruct (p x i) eqn:Hp.
      * left. split; [lia | simpl; by rewrite Hp].
      * destruct (IH _ H) as [[Hneg _]|Hall].
        -- left. split; [lia | simpl; by rewrite Hp].
        -- right. intros [|j] y Hj; simpl in Hj.
           ++ inversion Hj; subst. by rewrite Z.add_0_r.
           ++ replace (i + Z.of_nat (S j)) with (i + 1 + Z.of_nat j) by lia.
              by apply Hall.
  - intros [[_ H]|Hall]; [done |].
    revert i Hall. induction l as [|x l IH]; intros i Hall; simpl; [done |].
    rewrite <- (Z.add_0_r i) at 1. change 0 with (Z.of_nat 0).
    rewrite (Hall 0%nat x eq_refl).
    apply IH. intros j y Hj.
    replace (i + 1 + Z.of_nat j) with (i + Z.of_nat (S j)) by lia.
    by apply Hall.
Qed.

Lemma findIndex_none p l :
  JS.findIndex p l = -1 <->
  forall j y, l !! j = Some y -> p y (Z.of_nat j) = false.
Proof.
  unfold JS.findIndex. rewrite findIndex_from_none. simpl. split.
  - intros [[? _]|H]; [lia | done].
  - intros H. by right.
Qed.

Lemma findIndex_found p l k :
  JS.findIndex p l = k -> k <> -1 ->
  0 <= k < Z.of_nat (length l) /\
  exists x, l !! Z.to_nat k = Some x /\ p x k = true /\
    forall j y, (j < Z.to_nat k)%nat -> l !! j = Some y ->
                p y (Z.of_nat j) = false.
Proof.
  intros Hk Hne. unfold JS.findIndex in Hk. split.
  - destruct (findIndex_from_range p 0 l); lia.
  - destruct (findIndex_from_found p 0 l k) as (x & Hx & Hp & Hfirst);
      [lia | done | done |].
    rewrite Z.sub_0_r in Hx, Hfirst. exists x. split; [done |]. split; [done |].
    intros j y Hj Hy. specialize (Hfirst j y Hj Hy). by rewrite Z.add_0_l in Hfirst.
Qed.

(** The first position that satisfies the predicate is the result. *)
Lemma findIndex_first p l (k : nat) x :
  l !! k = Some x -> p x (Z.of_nat k) = true ->
  (forall j y, (j < k)%nat -> l !! j = Some y -> p y (Z.of_nat j) = false) ->
  JS.findIndex p l = Z.of_nat k.
Proof.
  intros Hx Hp Hfirst.
  destruct (Z.eq_dec (JS.findIndex p l) (-1)) as [E|E].
  - rewrite findIndex_none in E. rewrite (E k x Hx) in Hp. discriminate.
  - destruct (findIndex_found p l _ eq_refl E) as (Hr & y & Hy & Hpy & Hmin).
    destruct (Z.lt_trichotomy (JS.findIndex p l) (Z.of_nat k)) as [Hlt|[Heq|Hgt]];
      [| done |].
    + rewrite <- (Z2Nat.id (JS.findIndex p l)) in Hpy by lia.
      rewrite (Hfirst (Z.to_nat (JS.findIndex p l)) y) in Hpy; [discriminate | lia | done].
    + rewrite (Hmin k x) in Hp; [discriminate | lia | done].
Qed.

End FindIndexFacts.

(** *** Printing a number and reading it back *)

Section NumberRoundTrip.

Import Decimal.

Lemma uval_of_lu (u d : uint) :
  Z.of_N (DecimalPos.Unsigned.of_lu (revapp u d)) =
  JS.uval u (Z.of_N (DecimalPos.Unsigned.of_lu d)).
Proof.
  revert d. induction u; intros d; simpl; [done | ..];
    rewrite IHu; f_equal; simpl DecimalPos.Unsigned.of_lu; lia.
Qed.

Lemma uval_of_uint (u : uint) : JS.uval u 0 = Z.of_N (Pos.of_uint u).
Proof.
  rewrite DecimalPos.Unsigned.of_uint_alt. unfold rev.
  by rewrite uval_of_lu.
Qed.

Lemma digits_of_uint (u : uint) (acc : Z) :
  JS.takeWhile JS.isDigit (JS.chars (NilEmpty.string_of_uint u)) =
  JS.chars (NilEmpty.string_of_uint u) /\
  fold_left (fun a c => 10 * a + JS.digitValue c)
            (JS.chars (NilEmpty.string_of_uint u)) acc = JS.uval u acc.
Proof.
  revert acc. unfold JS.chars.
  induction u; intros acc; [done | ..];
    cbn [NilEmpty.string_of_uint list_ascii_of_string JS.takeWhile fold_left JS.uval];
    (split; [apply (f_equal (cons _)), (IHu 0) | apply IHu]).
Qed.

Lemma parseInt10_digits (cs : list ascii) (c : ascii) :
  JS.takeWhile JS.isDigit (c :: cs) = c :: cs ->
  JS.parseInt10 (JS.str (c :: cs)) = Some (JS.digitsValue (c :: cs)).
Proof.
  intros H. unfold JS.parseInt10, JS.chars.
  unfold JS.str. rewrite list_ascii_of_string_of_list_ascii.
  assert (Hd : JS.isDigit c = true).
  { simpl in H. destruct (JS.isDigit c); [done | discriminate]. }
  assert (Hw : JS.isWhiteSpace c = false /\ Ascii.eqb c "-" = false /\
               Ascii.eqb c "+" = false).
  { revert Hd. unfold JS.isDigit, JS.isWhiteSpace, JS.code.
    destruct c as [[] [] [] [] [] [] [] []]; vm_compute; intros; try done. }
  destruct Hw as (Hw & Hm & Hp).
  unfold JS.trimStart. simpl JS.dropWhile. rewrite Hw, Hm, Hp, H. done.
Qed.

Lemma parseInt10_minus_digits (cs : list ascii) (c : ascii) :
  JS.takeWhile JS.isDigit (c :: cs) = c :: cs ->
  JS.parseInt10 (JS.str ("-"%char :: c :: cs)) = Some (- JS.digitsValue (c :: cs)).
Proof.
  intros H. unfold JS.parseInt10, JS.chars.
  unfold JS.str. rewrite list_ascii_of_string_of_list_ascii.
  unfold JS.trimStart. simpl JS.dropWhile.
  change (JS.isWhiteSpace "-") with false. cbv iota.
  change (Ascii.eqb "-" "-") with true. cbv iota.
  by rewrite H.
Qed.

Lemma chars_of_pos (p : positive) :
  exists c cs,
    JS.chars (NilEmpty.string_of_uint (Pos.to_uint p)) = c :: cs /\
    NilZero.string_of_uint (Pos.to_uint p) = JS.str (c :: cs) /\
    JS.takeWhile JS.isDigit (c :: cs) = c :: cs /\
    JS.digitsValue (c :: cs) = Z.pos p.
Proof.
  pose proof (DecimalPos.Unsigned.to_uint_nonnil p) as Hnil.
  pose proof (DecimalPos.Unsigned.of_to p) as Hval.
  destruct (digits_of_uint (Pos.to_uint p) 0) as [Hall Hfold].
  rewrite uval_of_uint, Hval in Hfold.
  destruct (JS.chars (NilEmpty.string_of_uint (Pos.to_uint p))) as [|c cs] eqn:E.
  - destruct (Pos.to_uint p); try done; discriminate.
  - exists c, cs. split; [done |]. split; [| split; [done |]].
    + unfold NilZero.string_of_uint. rewrite <- E.
      unfold JS.str, JS.chars. rewrite string_of_list_ascii_of_string.
      by destruct (Pos.to_uint p).
    + by unfold JS.digitsValue.
Qed.

(** Reading back the decimal text of an integer gives the integer. *)
Lemma parseInt10_toString (n : Z) :
  JS.parseInt10 (JS.Number_toString n) = Some n.
Proof.
  unfold JS.Number_toString. destruct n as [|p|p]; [reflexivity | |].
  - simpl. destruct (chars_of_pos p) as (c & cs & _ & -> & Hall & <-).
    by apply parseInt10_digits.
  - simpl. destruct (chars_of_pos p) as (c & cs & E & _ & Hall & Hv).
    replace (String "-" (NilZero.string_of_uint (Pos.to_uint p)))
      with (JS.str ("-"%char :: c :: cs)).
    + rewrite parseInt10_minus_digits by done. by rewrite Hv.
    + unfold JS.str. simpl. f_equal.
      destruct (chars_of_pos p) as (c' & cs' & E' & -> & _).
      rewrite E in E'. by inversion E'; subst.
Qed.

End NumberRoundTrip.

(** *** Containment *)

Lemma prefix_spec (t s : string) :
  String.prefix t s = true <-> exists b, s = t +:+ b.
Proof.
  revert s. induction t as [|c t IH]; intros s.
  - split; [intros _; by exists s | by destruct s].
  - destruct s as [|d s].
    + split; [discriminate | intros [b Hb]; discriminate].
    + change (String.prefix (String c t) (String d s))
        with (if ascii_dec c d then String.prefix t s else false).
      destruct (ascii_dec c d) as [->|Hne].
      * rewrite IH. split; intros [b Hb]; exists b.
        -- simpl. by rewrite Hb.
        -- by inversion Hb.
      * split; [discriminate | intros [b Hb]; inversion Hb; congruence].
Qed.

(** [s.includes(t)] holds exactly when [t] is a substring of [s]. *)
Lemma includes_spec (s t : string) :
  JS.includes s t = true <-> exists a b, s = a +:+ t +:+ b.
Proof.
  induction s as [|c s IH].
  - change (JS.includes "" t) with (String.prefix t "" || false).
    rewrite orb_false_r, prefix_spec. split.
    + intros [b Hb]. by exists "", b.
    + intros (a & b & H). destruct a; [by exists b | discriminate].
  - change (JS.includes (String c s) t)
      with (String.prefix t (String c s) || JS.includes s t).
    rewrite orb_true_iff, prefix_spec, IH. split.
    + intros [[b Hb]|(a & b & Hab)].
      * by exists "", b.
      * exists (String c a), b. simpl. by rewrite Hab.
    + intros (a & b & H). destruct a as [|c' a].
      * left. by exists b.
      * right. exists a, b. simpl in H. by inversion H.
Qed.

(** *** Worked examples of the primitives *)

Example trim_example : JS.trim "  512 " = "512".
Proof. reflexivity. Qed.

Example parseInt10_examples :
  JS.parseInt10 "512" = Some 512 /\ JS.parseInt10 "505A" = Some 505 /\
  JS.parseInt10 "0505" = Some 505 /\ JS.parseInt10 "-7" = Some (-7) /\
  JS.parseInt10 "abc" = None /\ JS.parseInt10 "" = None.
Proof. repeat split; reflexivity. Qed.

Example Number_toString_examples :
  JS.Number_toString 501 = "501" /\ JS.Number_toString 0 = "0" /\
  JS.Number_toString (-3) = "-3".
Proof. repeat split; reflexivity. Qed.

Example split_example :
  JS.split "010"%char ("a" +:+ String "010"%char "b") = ["a"; "b"] /\
  JS.split "010"%char "" = [""].
Proof. split; reflexivity. Qed.

Example array_set_examples :
  JS.array_set [Some 1; Some 2] 1 7 = [Some 1; Some 7] /\
  JS.array_set [Some 1; Some 2] 4 7 = [Some 1; Some 2; None; None; Some 7] /\
  JS.array_set [Some 1; Some 2] (-1) 7 = [Some 1; Some 2].
Proof. repeat split; reflexivity. Qed.

Example regex_examples :
  matched <$> exec dateRegex "Date: Fri Apr 4, 2025 7A-7P" = Some "Fri Apr 4, 2025" /\
  replace ordinalRegex (group 1) "Friday, April 4th, 2025" = "Friday, April 4, 2025" /\
  replaceAll commaRegex (fun _ => " ") "Friday, April 4,  2025" = "Friday April 4 2025" /\
  group 1 <$> exec pctDayRegex "PCT'S: Ann, Bob   7A-7P" = Some "Ann, Bob" /\
  test bottomLabelRegex "Floats 7a-7p" = true.
Proof. repeat split; vm_compute; reflexivity. Qed.

Example toISOString_examples :
  Date.toISOString (Some 1743724800000) = Normal "2025-04-04T00:00:00.000Z" /\
  Date.toISOString (Some (-1)) = Normal "1969-12-31T23:59:59.999Z" /\
  Date.toISOString (Some 253402300800000) = Normal "+010000-01-01T00:00:00.000Z" /\
  Date.toISOString None = Throw (RangeError "Invalid time value") /\
  Date.days_from_civil 2025 4 4 * Date.msPerDay = 1743724800000.
Proof. repeat split; vm_compute; reflexivity. Qed.

(* ===================================================================== *)
(** ** Properties: the assignment grid                                    *)
(* ===================================================================== *)

Section LoopFacts.

Context {S A : Type}.
Variable rows : list A.
Variable f : A -> S -> S.

(** An index loop over an array is a left fold over the slice it visits. *)
Lemma for_loop_fold (n : nat) (i : Z) (s : S) :
  0 <= i ->
  for_loop n i (fun i s => match JS.array_get rows i with
                           | None => s
                           | Some r => f r s
                           end) s =
  fold_left (fun s r => f r s) (take n (drop (Z.to_nat i) rows)) s.
Proof.
  revert i s. induction n as [|n IH]; intros i s Hi; simpl.
  - reflexivity.
  - rewrite IH by lia.
    rewrite array_get_nonneg by done.
    replace (Z.to_nat (i + 1)) with (Datatypes.S (Z.to_nat i)) by lia.
    destruct (rows !! Z.to_nat i) as [r|] eqn:Hr.
    + by rewrite (drop_S _ _ _ Hr).
    + apply lookup_ge_None in Hr.
      rewrite !drop_ge by lia. by rewrite take_nil.
Qed.

Lemma for_range_fold (from to : Z) (s : S) :
  0 <= from ->
  for_range from to (fun i s => match JS.array_get rows i with
                                | None => s
                                | Some r => f r s
                                end) s =
  fold_left (fun s r => f r s)
            (take (Z.to_nat (to - from)) (drop (Z.to_nat from) rows)) s.
Proof. intros. unfold for_range. by apply for_loop_fold. Qed.

End LoopFacts.

Lemma headerRowIdxOf_range (rows : list Row) :
  headerRowIdxOf rows <> -1 ->
  0 <= headerRowIdxOf rows < Z.of_nat (length rows).
Proof.
  intros H. by destruct (findIndex_found _ rows _ eq_refl H) as [? _].
Qed.

(** Without a header row the grid parser throws. *)
Lemma grid_throws (rows : list Row) (lo hi : Z) :
  headerRowIdxOf rows = -1 ->
  parseAssignmentsAndBottomSection rows lo hi =
  Throw (Error "Assignment table header not found.").
Proof. intros H. unfold parseAssignmentsAndBottomSection. by rewrite H. Qed.

(** With a header row the grid parser returns, and its assignments are the
    left fold of the placement step over the body of the grid. *)
Lemma grid_returns (rows : list Row) (lo hi : Z) :
  headerRowIdxOf rows <> -1 ->
  exists fl re,
    parseAssignmentsAndBottomSection rows lo hi =
    Normal {| g_assignments :=
                fill (colMapOf rows) lo hi (bodyRowsOf rows);
              g_floats := fl; g_respiratory := re |}.
Proof.
  intros H. pose proof (headerRowIdxOf_range rows H) as Hr.
  unfold parseAssignmentsAndBottomSection, colMapOf, bodyRowsOf.
  destruct (Z.eqb_spec (headerRowIdxOf rows) (-1)) as [|_]; [done |].
  rewrite array_get_nonneg by lia.
  destruct (lookup_lt_is_Some_2 rows (Z.to_nat (headerRowIdxOf rows)))
    as [headerRow Hh]; [lia |].
  rewrite Hh.
  rewrite (for_range_fold rows
             (fun r a => placeRow (autoMapHeaders _ gridKeys) lo hi r a)) by lia.
  match goal with
  | |- context [for_range ?a ?b ?body ?s] => destruct (for_range a b body s) as [fl re]
  end.
  by exists fl, re.
Qed.

Section Placement.

Variable colMap : gmap string Z.
Variables lo hi : Z.

Lemma lastClaimOf_snoc_hit body r n :
  claimsRoom colMap n r = true -> lastClaimOf colMap (body ++ [r]) n = Some r.
Proof.
  intros H. unfold lastClaimOf. rewrite List.filter_app. simpl. rewrite H.
  apply last_snoc.
Qed.

Lemma lastClaimOf_snoc_miss body r n :
  claimsRoom colMap n r = false ->
  lastClaimOf colMap (body ++ [r]) n = lastClaimOf colMap body n.
Proof.
  intros H. unfold lastClaimOf. rewrite List.filter_app. simpl. rewrite H.
  by rewrite app_nil_r.
Qed.

(** A row that is skipped leaves the array as it is. *)
Lemma placeRow_skip r a :
  (forall room, roomOf colMap r = Some room -> ~ (lo <= room <= hi)) ->
  placeRow colMap lo hi r a = a.
Proof.
  intros H. unfold placeRow. fold (roomTextOf colMap r). fold (roomOf colMap r).
  destruct (roomOf colMap r) as [room|]; [| done].
  specialize (H room eq_refl).
  destruct (Z.leb_spec lo room), (Z.leb_spec room hi); simpl; try done. lia.
Qed.

(** A row that is placed overwrites the slot of its room. *)
Lemma placeRow_hit r a room :
  roomOf colMap r = Some room -> lo <= room <= hi ->
  placeRow colMap lo hi r a = JS.array_set a (room - lo) (rowFrom colMap r).
Proof.
  intros Hroom Hr. unfold placeRow. fold (roomTextOf colMap r). fold (roomOf colMap r).
  rewrite Hroom.
  destruct (Z.leb_spec lo room), (Z.leb_spec room hi); simpl; try lia. done.
Qed.

Lemma fill_slots body :
  length (fill colMap lo hi body) = Z.to_nat (hi - lo + 1) /\
  forall i, 0 <= i < hi - lo + 1 ->
            fill colMap lo hi body !! Z.to_nat i = Some (Some (slotOf colMap lo body i)).
Proof.
  induction body as [|r body [IHlen IH]] using rev_ind.
  - split; [apply array_from_length |].
    intros i Hi. unfold fill. simpl. unfold initialAssignments.
    rewrite array_from_lookup by lia. by rewrite Z2Nat.id by lia.
  - unfold fill in *. rewrite fold_left_app. simpl.
    set (a := fold_left _ body _) in *.
    destruct (roomOf colMap r) as [room|] eqn:Hroom.
    + destruct (decide (lo <= room <= hi)) as [Hin|Hout].
      * rewrite (placeRow_hit r a room Hroom Hin).
        rewrite array_set_inside by lia.
        split; [by rewrite length_insert |].
        intros i Hi. unfold slotOf.
        destruct (decide (i = room - lo)) as [->|Hne].
        -- rewrite list_lookup_insert_eq by lia.
           rewrite lastClaimOf_snoc_hit; [done |].
           unfold claimsRoom. rewrite Hroom. apply Z.eqb_eq. lia.
        -- rewrite list_lookup_insert_ne by lia.
           rewrite lastClaimOf_snoc_miss; [by apply IH |].
           unfold claimsRoom. rewrite Hroom. apply Z.eqb_neq. lia.
      * rewrite placeRow_skip.
        2:{ intros room' E. rewrite Hroom in E. by inversion E; subst. }
        split; [done |]. intros i Hi. unfold slotOf.
        rewrite lastClaimOf_snoc_miss; [by apply IH |].
        unfold claimsRoom. rewrite Hroom. apply Z.eqb_neq. lia.
    + rewrite placeRow_skip.
      2:{ intros room' E. rewrite Hroom in E. discriminate. }
      split; [done |]. intros i Hi. unfold slotOf.
      rewrite lastClaimOf_snoc_miss; [by apply IH |].
      unfold claimsRoom. by rewrite Hroom.
Qed.

End Placement.

Lemma last_filter_Some {A} (p : A -> bool) (l : list A) (x : A) :
  last (List.filter p l) = Some x -> p x = true /\ x ∈ l.
Proof.
  intros H. apply last_Some_elem_of in H.
  apply list_elem_of_In, List.filter_In in H as [H1 H2].
  split; [done | by apply list_elem_of_In].
Qed.

Lemma last_filter_None {A} (p : A -> bool) (l : list A) :
  last (List.filter p l) = None <-> forall x, x ∈ l -> p x = false.
Proof.
  rewrite last_None. split.
  - intros H x Hx. destruct (p x) eqn:Hp; [| done].
    assert (In x (List.filter p l)) as Hin
      by (apply List.filter_In; split; [by apply list_elem_of_In | done]).
    rewrite H in Hin. destruct Hin.
  - intros H. induction l as [|y l IH]; simpl; [done |].
    rewrite (H y) by left. apply IH. intros x Hx. apply H. by right.
Qed.

Lemma claimsRoom_true colMap n row :
  claimsRoom colMap n row = true <-> roomOf colMap row = Some n.
Proof.
  unfold claimsRoom. destruct (roomOf colMap row) as [room|]; [| done].
  rewrite Z.eqb_eq. split; [by intros -> | by intros [= ->]].
Qed.

Lemma claimsRoom_false colMap n row :
  claimsRoom colMap n row = false <-> roomOf colMap row <> Some n.
Proof.
  rewrite <- claimsRoom_true. by destruct (claimsRoom colMap n row).
Qed.

(** The room text of a slot reads as the number of the slot. *)
Lemma slotOf_room colMap lo body i :
  JS.parseInt10 (room (slotOf colMap lo body i)) = Some (lo + i).
Proof.
  unfold slotOf. destruct (lastClaimOf colMap body (lo + i)) as [r|] eqn:E.
  - apply last_filter_Some in E as [E _]. by apply claimsRoom_true in E.
  - simpl. apply parseInt10_toString.
Qed.

Lemma slotOf_default colMap lo body i :
  (forall row, row ∈ body -> roomOf colMap row <> Some (lo + i)) ->
  slotOf colMap lo body i = defaultRow lo i.
Proof.
  intros H. unfold slotOf.
  replace (lastClaimOf colMap body (lo + i)) with (@None Row); [done |].
  symmetry. apply last_filter_None. intros x Hx.
  apply claimsRoom_false. by apply H.
Qed.

Lemma fill_oneRowPerRoom colMap lo hi body :
  lo <= hi -> oneRowPerRoom colMap body lo hi (fill colMap lo hi body).
Proof.
  intros Hle. destruct (fill_slots colMap lo hi body) as [Hlen Hslots].
  assert (Hnum : forall i, 0 <= i < hi - lo + 1 ->
                   roomNumberAt (fill colMap lo hi body) i = Some (lo + i)).
  { intros i Hi. unfold roomNumberAt.
    rewrite array_get_nonneg, Hslots by lia. simpl. apply slotOf_room. }
  split; [lia |]. split.
  - intros i Hi. exists (slotOf colMap lo body i).
    rewrite array_get_nonneg by lia. split; [by apply Hslots |].
    split; [apply slotOf_room | apply slotOf_default].
  - intros i j m n Hi Hij Hj Hm Hn.
    rewrite Hnum in Hm, Hn by lia. inversion Hm. inversion Hn. lia.
Qed.

(** What the grid parser returns, when it returns. *)
Lemma grid_normal_inv rows lo hi g :
  parseAssignmentsAndBottomSection rows lo hi = Normal g ->
  headerRowIdxOf rows <> -1 /\
  g_assignments g = fill (colMapOf rows) lo hi (bodyRowsOf rows).
Proof.
  intros H. destruct (Z.eq_dec (headerRowIdxOf rows) (-1)) as [E|E].
  - rewrite grid_throws in H by done. discriminate.
  - split; [done |]. destruct (grid_returns rows lo hi E) as (fl & re & E').
    rewrite E' in H. by inversion H.
Qed.

Lemma bind_Normal {A B : Type} (f : A -> completion B) (a : A) :
  Normal a ≫= f = f a.
Proof. reflexivity. Qed.

Lemma bind_Throw {A B : Type} (f : A -> completion B) (e : exn) :
  Throw e ≫= f = Throw e.
Proof. reflexivity. Qed.

(** The clock's date never throws. *)
Lemma today_returns (host : Date.Host) : today host = Normal (isoDate (Date.now host)).
Proof. reflexivity. Qed.

(** [parseDate] in terms of the two texts it hands to the host: it returns,
    and what it returns is the date of the first text that the host reads
    as a date, or the date of the clock. *)
Lemma parseDate_spec (host : Date.Host) (input : string) :
  parseDate host input =
  Normal match longFragment input ≫= Date.parse host with
         | Some t => isoDate t
         | None =>
             match fallbackFragment input ≫= Date.parse host with
             | Some t => isoDate t
             | None => isoDate (Date.now host)
             end
         end.
Proof.
  unfold parseDate, longFragment, fallbackFragment.
  destruct (exec dateRegex input) as [m|]; simpl.
  - destruct (Date.parse host _) as [t|]; [done |]. simpl.
    destruct (exec isoRegex input) as [fm|]; simpl.
    + by destruct (Date.parse host _).
    + destruct (exec usRegex input) as [fm|]; simpl; [| done].
      by destruct (Date.parse host _).
  - destruct (exec isoRegex input) as [fm|]; simpl.
    + by destruct (Date.parse host _).
    + destruct (exec usRegex input) as [fm|]; simpl; [| done].
      by destruct (Date.parse host _).
Qed.

Lemma parseDate_returns (host : Date.Host) (input : string) :
  exists s, parseDate host input = Normal s.
Proof. rewrite parseDate_spec. eauto. Qed.

(** The info-table parser returns for every table. *)
Lemma infoRow_returns (host : Date.Host) (row : Row) (roster : PartialRoster) :
  exists r, infoRow host row roster = Normal r.
Proof.
  unfold infoRow.
  destruct (negb _ && test weekdayRegex _).
  - destruct (parseDate_returns host (JS.toUpperCase (row_innerText row))) as [d ->].
    rewrite !bind_Normal. by eexists.
  - change (mret roster) with (Normal roster). rewrite bind_Normal. by eexists.
Qed.

Lemma parseInfoTable_returns (host : Date.Host) (t : Table) :
  exists p, parseInfoTable host t = Normal p.
Proof.
  unfold parseInfoTable. generalize (table_tr t).
  generalize {| p_date := None; p_pctsDay := None; p_pctsNight := None;
                p_chargeNurses := Some {| day := ""; night := "" |} |}.
  intros roster rows. change (mret roster) with (Normal roster). revert roster.
  induction rows as [|row rows IH]; intros roster; cbn [fold_left]; [eauto |].
  rewrite bind_Normal.
  destruct (infoRow_returns host row roster) as [r ->]. apply IH.
Qed.

(** The choice of the final date returns. *)
Lemma finalDate_returns (host : Date.Host) (o : option string) (d : string) :
  exists fd,
    (if JS.truthy (default "" o) then mret (default "" o)
     else if JS.truthy d then mret d else today host) = Normal fd.
Proof.
  destruct (JS.truthy (default "" o)); [by eexists |].
  destruct (JS.truthy d); by eexists.
Qed.

(** The entry point returns the assignments of the grid parser run on the
    content rows with the default room range, and the charge nurses of the
    info-table parser run on the info table. *)
Lemma roster_normal_inv host doc roster :
  parseRosterFromHtml host doc = Normal roster ->
  exists g t p,
    parseAssignmentsAndBottomSection (contentRows doc) 501 532 = Normal g /\
    snd <$> infoTableOf (doc_tables doc) = Some t /\
    parseInfoTable host t = Normal p /\
    assignments roster = g_assignments g /\
    chargeNurses roster = default {| day := ""; night := "" |} (p_chargeNurses p).
Proof.
  unfold parseRosterFromHtml, contentRows.
  destruct (parseDate_returns host (doc_bodyText doc)) as [d ->].
  rewrite bind_Normal.
  destruct (parseAssignmentsAndBottomSection _ 501 532) as [g|e];
    [rewrite bind_Normal | by rewrite bind_Throw].
  destruct (infoTableOf (doc_tables doc)) as [[k t]|]; [| by rewrite bind_Throw].
  destruct (parseInfoTable host t) as [p|e] eqn:Hp;
    [rewrite bind_Normal | by rewrite bind_Throw].
  destruct (finalDate_returns host (p_date p) d) as [fd ->].
  rewrite bind_Normal. intros [= <-]. by exists g, t, p.
Qed.

(** C1. For every room range [[lo, hi]] with [lo <= hi] and every list of
    content rows, the grid parser, when it returns, returns exactly
    [hi - lo + 1] assignment rows; slot [i] holds a row (not a hole) whose
    room text reads as the number [lo + i]; the rows are in ascending room
    order; and a slot whose room no body row claims holds the default row
    (the room number as text, every other field empty).  The same holds for
    the roster that [parseRosterFromHtml] returns, with the default range
    501..532. *)
Theorem assignments_one_row_per_room :
  (forall (rows : list Row) (lo hi : Z) (g : GridSections),
     lo <= hi ->
     parseAssignmentsAndBottomSection rows lo hi = Normal g ->
     oneRowPerRoom (colMapOf rows) (bodyRowsOf rows) lo hi (g_assignments g)) /\
  (forall (host : Date.Host) (doc : Document) (roster : Roster),
     parseRosterFromHtml host doc = Normal roster ->
     oneRowPerRoom (colMapOf (contentRows doc)) (bodyRowsOf (contentRows doc))
                   501 532 (assignments roster)).
Proof.
  split.
  - intros rows lo hi g Hle H. apply grid_normal_inv in H as [_ ->].
    by apply fill_oneRowPerRoom.
  - intros host doc roster H.
    apply roster_normal_inv in H as (g & t & p & Hg & _ & _ & -> & _).
    apply grid_normal_inv in Hg as [_ ->].
    by apply fill_oneRowPerRoom.
Qed.

Lemma assignments_one_row_per_room_witness :
  501 <= 532 /\
  (exists g,
     parseAssignmentsAndBottomSection (contentRows scenarioDoc) 501 532 = Normal g /\
     oneRowPerRoom (colMapOf (contentRows scenarioDoc))
                   (bodyRowsOf (contentRows scenarioDoc)) 501 532 (g_assignments g)) /\
  (exists roster,
     parseRosterFromHtml hostNY scenarioDoc = Normal roster /\
     oneRowPerRoom (colMapOf (contentRows scenarioDoc))
                   (bodyRowsOf (contentRows scenarioDoc)) 501 532 (assignments roster)).
Proof.
  split; [lia |]. split.
  - eexists. split; [vm_compute; reflexivity |].
    apply (proj1 assignments_one_row_per_room); [lia | vm_compute; reflexivity].
  - eexists. split; [vm_compute; reflexivity |].
    apply (proj2 assignments_one_row_per_room hostNY scenarioDoc).
    vm_compute; reflexivity.
Defined.

(** The room text of a slot is the text of the cell, which reads as the room
    number without having to be its decimal form. *)
Example room_text_is_cell_text :
  exists g,
    parseAssignmentsAndBottomSection
      [mkRow ["ROOM"; "PATIENT"]; mkRow ["0505"; "A"]; mkRow ["512 (iso)"; "B"]]
      501 532 = Normal g /\
    room <$> (JS.array_get (g_assignments g) 4 ≫= id) = Some "0505" /\
    room <$> (JS.array_get (g_assignments g) 11 ≫= id) = Some "512 (iso)".
Proof. eexists. repeat split; vm_compute; reflexivity. Qed.

(** The last claimant of a room, located by its position in the body. *)
Lemma lastClaimOf_at colMap (body : list Row) n (j : nat) (later : Row) :
  body !! j = Some later ->
  roomOf colMap later = Some n ->
  (forall k r, (j < k)%nat -> body !! k = Some r -> roomOf colMap r <> Some n) ->
  lastClaimOf colMap body n = Some later.
Proof.
  intros Hj Hlater Hafter. unfold lastClaimOf.
  rewrite <- (take_drop_middle body j later Hj).
  rewrite List.filter_app. simpl.
  replace (claimsRoom colMap n later) with true
    by (symmetry; by apply claimsRoom_true).
  replace (List.filter (claimsRoom colMap n) (drop (S j) body)) with (@nil Row).
  - apply last_snoc.
  - symmetry. apply last_None, last_filter_None. intros x Hx.
    apply list_elem_of_lookup in Hx as [k Hk]. rewrite lookup_drop in Hk.
    apply claimsRoom_false. apply (Hafter (S j + k)%nat); [lia | done].
Qed.

(** C8. When two rows of the grid body claim the same room of the range, the
    slot of that room holds the row built from the later one: whatever the
    earlier row says, after the loop the slot is the assignment row built
    from the cells of the last row that claims the room. *)
Theorem duplicate_rooms_last_write_wins
  (rows : list Row) (lo hi : Z) (g : GridSections) (n : Z) (i j : nat)
  (earlier later : Row) :
  parseAssignmentsAndBottomSection rows lo hi = Normal g ->
  lo <= n <= hi ->
  bodyRowsOf rows !! i = Some earlier ->
  bodyRowsOf rows !! j = Some later ->
  (i < j)%nat ->
  roomOf (colMapOf rows) earlier = Some n ->
  roomOf (colMapOf rows) later = Some n ->
  (forall k r, (j < k)%nat -> bodyRowsOf rows !! k = Some r ->
               roomOf (colMapOf rows) r <> Some n) ->
  JS.array_get (g_assignments g) (n - lo) =
  Some (Some (rowFrom (colMapOf rows) later)).
Proof.
  intros Hg Hn _ Hj _ _ Hlater Hlast.
  apply grid_normal_inv in Hg as [_ ->].
  destruct (fill_slots (colMapOf rows) lo hi (bodyRowsOf rows)) as [_ Hslots].
  rewrite array_get_nonneg by lia. rewrite Hslots by lia.
  unfold slotOf. replace (lo + (n - lo)) with n by lia.
  by rewrite (lastClaimOf_at _ _ n j later Hj Hlater Hlast).
Qed.

Lemma duplicate_rooms_last_write_wins_witness :
  exists g,
    parseAssignmentsAndBottomSection (contentRows scenarioDoc) 501 532 = Normal g /\
    JS.array_get (g_assignments g) (505 - 501) =
    Some (Some {| room := "505"; prec := ""; patient := "B. Later"; mrn := "";
                  status := ""; rnDay := "#2"; extDay := ""; rnNight := "";
                  extNight := "" |}).
Proof.
  eexists. split; [vm_compute; reflexivity |].
  apply (duplicate_rooms_last_write_wins
           (contentRows scenarioDoc) 501 532 _ 505 1 3
           (mkRow ["505"; "A. Early"; "#1"]) (mkRow ["505"; "B. Later"; "#2"]));
    try (vm_compute; reflexivity); try lia.
  intros k r Hk Hr.
  do 4 (destruct k as [|k]; [lia |]).
  destruct k as [|k]; [vm_compute in Hr; inversion Hr; subst; vm_compute; discriminate |].
  destruct k as [|k]; [vm_compute in Hr; inversion Hr; subst; vm_compute; discriminate |].
  vm_compute in Hr. discriminate.
Defined.

Lemma placed_false_skipped colMap lo hi row :
  placed colMap lo hi row = false -> skipped colMap lo hi row.
Proof.
  unfold placed, skipped. destruct (roomOf colMap row) as [room|]; [| done].
  destruct (Z.leb_spec lo room), (Z.leb_spec room hi); simpl; try done; lia.
Qed.

Lemma skipped_placeRow colMap lo hi row a :
  skipped colMap lo hi row -> placeRow colMap lo hi row a = a.
Proof.
  intros H. apply placeRow_skip. intros room E.
  unfold skipped in H. by rewrite E in H.
Qed.

Lemma fold_placeRow_filter colMap lo hi body a :
  fold_left (fun a r => placeRow colMap lo hi r a) body a =
  fold_left (fun a r => placeRow colMap lo hi r a)
            (List.filter (placed colMap lo hi) body) a.
Proof.
  revert a. induction body as [|r body IH]; intros a; simpl; [done |].
  destruct (placed colMap lo hi r) eqn:E; simpl; [apply IH |].
  rewrite skipped_placeRow by (by apply placed_false_skipped). apply IH.
Qed.

(** C9. Placing the rows of the grid never fails on a malformed row.  A body
    row whose room cell does not read as a number, or reads as a number
    outside the room range, leaves every slot as it was, so the loop gives
    the same array with and without such rows; "999" (with a range that ends
    below it), "abc" and the empty text are such room cells.  A column that
    the header does not have is mapped to -1, and the cell read through it
    is absent and gives the empty text.  Once the header row is found the
    grid parser returns for every list of rows. *)
Theorem malformed_rows_are_skipped :
  (forall colMap lo hi row a,
     skipped colMap lo hi row -> placeRow colMap lo hi row a = a) /\
  (forall colMap lo hi body,
     fill colMap lo hi body =
     fill colMap lo hi (List.filter (placed colMap lo hi) body)) /\
  (JS.parseInt10 "999" = Some 999 /\ JS.parseInt10 "abc" = None /\
   JS.parseInt10 "" = None) /\
  (forall (colMap : gmap string Z) cells key,
     colMap !! key = Some (-1) ->
     cellAt cells colMap key = None /\ getCellText (cellAt cells colMap key) = "") /\
  (forall rows lo hi,
     headerRowIdxOf rows <> -1 ->
     exists g, parseAssignmentsAndBottomSection rows lo hi = Normal g).
Proof.
  split; [apply skipped_placeRow |].
  split; [intros; apply fold_placeRow_filter |].
  split; [done |].
  split.
  - intros colMap cells key H. unfold cellAt. rewrite H. simpl.
    by rewrite array_get_negative by lia.
  - intros rows lo hi H. destruct (grid_returns rows lo hi H) as (fl & re & E).
    eauto.
Qed.

Lemma malformed_rows_are_skipped_witness :
  let colMap := colMapOf (contentRows scenarioDoc) in
  let a := initialAssignments 501 532 in
  placeRow colMap 501 532 (mkRow ["999"; "Z"; "#9"]) a = a /\
  placeRow colMap 501 532 (mkRow ["abc"; "Y"; "#8"]) a = a /\
  placeRow colMap 501 532 (mkRow [""; "X"; "#7"]) a = a /\
  getCellText (cellAt (row_cells (mkRow ["512"; "J. Doe"; "#7502"])) colMap "mrn") = "" /\
  exists g, parseAssignmentsAndBottomSection (contentRows scenarioDoc) 501 532 = Normal g.
Proof.
  intros colMap a.
  destruct malformed_rows_are_skipped as (Hskip & _ & _ & Hcell & Hret).
  split; [| split; [| split; [| split]]].
  - apply Hskip. unfold skipped.
    replace (roomOf colMap (mkRow ["999"; "Z"; "#9"])) with (Some 999)
      by (vm_compute; reflexivity).
    lia.
  - apply Hskip. unfold skipped.
    replace (roomOf colMap (mkRow ["abc"; "Y"; "#8"])) with (@None Z)
      by (vm_compute; reflexivity).
    exact I.
  - apply Hskip. unfold skipped.
    replace (roomOf colMap (mkRow [""; "X"; "#7"])) with (@None Z)
      by (vm_compute; reflexivity).
    exact I.
  - apply Hcell. vm_compute. reflexivity.
  - apply Hret. vm_compute. discriminate.
Defined.

(* ===================================================================== *)
(** ** Properties: table selection and the grid header                    *)
(* ===================================================================== *)




Section FindPos.

Context {A : Type}.
Implicit Types (p : A -> bool) (l : list A).

Lemma find_pos_first p l (k : nat) (x : A) :
  l !! k = Some x -> p x = true ->
  (forall j y, (j < k)%nat -> l !! j = Some y -> p y = false) ->
  JS.find_pos p l = Some (k, x).
Proof.
  intros Hx Hp Hfirst. unfold JS.find_pos.
  rewrite (findIndex_first (fun x _ => p x) l k x) by done.
  destruct (Z.ltb_spec (Z.of_nat k) 0); [lia |].
  rewrite Nat2Z.id, Hx. done.
Qed.

Lemma find_pos_none p l :
  (forall x, x ∈ l -> p x = false) -> JS.find_pos p l = None.
Proof.
  intros H. unfold JS.find_pos.
  replace (JS.findIndex (fun x _ => p x) l) with (-1); [done |].
  symmetry. apply findIndex_none. intros j y Hj. apply H.
  apply list_elem_of_lookup. eauto.
Qed.

Lemma find_pos_Some p l (k : nat) (x : A) :
  JS.find_pos p l = Some (k, x) -> l !! k = Some x.
Proof.
  unfold JS.find_pos. destruct (_ <? 0); [discriminate |].
  destruct (l !! _) eqn:E; simpl; [| discriminate]. by intros [= <- <-].
Qed.

End FindPos.

(** With at least one table there is an info table, and it is one of the
    tables of the document. *)
Lemma infoTableOf_cons (t0 : Table) (rest : list Table) :
  exists k t, infoTableOf (t0 :: rest) = Some (k, t) /\ (t0 :: rest) !! k = Some t.
Proof.
  unfold infoTableOf.
  destruct (JS.find_pos mentionsChargeNurse (t0 :: rest)) as [[k t]|] eqn:E.
  - exists k, t. split; [done |]. by apply find_pos_Some in E.
  - exists 0%nat, t0. done.
Qed.

Lemma contentRows_nil (doc : Document) :
  doc_tables doc = [] -> contentRows doc = [].
Proof. unfold contentRows. by intros ->. Qed.

(** The entry point throws exactly the error of the grid parser when the
    content rows have no header row. *)
Lemma roster_throws host doc :
  headerRowIdxOf (contentRows doc) = -1 ->
  parseRosterFromHtml host doc =
  Throw (Error "Assignment table header not found.").
Proof.
  intros H. unfold parseRosterFromHtml. fold (contentRows doc).
  destruct (parseDate_returns host (doc_bodyText doc)) as [d ->].
  rewrite bind_Normal. by rewrite grid_throws.
Qed.

(** The entry point returns when the content rows have a header row and the
    document has a table. *)
Lemma roster_returns host doc k t :
  headerRowIdxOf (contentRows doc) <> -1 ->
  infoTableOf (doc_tables doc) = Some (k, t) ->
  exists roster p,
    parseRosterFromHtml host doc = Normal roster /\
    parseInfoTable host t = Normal p /\
    assignments roster =
      fill (colMapOf (contentRows doc)) 501 532 (bodyRowsOf (contentRows doc)) /\
    chargeNurses roster = default {| day := ""; night := "" |} (p_chargeNurses p).
Proof.
  intros H Hinfo.
  destruct (grid_returns (contentRows doc) 501 532 H) as (fl & re & E).
  destruct (parseInfoTable_returns host t) as [p Hp].
  unfold parseRosterFromHtml. fold (contentRows doc).
  destruct (parseDate_returns host (doc_bodyText doc)) as [d ->].
  rewrite bind_Normal, E, bind_Normal, Hinfo, Hp, bind_Normal.
  destruct (finalDate_returns host (p_date p) d) as [fd ->].
  rewrite bind_Normal. eexists. exists p. done.
Qed.



(** C10. For a document without tables the info table is undefined and
    there are no content rows, so the search for the grid header fails and
    [parseRosterFromHtml] throws "Assignment table header not found."; it
    does not return a roster, and the error is the one of the grid parser,
    thrown before the undefined info table is looked at. *)
Theorem document_without_tables_throws (host : Date.Host) (doc : Document) :
  doc_tables doc = [] ->
  infoTableOf (doc_tables doc) = None /\
  contentRows doc = [] /\
  parseRosterFromHtml host doc =
  Throw (Error "Assignment table header not found.").
Proof.
  intros H. split; [by rewrite H |]. split; [by apply contentRows_nil |].
  apply roster_throws. rewrite (contentRows_nil doc H). reflexivity.
Qed.

Lemma document_without_tables_throws_witness :
  infoTableOf (doc_tables (mkDoc [])) = None /\
  contentRows (mkDoc []) = [] /\
  parseRosterFromHtml hostNY (mkDoc []) =
  Throw (Error "Assignment table header not found.").
Proof. apply (document_without_tables_throws hostNY (mkDoc [])). reflexivity. Defined.

(** C5. In a document with at least one table, the info table is the first
    table whose text holds "CHARGE NURSE" (in any case); when no table holds
    it, the info table is the first table of the document.  Neither case
    throws: the parse throws only the error of the missing grid header, and
    otherwise returns a roster whose charge nurses are those read from the
    chosen table. *)
Theorem metadata_table_selection
  (host : Date.Host) (doc : Document) (t0 : Table) (rest : list Table) :
  doc_tables doc = t0 :: rest ->
  (forall (k : nat) (t : Table),
     doc_tables doc !! k = Some t ->
     mentionsChargeNurse t = true ->
     (forall j t', (j < k)%nat -> doc_tables doc !! j = Some t' ->
                   mentionsChargeNurse t' = false) ->
     infoTableOf (doc_tables doc) = Some (k, t)) /\
  ((forall t, t ∈ doc_tables doc -> mentionsChargeNurse t = false) ->
   infoTableOf (doc_tables doc) = Some (0%nat, t0)) /\
  (exists k t,
     infoTableOf (doc_tables doc) = Some (k, t) /\
     ((headerRowIdxOf (contentRows doc) = -1 /\
       parseRosterFromHtml host doc =
       Throw (Error "Assignment table header not found.")) \/
      (headerRowIdxOf (contentRows doc) <> -1 /\
       exists roster p,
         parseRosterFromHtml host doc = Normal roster /\
         parseInfoTable host t = Normal p /\
         chargeNurses roster =
           default {| day := ""; night := "" |} (p_chargeNurses p)))).
Proof.
  intros Et. split; [| split].
  - intros k t Hk Hm Hfirst. unfold infoTableOf.
    by rewrite (find_pos_first mentionsChargeNurse _ k t Hk Hm Hfirst).
  - intros Hnone. unfold infoTableOf.
    rewrite (find_pos_none mentionsChargeNurse _ Hnone). by rewrite Et.
  - destruct (infoTableOf_cons t0 rest) as (k & t & Hinfo & _).
    rewrite <- Et in Hinfo. exists k, t. split; [done |].
    destruct (Z.eq_dec (headerRowIdxOf (contentRows doc)) (-1)) as [E|E].
    + left. split; [done | by apply roster_throws].
    + right. split; [done |].
      destruct (roster_returns host doc k t E Hinfo) as (roster & p & Hr & Hp & _ & Hc).
      eauto 6.
Qed.

(* ===================================================================== *)
(** ** Properties: dates                                                  *)
(* ===================================================================== *)

Lemma forallFrom_complete (n : nat) (from : Z) (p : Z -> bool) (z : Z) :
  Date.forallFrom n from p = true -> from <= z < from + Z.of_nat n -> p z = true.
Proof.
  revert from. induction n as [|n IH]; intros from H Hz; [lia |].
  simpl in H. apply andb_prop in H as [H0 H].
  destruct (Z.eq_dec z from) as [->|]; [done |].
  apply (IH (from + 1)); [done | lia].
Qed.

Lemma upto_complete (n : Z) (p : Z -> bool) (z : Z) :
  Date.upto n p = true -> 0 <= z < n -> p z = true.
Proof.
  intros H Hz. apply (forallFrom_complete _ 0 p z H). lia.
Qed.

Lemma doeOk_all : Date.upto 146097 Date.doeOk = true.
Proof. vm_compute. reflexivity. Qed.

(** Over the 400-year cycle the day number of the civil date of a day is
    that day. *)
Lemma doeRoundTrip_all : Date.upto 146097 Date.doeRoundTrip = true.
Proof. vm_compute. reflexivity. Qed.

Lemma zeroPad4_all :
  Date.upto 10000 (fun y => Date.allDigits 4 (Date.zeroPad 4 y)) = true.
Proof. vm_compute. reflexivity. Qed.

Lemma zeroPad2_all :
  Date.upto 100 (fun n => Date.allDigits 2 (Date.zeroPad 2 n)) = true.
Proof. vm_compute. reflexivity. Qed.

Lemma civil_of_doe_era (era doe : Z) :
  Date.civil_of_doe era doe =
  let '(y, m, d) := Date.civil_of_doe 0 doe in (y + era * 400, m, d).
Proof.
  unfold Date.civil_of_doe. cbv zeta.
  match goal with |- context [if ?b then _ else _] => destruct b end;
    f_equal; f_equal; lia.
Qed.

(** The civil date of a time value of the four-digit window. *)
Lemma civil_in_window (t : Z) :
  Date.fourDigitYear t ->
  exists y m d,
    Date.civil_from_days (t / Date.msPerDay) = (y, m, d) /\
    0 <= y <= 9999 /\ 1 <= m <= 12 /\ 1 <= d <= 31.
Proof.
  unfold Date.fourDigitYear, Date.msPerDay. intros Ht.
  assert (Hday : -719528 <= t / 86400000 <= 2932896).
  { pose proof (Z.div_mod t 86400000 ltac:(lia)).
    pose proof (Z.mod_pos_bound t 86400000 ltac:(lia)). lia. }
  unfold Date.civil_from_days.
  set (z := t / 86400000 + 719468).
  assert (Hz : -60 <= z <= 3652364) by (subst z; lia).
  pose proof (Z.mod_pos_bound z 146097 ltac:(lia)) as Hdoe.
  pose proof (Z.div_mod z 146097 ltac:(lia)) as Hdm.
  pose proof (upto_complete _ _ (z mod 146097) doeOk_all ltac:(lia)) as Hok.
  rewrite civil_of_doe_era. unfold Date.doeOk in Hok.
  destruct (Date.civil_of_doe 0 (z mod 146097)) as [[y m] d].
  exists (y + z / 146097 * 400), m, d. split; [done |].
  repeat (apply andb_prop in Hok as [Hok ?]).
  assert (-1 <= z / 146097 <= 24) by lia.
  destruct (Z.leb_spec (z mod 146097) 146036); lia.
Qed.

Lemma allDigits_2 (s : string) :
  Date.allDigits 2 s = true ->
  exists a b, s = String a (String b "") /\ JS.isDigit a = true /\ JS.isDigit b = true.
Proof.
  unfold Date.allDigits, JS.chars. intros H. apply andb_prop in H as [Hlen Hall].
  destruct s as [|a [|b [|c s]]]; simpl in Hlen; try discriminate.
  simpl in Hall. repeat (apply andb_prop in Hall as [? Hall]). eauto.
Qed.

Lemma allDigits_4 (s : string) :
  Date.allDigits 4 s = true ->
  exists a b c d, s = String a (String b (String c (String d ""))) /\
    JS.isDigit a = true /\ JS.isDigit b = true /\
    JS.isDigit c = true /\ JS.isDigit d = true.
Proof.
  unfold Date.allDigits, JS.chars. intros H. apply andb_prop in H as [Hlen Hall].
  destruct s as [|a [|b [|c [|d [|e s]]]]]; simpl in Hlen; try discriminate.
  simpl in Hall. repeat (apply andb_prop in Hall as [? Hall]).
  exists a, b, c, d. done.
Qed.

Lemma append_cons (a : ascii) (s t : string) :
  String a s +:+ t = String a (s +:+ t).
Proof. reflexivity. Qed.

Lemma append_nil (t : string) : "" +:+ t = t.
Proof. reflexivity. Qed.

Lemma digit_not_T (c : ascii) : JS.isDigit c = true -> Ascii.eqb c "T" = false.
Proof.
  destruct (Ascii.eqb_spec c "T") as [->|]; [discriminate | done].
Qed.

Lemma split_hd (sep c : ascii) (s : string) :
  hd "" (JS.split sep (String c s)) =
  if Ascii.eqb c sep then "" else String c (hd "" (JS.split sep s)).
Proof.
  simpl. destruct (Ascii.eqb c sep); [done |].
  destruct s; simpl; [done |].
  by destruct (Ascii.eqb _ sep), (JS.split sep s).
Qed.

(** In the four-digit window the date of [toISOString] is that of the day,
    and it has the shape YYYY-MM-DD. *)
Lemma isoDate_window (t : Z) :
  Date.fourDigitYear t ->
  isoDate t = Date.dateText (t / Date.msPerDay) /\
  isCanonicalDate (isoDate t) = true.
Proof.
  intros Ht. destruct (civil_in_window t Ht) as (y & m & d & E & Hy & Hm & Hd).
  unfold isoDate, Date.isoFormat, Date.dateText. rewrite E.
  unfold Date.isoYear.
  destruct (Z.leb_spec 0 y), (Z.leb_spec y 9999); try lia. simpl andb. cbv iota.
  destruct (allDigits_4 _ (upto_complete _ _ y zeroPad4_all ltac:(lia)))
    as (ya & yb & yc & yd & -> & Hya & Hyb & Hyc & Hyd).
  destruct (allDigits_2 _ (upto_complete _ _ m zeroPad2_all ltac:(lia)))
    as (ma & mb & -> & Hma & Hmb).
  destruct (allDigits_2 _ (upto_complete _ _ d zeroPad2_all ltac:(lia)))
    as (da & db & -> & Hda & Hdb).
  repeat (rewrite append_cons || rewrite append_nil).
  rewrite !split_hd.
  rewrite (digit_not_T ya), (digit_not_T yb), (digit_not_T yc), (digit_not_T yd),
    (digit_not_T ma), (digit_not_T mb), (digit_not_T da), (digit_not_T db) by done.
  change (Ascii.eqb "-" "T") with false. change (Ascii.eqb "T" "T") with true.
  cbv iota. split; [reflexivity |].
  unfold isCanonicalDate, JS.chars. cbn [list_ascii_of_string].
  rewrite Hya, Hyb, Hyc, Hyd, Hma, Hmb, Hda, Hdb. reflexivity.
Qed.



(** The long-form example reaches the host as "Friday April 4 2025". *)
Lemma longFragment_example :
  longFragment "Friday, April 4th, 2025" = Some "Friday April 4 2025".
Proof. vm_compute. reflexivity. Qed.

(** The date that [parseDate] returns for the long-form example is the UTC
    date of the time value that the host reads from the cleaned text. *)
Lemma parseDate_long_form (host : Date.Host) (t : Z) :
  Date.parse host "Friday April 4 2025" = Some t ->
  parseDate host "Friday, April 4th, 2025" = Normal (isoDate t).
Proof.
  intros H. rewrite parseDate_spec, longFragment_example. simpl. by rewrite H.
Qed.

(** On a host at or west of UTC (down to UTC-12:00), where the cleaned text
    is read as local midnight, the long-form example gives "2025-04-04". *)
Lemma long_form_date_west_of_utc (host : Date.Host) (tz : Z) :
  -720 <= tz <= 0 ->
  Date.parse host "Friday April 4 2025" = Some (1743724800000 - tz * 60000) ->
  parseDate host "Friday, April 4th, 2025" = Normal "2025-04-04".
Proof.
  intros Htz H. rewrite (parseDate_long_form host _ H).
  destruct (isoDate_window (1743724800000 - tz * 60000)) as [-> _].
  { unfold Date.fourDigitYear. lia. }
  replace ((1743724800000 - tz * 60000) / Date.msPerDay) with 20182.
  - reflexivity.
  - unfold Date.msPerDay. apply Z.div_unique with (r := - tz * 60000); lia.
Qed.

(** C3, first part, at the input where it fails.  On a host east of UTC (up
    to UTC+14:00), where the cleaned text "Friday April 4 2025" is read as
    local midnight, that instant lies on the third of April in UTC, and
    [parseDate], which prints the UTC date, returns "2025-04-03" for
    "Friday, April 4th, 2025". *)
Theorem long_form_date_east_of_utc (host : Date.Host) (tz : Z) :
  0 < tz <= 840 ->
  Date.parse host "Friday April 4 2025" = Some (1743724800000 - tz * 60000) ->
  parseDate host "Friday, April 4th, 2025" = Normal "2025-04-03".
Proof.
  intros Htz H. rewrite (parseDate_long_form host _ H).
  destruct (isoDate_window (1743724800000 - tz * 60000)) as [-> _].
  { unfold Date.fourDigitYear. lia. }
  replace ((1743724800000 - tz * 60000) / Date.msPerDay) with 20181.
  - reflexivity.
  - unfold Date.msPerDay.
    apply Z.div_unique with (r := 86400000 - tz * 60000); lia.
Qed.

Lemma long_form_date_east_of_utc_witness :
  parseDate (Date.refHost 60 1762041600000) "Friday, April 4th, 2025" =
  Normal "2025-04-03".
Proof.
  apply (long_form_date_east_of_utc (Date.refHost 60 1762041600000) 60); [lia |].
  vm_compute. reflexivity.
Defined.

(** The ISO example: a text that holds only "2025-04-04" gives "2025-04-04"
    on every host that reads a date-only ISO text as UTC midnight, as the
    language standard prescribes. *)
Lemma iso_date_example (host : Date.Host) :
  Date.parse host "2025-04-04" = Some 1743724800000 ->
  parseDate host "2025-04-04" = Normal "2025-04-04".
Proof.
  intros H. rewrite parseDate_spec.
  replace (longFragment "2025-04-04") with (@None string) by (vm_compute; reflexivity).
  replace (fallbackFragment "2025-04-04") with (Some "2025-04-04")
    by (vm_compute; reflexivity).
  simpl. rewrite H. vm_compute. reflexivity.
Qed.

(** A text in which none of the three expressions matches gives the date of
    the clock. *)
Lemma no_date_gives_today (host : Date.Host) (input : string) :
  exec dateRegex input = None ->
  exec isoRegex input = None ->
  exec usRegex input = None ->
  parseDate host input = Normal (isoDate (Date.now host)).
Proof.
  intros H1 H2 H3. unfold parseDate. by rewrite H1, H2, H3.
Qed.

Lemma no_date_example (clock : Z) (tz : Z) :
  parseDate (Date.refHost tz clock) "Unit census, all shifts" = Normal (isoDate clock).
Proof. apply no_date_gives_today; vm_compute; reflexivity. Qed.

(* ===================================================================== *)
(** ** Properties: the info table                                         *)
(* ===================================================================== *)

(** C4, at the input where it fails.  An info row with the text
    "CHARGE NURSE: #7501" and the day-shift token "7A-7P" leaves the
    day-shift charge nurse empty: the token after the marker must start
    with a word character or a hyphen, and '#' is neither.  The roster of
    the end-to-end scenario therefore has no charge nurse. *)
Theorem charge_nurse_hash_token_not_read (host : Date.Host) :
  exec chargeNurseRegex "CHARGE NURSE: #75017A-7P" = None /\
  parseInfoTable host (mkTable [["CHARGE NURSE: #7501"; "7A-7P"]]) =
    Normal {| p_date := None; p_pctsDay := None; p_pctsNight := None;
              p_chargeNurses := Some {| day := ""; night := "" |} |} /\
  exists roster,
    parseRosterFromHtml host scenarioDoc = Normal roster /\
    chargeNurses roster = {| day := ""; night := "" |}.
Proof.
  split; [vm_compute; reflexivity |].
  split; [vm_compute; reflexivity |].
  destruct (roster_returns host scenarioDoc 0%nat
              (mkTable [["CHARGE NURSE: #7501"; "7A-7P"]]))
    as (roster & p & E & Hp & _ & Hc).
  - vm_compute. discriminate.
  - vm_compute. reflexivity.
  - exists roster. split; [done |]. rewrite Hc.
    assert (p = {| p_date := None; p_pctsDay := None; p_pctsNight := None;
                   p_chargeNurses := Some {| day := ""; night := "" |} |}) as ->.
    { assert (Normal p = Normal {| p_date := None; p_pctsDay := None; p_pctsNight := None;
                                   p_chargeNurses := Some {| day := ""; night := "" |} |})
        as [= ->]; [| done].
      rewrite <- Hp. vm_compute. reflexivity. }
    reflexivity.
Qed.

(** Without the '#' the token is read, for the shift that the row names. *)
Lemma charge_nurse_word_token_read (host : Date.Host) :
  parseInfoTable host (mkTable [["CHARGE NURSE: 7501 "; "7A-7P"]]) =
    Normal {| p_date := None; p_pctsDay := None; p_pctsNight := None;
              p_chargeNurses := Some {| day := "7501"; night := "" |} |} /\
  parseInfoTable host (mkTable [["Charge nurse:  J-Smith "; "7P-7A"]]) =
    Normal {| p_date := None; p_pctsDay := None; p_pctsNight := None;
              p_chargeNurses := Some {| day := ""; night := "J-Smith" |} |}.
Proof. split; vm_compute; reflexivity. Qed.

(* ===================================================================== *)
(** ** Properties: the header mapper                                      *)
(* ===================================================================== *)

Lemma chars_str (l : list ascii) : JS.chars (JS.str l) = l.
Proof. apply list_ascii_of_string_of_list_ascii. Qed.

Lemma isWhiteSpace_lowerChar (c : ascii) :
  JS.isWhiteSpace (JS.lowerChar c) = JS.isWhiteSpace c.
Proof. destruct c as [[] [] [] [] [] [] [] []]; reflexivity. Qed.

(** Lowercasing and stripping white space commute. *)
Lemma toLowerCase_strip (s : string) :
  JS.toLowerCase (JS.stripWhiteSpace s) = normalize s.
Proof.
  unfold normalize, JS.toLowerCase, JS.stripWhiteSpace. rewrite !chars_str.
  f_equal. induction (JS.chars s) as [|c l IH]; simpl; [done |].
  rewrite isWhiteSpace_lowerChar. destruct (JS.isWhiteSpace c); simpl; by rewrite IH.
Qed.

Lemma headerMatches_normalize (key h : string) :
  headerMatches key h = JS.includes (normalize h) (normalize key).
Proof. unfold headerMatches. by rewrite toLowerCase_strip. Qed.

(** The object that [autoMapHeaders] builds has, for each of the keys, the
    index that [findIndex] gives for it. *)
Lemma autoMapHeaders_lookup (headerCells keys : list string) (key : string) :
  key ∈ keys ->
  autoMapHeaders headerCells keys !! key =
  Some (JS.findIndex (fun h _ => headerMatches key h) headerCells).
Proof.
  unfold autoMapHeaders. generalize (∅ : gmap string Z).
  induction keys as [|k keys IH] using rev_ind; intros m Hin.
  - by apply elem_of_nil in Hin.
  - rewrite fold_left_app. simpl.
    destruct (decide (key = k)) as [->|Hne].
    + apply lookup_insert_eq.
    + rewrite lookup_insert_ne by done. apply IH.
      apply elem_of_app in Hin as [Hin|Hin]; [done |].
      apply list_elem_of_singleton in Hin. done.
Qed.

(** C7. For every list of header cell texts and every key of the key list,
    [autoMapHeaders] maps the key to the index of the first header cell
    whose lowercased text without white space contains the lowercased key
    without white space, and to -1 when no cell does.  A header "RN Day's"
    is found under the key "rnday", and a grid with that header reads the
    day nurse from that column. *)
Theorem header_mapping :
  (forall (headerCells keys : list string) (key : string),
     key ∈ keys ->
     exists idx,
       autoMapHeaders headerCells keys !! key = Some idx /\
       ((idx = -1 /\
         forall h, h ∈ headerCells ->
                   JS.includes (normalize h) (normalize key) = false) \/
        (exists (k : nat) (h : string),
           idx = Z.of_nat k /\ headerCells !! k = Some h /\
           JS.includes (normalize h) (normalize key) = true /\
           forall j h', (j < k)%nat -> headerCells !! j = Some h' ->
                        JS.includes (normalize h') (normalize key) = false))) /\
  autoMapHeaders ["RN Day's"] ["rnday"] !! "rnday" = Some 0 /\
  autoMapHeaders ["ROOM"; "PATIENT"; "RN Day's"] gridKeys !! "rnday" = Some 2 /\
  (exists g,
     parseAssignmentsAndBottomSection
       [mkRow ["ROOM"; "PATIENT"; "RN Day's"]; mkRow ["512"; "J. Doe"; "#7502"]]
       501 532 = Normal g /\
     rnDay <$> (JS.array_get (g_assignments g) (512 - 501) ≫= id) = Some "#7502").
Proof.
  split; [| split; [| split]].
  - intros headerCells keys key Hin.
    exists (JS.findIndex (fun h _ => headerMatches key h) headerCells).
    split; [by apply autoMapHeaders_lookup |].
    destruct (Z.eq_dec (JS.findIndex (fun h _ => headerMatches key h) headerCells) (-1))
      as [E|E].
    + left. split; [done |]. intros h Hh.
      apply list_elem_of_lookup in Hh as [j Hj].
      rewrite <- headerMatches_normalize.
      by apply (proj1 (findIndex_none _ _) E j).
    + right. destruct (findIndex_found _ _ _ eq_refl E) as (Hr & h & Hh & Hp & Hfirst).
      exists (Z.to_nat (JS.findIndex (fun h _ => headerMatches key h) headerCells)), h.
      split; [lia |]. split; [done |].
      split; [by rewrite <- headerMatches_normalize |].
      intros j h' Hj Hh'. rewrite <- headerMatches_normalize. by apply (Hfirst j).
  - vm_compute. reflexivity.
  - vm_compute. reflexivity.
  - eexists. split; vm_compute; reflexivity.
Qed.

Lemma header_mapping_witness :
  exists idx,
    autoMapHeaders ["ROOM"; "PATIENT"; "RN Day's"] gridKeys !! "rnday" = Some idx /\
    ((idx = -1 /\
      forall h, h ∈ ["ROOM"; "PATIENT"; "RN Day's"] ->
                JS.includes (normalize h) (normalize "rnday") = false) \/
     (exists (k : nat) (h : string),
        idx = Z.of_nat k /\ ["ROOM"; "PATIENT"; "RN Day's"] !! k = Some h /\
        JS.includes (normalize h) (normalize "rnday") = true /\
        forall j h', (j < k)%nat -> ["ROOM"; "PATIENT"; "RN Day's"] !! j = Some h' ->
                     JS.includes (normalize h') (normalize "rnday") = false)).
Proof.
  apply (proj1 header_mapping ["ROOM"; "PATIENT"; "RN Day's"] gridKeys "rnday").
  apply list_elem_of_In. simpl. auto 10.
Defined.

Lemma metadata_table_selection_witness :
  infoTableOf (doc_tables scenarioDoc) =
    Some (0%nat, mkTable [["CHARGE NURSE: #7501"; "7A-7P"]]) /\
  infoTableOf (doc_tables unlabelledDoc) =
    Some (0%nat, mkTable [["7A-7P"; "PCT'S: Ann"]]) /\
  exists roster, parseRosterFromHtml hostNY unlabelledDoc = Normal roster.
Proof.
  pose proof (metadata_table_selection hostNY scenarioDoc
                (mkTable [["CHARGE NURSE: #7501"; "7A-7P"]])
                (tail (doc_tables scenarioDoc)) eq_refl) as (Hfirst & _ & _).
  pose proof (metadata_table_selection hostNY unlabelledDoc
                (mkTable [["7A-7P"; "PCT'S: Ann"]])
                (tail (doc_tables unlabelledDoc)) eq_refl) as (_ & Hnone & Hparse).
  split; [| split].
  - apply (Hfirst 0%nat); [reflexivity | vm_compute; reflexivity | intros; lia].
  - apply Hnone. intros t Ht. vm_compute in Ht.
    repeat (apply elem_of_cons in Ht as [->|Ht]; [vm_compute; reflexivity |]).
    by apply elem_of_nil in Ht.
  - destruct Hparse as (k & t & _ & [[E _]|[_ (roster & p & E & _)]]).
    + vm_compute in E. discriminate.
    + by exists roster.
Defined.

(* ===================================================================== *)
(** ** Properties: the parser of services/docProcessor.ts                 *)
(* ===================================================================== *)

(** This version asks for two tables: with fewer it throws, also when the
    only table is the info table. *)
Lemma docProcessor_needs_two_tables (host : Date.Host) (doc : Document) :
  (length (doc_tables doc) < 2)%nat ->
  DocProcessor.parseRosterFromHtml host doc =
  Throw (Error ("Parsing failed: Expected at least 2 tables (info, content), but found "
                +:+ JS.Number_toString (Z.of_nat (length (doc_tables doc))) +:+ ".")).
Proof.
  intros H. unfold DocProcessor.parseRosterFromHtml.
  destruct (Nat.ltb_spec (length (doc_tables doc)) 2); [done | lia].
Qed.

(** This version has no fallback to the first table: when no table holds
    one of its keywords it throws. *)
Lemma docProcessor_needs_info_keyword (host : Date.Host) (doc : Document) :
  (2 <= length (doc_tables doc))%nat ->
  (forall t, t ∈ doc_tables doc -> DocProcessor.isInfoTable t = false) ->
  DocProcessor.parseRosterFromHtml host doc =
  Throw (Error "Failed to identify the main information table (Charge Nurse, PCTs).").
Proof.
  intros Hlen Hnone. unfold DocProcessor.parseRosterFromHtml.
  destruct (Nat.ltb_spec (length (doc_tables doc)) 2); [lia |].
  by rewrite (find_pos_none DocProcessor.isInfoTable _ Hnone).
Qed.

(** The document of the end-to-end scenario is not in the dialect of this
    version, whose grid header says "RM": it throws on it. *)
Lemma docProcessor_scenario (host : Date.Host) :
  DocProcessor.parseRosterFromHtml host scenarioDoc =
  Throw (Error "Could not find the main assignment grid header row (RM, PATIENT, etc.). Please check file formats.").
Proof. vm_compute. reflexivity. Qed.

(** This version reads a charge nurse that starts with '#'. *)
Lemma docProcessor_reads_hash_token (host : Date.Host) :
  p_chargeNurses
    (DocProcessor.parseInfoTable host (mkTable [["CHARGE NURSE: #7501"; "7A-7P"]])) =
  Some {| day := "#7501"; night := "" |}.
Proof. vm_compute. reflexivity. Qed.

(** This version prints the local date of what the host reads, so that a
    long-form date read as local midnight keeps its day in every time
    zone. *)
Lemma docProcessor_long_form_date (host : Date.Host) (tz : Z) :
  Date.parse host "Friday, April 4th, 2025" = None ->
  Date.parse host "Friday, April 4, 2025" = Some (1743724800000 - tz * 60000) ->
  Date.localTZA host (1743724800000 - tz * 60000) = tz * 60000 ->
  p_date (DocProcessor.parseInfoTable host
            (mkTable [["Friday, April 4th, 2025"; "7A-7P"]])) = Some "2025-04-04".
Proof.
  intros Hnan Hparse Htz.
  unfold DocProcessor.parseInfoTable.
  replace (List.find _ (table_tr (mkTable [["Friday, April 4th, 2025"; "7A-7P"]])))
    with (Some (mkRow ["Friday, April 4th, 2025"; "7A-7P"])) by (vm_compute; reflexivity).
  cbn [mbind option_bind]. unfold DocProcessor.dateOfDayRow.
  replace (List.find _ (row_cells (mkRow ["Friday, April 4th, 2025"; "7A-7P"])))
    with (@None Cell) by (vm_compute; reflexivity).
  replace (List.find _ (row_cells (mkRow ["Friday, April 4th, 2025"; "7A-7P"])))
    with (Some (Build_Cell "Friday, April 4th, 2025")) by (vm_compute; reflexivity).
  replace (JS.trim (getCellText (Some (Build_Cell "Friday, April 4th, 2025"))))
    with "Friday, April 4th, 2025" by (vm_compute; reflexivity).
  cbn [JS.truthy]. rewrite Hnan.
  replace (replace ordinalRegex (group 1) "Friday, April 4th, 2025")
    with "Friday, April 4, 2025" by (vm_compute; reflexivity).
  rewrite Hparse. cbn [fmap option_fmap option_map p_date].
  unfold DocProcessor.localDate, Date.getFullYear, Date.getMonth, Date.getDate,
    Date.localCivil.
  rewrite Htz.
  replace (1743724800000 - tz * 60000 + tz * 60000) with 1743724800000 by lia.
  vm_compute. reflexivity.
Qed.

Lemma docProcessor_long_form_date_example :
  p_date (DocProcessor.parseInfoTable (Date.refHost 60 1762041600000)
            (mkTable [["Friday, April 4th, 2025"; "7A-7P"]])) = Some "2025-04-04".
Proof.
  apply (docProcessor_long_form_date _ 60); vm_compute; reflexivity.
Qed.

(** One row per room also holds in this version, for its fixed range. *)
Lemma docProcessor_placeRow_inv colIdx row (a : list (option AssignmentRow)) :
  (length a = 32%nat /\
   forall i, 0 <= i < 32 ->
     exists r, JS.array_get a i = Some (Some r) /\
               JS.parseInt10 (room r) = Some (501 + i)) ->
  let a' := DocProcessor.placeRow colIdx row a in
  length a' = 32%nat /\
  forall i, 0 <= i < 32 ->
    exists r, JS.array_get a' i = Some (Some r) /\
              JS.parseInt10 (room r) = Some (501 + i).
Proof.
  intros [Hlen Hslots]. unfold DocProcessor.placeRow.
  destruct (JS.truthy _); [| done].
  destruct (JS.parseInt10 _) as [n|] eqn:Hn; [| done].
  destruct (Z.leb_spec 501 n), (Z.leb_spec n 532); simpl; try done.
  rewrite array_set_inside by lia.
  split; [by rewrite length_insert |].
  intros i Hi. rewrite array_get_nonneg by lia.
  destruct (decide (i = n - 501)) as [->|Hne].
  - rewrite list_lookup_insert_eq by lia. eexists. split; [done |].
    simpl. rewrite Hn. f_equal. lia.
  - rewrite list_lookup_insert_ne by lia.
    rewrite <- array_get_nonneg by lia. by apply Hslots.
Qed.

Lemma docProcessor_one_row_per_room (host : Date.Host) (doc : Document) (roster : Roster) :
  DocProcessor.parseRosterFromHtml host doc = Normal roster ->
  length (assignments roster) = 32%nat /\
  forall i, 0 <= i < 32 ->
    exists r, JS.array_get (assignments roster) i = Some (Some r) /\
              JS.parseInt10 (room r) = Some (501 + i).
Proof.
  unfold DocProcessor.parseRosterFromHtml.
  destruct (_ <? 2)%nat; [discriminate |].
  destruct (JS.find_pos _ _) as [[k infoTable]|]; [| discriminate].
  destruct (_ || _); [discriminate |].
  destruct (DocProcessor.slice _ _ _) as [|header bodyRows]; [discriminate |].
  destruct (DocProcessor.bottomPartOf _ _) as [fl re].
  assert (Hdate : exists fd,
             (if JS.truthy (default "" (p_date (DocProcessor.parseInfoTable host infoTable)))
              then mret (default "" (p_date (DocProcessor.parseInfoTable host infoTable)))
              else today host) = Normal fd).
  { destruct (JS.truthy _); by eexists. }
  destruct Hdate as [fd ->]. rewrite bind_Normal.
  intros [= <-]; simpl.
  assert (Hinit : length (JS.array_from 32 (fun i => Some (defaultRow 501 i))) = 32%nat /\
                  forall i, 0 <= i < 32 ->
                    exists r, JS.array_get
                                (JS.array_from 32 (fun i => Some (defaultRow 501 i))) i =
                              Some (Some r) /\
                              JS.parseInt10 (room r) = Some (501 + i)).
  { split; [by rewrite array_from_length |]. intros i Hi.
    exists (defaultRow 501 i). rewrite array_get_nonneg by lia.
    rewrite array_from_lookup by lia. rewrite Z2Nat.id by lia.
    split; [done | apply parseInt10_toString]. }
  destruct (_ =? -1); [done |].
  revert Hinit. generalize (JS.array_from 32 (fun i => Some (defaultRow 501 i))).
  induction bodyRows as [|r rows IH]; intros a Ha; simpl; [done |].
  apply IH. by apply docProcessor_placeRow_inv.
Qed.

(* ===================================================================== *)
(** ** Properties: cell lists and the extent of the grid                  *)
(* ===================================================================== *)

Section TrimFacts.

Context {A : Type}.
Variable p : A -> bool.

Lemma dropWhile_idem (l : list A) :
  JS.dropWhile p (JS.dropWhile p l) = JS.dropWhile p l.
Proof.
  induction l as [|x l IH]; simpl; [done |].
  destruct (p x) eqn:E; [done |]. simpl. by rewrite E.
Qed.

Lemma dropWhile_head (l : list A) (x : A) (l' : list A) :
  JS.dropWhile p l = x :: l' -> p x = false.
Proof.
  induction l as [|y l IH]; simpl; [done |].
  destruct (p y) eqn:E; [done |]. by intros [= <- _].
Qed.

Lemma dropWhile_fixed (l : list A) :
  (forall x l', l = x :: l' -> p x = false) -> JS.dropWhile p l = l.
Proof.
  destruct l as [|x l]; simpl; [done |]. intros H. by rewrite (H x l eq_refl).
Qed.

Lemma dropWhile_suffix (l : list A) :
  exists pre, l = (pre ++ JS.dropWhile p l)%list.
Proof.
  induction l as [|x l [pre IH]]; simpl; [by exists [] |].
  destruct (p x); [| by exists []].
  exists (x :: pre). simpl. by rewrite <- IH.
Qed.

Lemma dropWhile_subset (l : list A) (x : A) :
  In x (JS.dropWhile p l) -> In x l.
Proof.
  destruct (dropWhile_suffix l) as [pre E]. intros H.
  rewrite E. apply in_or_app. by right.
Qed.

End TrimFacts.

Lemma str_chars (s : string) : JS.str (JS.chars s) = s.
Proof. apply string_of_list_ascii_of_string. Qed.

(** What [trim] leaves starts with no white space. *)
Lemma trimmed_head (l : list ascii) (x : ascii) (l' : list ascii) :
  JS.trimEnd (JS.trimStart l) = x :: l' -> JS.isWhiteSpace x = false.
Proof.
  unfold JS.trimEnd, JS.trimStart. intros H.
  destruct (dropWhile_suffix JS.isWhiteSpace (rev (JS.dropWhile JS.isWhiteSpace l)))
    as [pre E].
  apply (f_equal (@rev ascii)) in E. rewrite rev_involutive, rev_app_distr, H in E.
  simpl in E. by apply dropWhile_head in E.
Qed.

Lemma trim_chars_fixed (l : list ascii) :
  let t := JS.trimEnd (JS.trimStart l) in JS.trimEnd (JS.trimStart t) = t.
Proof.
  intros t. unfold JS.trimStart at 1.
  rewrite dropWhile_fixed by (intros x l' E; by apply (trimmed_head l x l')).
  unfold t, JS.trimEnd. by rewrite rev_involutive, dropWhile_idem.
Qed.

(** Trimming twice is trimming once. *)
Lemma trim_idem (s : string) : JS.trim (JS.trim s) = JS.trim s.
Proof.
  unfold JS.trim. rewrite chars_str. f_equal. apply trim_chars_fixed.
Qed.

Lemma trim_subset (s : string) (c : ascii) :
  In c (JS.chars (JS.trim s)) -> In c (JS.chars s).
Proof.
  unfold JS.trim, JS.trimEnd, JS.trimStart. rewrite chars_str.
  rewrite <- in_rev. intros H. apply dropWhile_subset in H.
  rewrite <- in_rev in H. by apply dropWhile_subset in H.
Qed.

(** No piece of a split holds the separator. *)
Lemma split_pieces (sep : ascii) (s piece : string) :
  In piece (JS.split sep s) -> ~ In sep (JS.chars piece).
Proof.
  revert piece. induction s as [|c s IH]; intros piece; simpl.
  - intros [<-|[]]. simpl. tauto.
  - destruct (Ascii.eqb_spec c sep) as [->|Hne].
    + intros [<-|H]; [simpl; tauto | by apply IH].
    + destruct (JS.split sep s) as [|hd tl] eqn:E.
      * intros [<-|[]]. simpl. intros [?|[]]. congruence.
      * intros [<-|H].
        -- simpl. intros [?|H]; [congruence |]. revert H. apply IH. by left.
        -- apply IH. by right.
Qed.

(** X1. An absent cell gives the empty list, on every cell, absent or
    not, the parser of services/docProcessor.ts reads the same list as the
    parser above, and the list read from a cell has no blank entry: every
    entry is non-empty, is its own trimmed form (no white space at either
    end) and holds no line feed. *)
Theorem extractListFromCell_entries (cell : option Cell) :
  extractListFromCell None = [] /\
  DocProcessor.extractListFromCell cell = extractListFromCell cell /\
  forall e, In e (extractListFromCell cell) ->
    e <> "" /\ JS.trim e = e /\ ~ In "010"%char (JS.chars e).
Proof.
  split; [reflexivity |]. split; [by destruct cell |].
  intros e H. unfold extractListFromCell in H.
  apply List.filter_In in H as [H Ht]. apply in_map_iff in H as (piece & <- & Hp).
  split; [by destruct (JS.trim piece) |].
  split; [apply trim_idem |].
  intros Hin. apply trim_subset in Hin. by apply split_pieces in Hp.
Qed.

Lemma extractListFromCell_entries_witness :
  extractListFromCell (Some listCell) = ["Ann"; "Bob"] /\
  DocProcessor.extractListFromCell (Some listCell) = ["Ann"; "Bob"] /\
  DocProcessor.extractListFromCell None = [] /\
  ("Bob" <> "" /\ JS.trim "Bob" = "Bob" /\ ~ In "010"%char (JS.chars "Bob")).
Proof.
  assert (E : extractListFromCell (Some listCell) = ["Ann"; "Bob"])
    by (vm_compute; reflexivity).
  destruct (extractListFromCell_entries (Some listCell)) as (Hnone & Hsame & Hentries).
  destruct (extractListFromCell_entries None) as (_ & Hsame' & _).
  split; [exact E |]. split; [by rewrite Hsame |]. split; [by rewrite Hsame' |].
  apply Hentries. rewrite E. right; left; reflexivity.
Defined.

(** Where the grid ends: after the header, at the first later row whose
    text holds one of the bottom labels, or at the end of the rows. *)
Lemma gridEndIdxOf_spec (rows : list Row) (h : Z) :
  0 <= h < Z.of_nat (length rows) ->
  h < gridEndIdxOf rows h <= Z.of_nat (length rows) /\
  (forall j r, h < j < gridEndIdxOf rows h -> JS.array_get rows j = Some r ->
               test bottomLabelRegex (row_innerText r) = false) /\
  (forall r, JS.array_get rows (gridEndIdxOf rows h) = Some r ->
             test bottomLabelRegex (row_innerText r) = true).
Proof.
  intros Hh. unfold gridEndIdxOf.
  set (p := fun (r : Row) (i : Z) => (h <? i) && test bottomLabelRegex (row_innerText r)).
  destruct (Z.eqb_spec (JS.findIndex p rows) (-1)) as [E|E].
  - split; [lia |]. split.
    + intros j r Hj Hr. rewrite array_get_nonneg in Hr by lia.
      rewrite findIndex_none in E. specialize (E _ _ Hr). unfold p in E.
      rewrite Z2Nat.id in E by lia.
      destruct (Z.ltb_spec h j); [done | lia].
    + intros r Hr. rewrite array_get_beyond in Hr by lia. discriminate.
  - destruct (findIndex_found p rows _ eq_refl E) as (Hr & x & Hx & Hp & Hfirst).
    unfold p in Hp at 1. apply andb_true_iff in Hp as [Hlt Ht].
    apply Z.ltb_lt in Hlt.
    split; [lia |]. split.
    + intros j r Hj Hjr. rewrite array_get_nonneg in Hjr by lia.
      specialize (Hfirst (Z.to_nat j) r ltac:(lia) Hjr). unfold p in Hfirst.
      rewrite Z2Nat.id in Hfirst by lia.
      destruct (Z.ltb_spec h j); [done | lia].
    + intros r Hjr. rewrite array_get_nonneg in Hjr by lia. congruence.
Qed.

(** What the grid parser returns once the header is found: the assignment
    loop over the body and the bottom loop over the rows that follow. *)
Lemma grid_sections (rows : list Row) (lo hi : Z) :
  headerRowIdxOf rows <> -1 ->
  parseAssignmentsAndBottomSection rows lo hi =
  Normal
    (let st := fold_left (fun st r => bottomRow r st) (bottomRowsOf rows)
                         ({| day := []; night := [] |}, []) in
     {| g_assignments := fill (colMapOf rows) lo hi (bodyRowsOf rows);
        g_floats := fst st; g_respiratory := snd st |}).
Proof.
  intros H. pose proof (headerRowIdxOf_range rows H) as Hr.
  destruct (gridEndIdxOf_spec rows _ Hr) as (He & _ & _).
  unfold parseAssignmentsAndBottomSection, colMapOf, bodyRowsOf, bottomRowsOf.
  destruct (Z.eqb_spec (headerRowIdxOf rows) (-1)) as [|_]; [done |].
  rewrite array_get_nonneg by lia.
  destruct (lookup_lt_is_Some_2 rows (Z.to_nat (headerRowIdxOf rows)))
    as [headerRow Hh]; [lia |].
  rewrite Hh.
  rewrite (for_range_fold rows
             (fun r a => placeRow (autoMapHeaders _ gridKeys) lo hi r a)) by lia.
  rewrite (for_range_fold rows bottomRow) by lia.
  rewrite (take_ge (drop _ rows)) by (rewrite length_drop; lia).
  by destruct (fold_left _ (drop _ rows) _).
Qed.

(** X2. The grid body is the run of rows after the header row and before
    the first later row whose text holds FLOAT, RESPIRATORY or CPU in any
    case (or the end of the rows): no row of the run holds such a label, the
    row that ends it does, and the assignments are built from the rows of
    the run alone, so a patient row after a label row is never placed. *)
Theorem grid_body_extent (rows : list Row) (lo hi : Z) (g : GridSections) :
  parseAssignmentsAndBottomSection rows lo hi = Normal g ->
  let h := headerRowIdxOf rows in
  let e := gridEndIdxOf rows h in
  (0 <= h /\ h < e <= Z.of_nat (length rows)) /\
  (forall j r, h < j < e -> JS.array_get rows j = Some r ->
               test bottomLabelRegex (row_innerText r) = false) /\
  (forall r, JS.array_get rows e = Some r ->
             test bottomLabelRegex (row_innerText r) = true) /\
  g_assignments g =
  fill (colMapOf rows) lo hi
       (take (Z.to_nat (e - (h + 1))) (drop (Z.to_nat (h + 1)) rows)).
Proof.
  intros Hg h e. apply grid_normal_inv in Hg as [Hh ->].
  pose proof (headerRowIdxOf_range rows Hh) as Hr.
  destruct (gridEndIdxOf_spec rows _ Hr) as (He & Hbody & Hend).
  split; [unfold e, h; lia |]. split; [done |]. split; [done |]. reflexivity.
Qed.

Lemma grid_body_extent_witness :
  exists g,
    parseAssignmentsAndBottomSection interruptedRows 501 532 = Normal g /\
    headerRowIdxOf interruptedRows = 0 /\
    gridEndIdxOf interruptedRows 0 = 2 /\
    g_assignments g =
    fill (colMapOf interruptedRows) 501 532 [mkRow ["512"; "J. Doe"]] /\
    JS.array_get (g_assignments g) 4 = Some (Some (defaultRow 501 4)).
Proof.
  eexists. split; [vm_compute; reflexivity |].
  split; [vm_compute; reflexivity |]. split; [vm_compute; reflexivity |].
  split; [| vm_compute; reflexivity].
  apply (grid_body_extent interruptedRows 501 532). vm_compute; reflexivity.
Defined.

Lemma lastListOf_snoc (p : string -> bool) (rows : list Row) (r : Row) :
  lastListOf p (rows ++ [r]) =
  if p (JS.toUpperCase (row_innerText r))
  then extractListFromCell (JS.array_get (row_cells r) 0)
  else lastListOf p rows.
Proof.
  unfold lastListOf. rewrite List.filter_app. simpl.
  destruct (p _); [by rewrite last_snoc | by rewrite app_nil_r].
Qed.

Lemma append_assoc (s t u : string) : (s +:+ t) +:+ u = s +:+ (t +:+ u).
Proof.
  induction s as [|c s IH]; [by rewrite !append_nil |].
  by rewrite !append_cons, IH.
Qed.

Lemma includes_longer (s t u : string) :
  JS.includes s (t +:+ u) = true -> JS.includes s t = true.
Proof.
  rewrite !includes_spec. intros (a & b & ->). exists a, (u +:+ b).
  by rewrite append_assoc.
Qed.

Lemma bottom_fold (rows : list Row) :
  let st := fold_left (fun st r => bottomRow r st) rows
                      ({| day := []; night := [] |}, []) in
  day (fst st) =
    lastListOf (fun t => JS.includes t "FLOAT" && JS.includes t "7A-7P") rows /\
  night (fst st) =
    lastListOf (fun t => JS.includes t "FLOAT" && JS.includes t "7P-7A") rows /\
  snd st = lastListOf (fun t => JS.includes t "RESPIRATORY") rows.
Proof.
  induction rows as [|r rows IH] using rev_ind; [done |].
  rewrite fold_left_app. cbn [fold_left]. rewrite !lastListOf_snoc.
  cbv zeta in IH. destruct (fold_left _ rows _) as [fl re].
  destruct IH as (IHd & IHn & IHr). simpl in IHd, IHn, IHr.
  unfold bottomRow.
  set (txt := JS.toUpperCase (row_innerText r)).
  assert (Hs : JS.includes txt "FLOATS" || JS.includes txt "FLOAT" =
               JS.includes txt "FLOAT").
  { destruct (JS.includes txt "FLOATS") eqn:E; [| done].
    symmetry. by apply (includes_longer txt "FLOAT" "S"). }
  rewrite Hs. cbv zeta.
  destruct (JS.includes txt "FLOAT"), (JS.includes txt "7A-7P"),
    (JS.includes txt "7P-7A"), (JS.includes txt "RESPIRATORY"); simpl; auto.
Qed.

(** X3. The float and respiratory lists are read below the grid only, and
    the last row wins: the day floats are the list in the first cell of the
    last row, from the end of the grid on, whose upper-cased text holds
    FLOAT and 7A-7P, the night floats that of the last row with FLOAT and
    7P-7A, the respiratory list that of the last row with RESPIRATORY; a
    list with no such row is empty, and all three are empty when no row
    after the header holds a bottom label. *)
Theorem bottom_lists_last_row_wins (rows : list Row) (lo hi : Z) (g : GridSections) :
  parseAssignmentsAndBottomSection rows lo hi = Normal g ->
  day (g_floats g) =
    lastListOf (fun t => JS.includes t "FLOAT" && JS.includes t "7A-7P")
               (bottomRowsOf rows) /\
  night (g_floats g) =
    lastListOf (fun t => JS.includes t "FLOAT" && JS.includes t "7P-7A")
               (bottomRowsOf rows) /\
  g_respiratory g =
    lastListOf (fun t => JS.includes t "RESPIRATORY") (bottomRowsOf rows) /\
  ((forall j r, headerRowIdxOf rows < j -> JS.array_get rows j = Some r ->
                test bottomLabelRegex (row_innerText r) = false) ->
   g_floats g = {| day := []; night := [] |} /\ g_respiratory g = []).
Proof.
  intros Hg. pose proof (grid_normal_inv _ _ _ _ Hg) as [Hh _].
  rewrite (grid_sections rows lo hi Hh) in Hg. injection Hg as <-.
  cbv zeta. cbn [g_floats g_respiratory].
  pose proof (bottom_fold (bottomRowsOf rows)) as Hb. cbv zeta in Hb.
  destruct Hb as (Hd & Hn & Hr).
  split; [done |]. split; [done |]. split; [done |].
  intros Hnone.
  pose proof (headerRowIdxOf_range rows Hh) as Hrange.
  destruct (gridEndIdxOf_spec rows _ Hrange) as (He & _ & Hend).
  assert (Hnil : bottomRowsOf rows = []).
  { unfold bottomRowsOf. apply drop_ge.
    destruct (decide (gridEndIdxOf rows (headerRowIdxOf rows) < Z.of_nat (length rows)))
      as [Hlt|]; [| lia].
    destruct (lookup_lt_is_Some_2 rows
                (Z.to_nat (gridEndIdxOf rows (headerRowIdxOf rows)))) as [r Hr'];
      [lia |].
    rewrite <- array_get_nonneg in Hr' by lia.
    specialize (Hend r Hr'). rewrite (Hnone _ r (proj1 He) Hr') in Hend. discriminate. }
  by rewrite Hnil.
Qed.

Lemma bottom_lists_last_row_wins_witness :
  exists g,
    parseAssignmentsAndBottomSection interruptedRows 501 532 = Normal g /\
    bottomRowsOf interruptedRows =
      [mkRow ["Ann"; "Floats 7A-7P"]; mkRow ["505"; "A. Early"];
       mkRow ["Bob"; "floats 7a-7p"]; mkRow ["Cy"; "Respiratory"]] /\
    day (g_floats g) = ["Bob"] /\ night (g_floats g) = [] /\
    g_respiratory g = ["Cy"].
Proof.
  destruct (parseAssignmentsAndBottomSection interruptedRows 501 532) as [g|e] eqn:Hg;
    [| vm_compute in Hg; discriminate].
  exists g. split; [reflexivity |].
  split; [vm_compute; reflexivity |].
  destruct (bottom_lists_last_row_wins interruptedRows 501 532 g Hg)
    as (Hd & Hn & Hr & _).
  rewrite Hd, Hn, Hr. repeat split; vm_compute; reflexivity.
Defined.

(* ===================================================================== *)
(** ** Properties: the date of the roster                                 *)
(* ===================================================================== *)

Lemma isLower_upperChar (c : ascii) : JS.isLower (JS.upperChar c) = false.
Proof. destruct c as [[] [] [] [] [] [] [] []]; reflexivity. Qed.

(** The weekday expression, which has lower-case letters only and no [i]
    flag, matches at no position where the next character is not a
    lower-case letter. *)
Lemma weekday_alts_none (k : mstate -> option mstate) (st : mstate) :
  (forall c tl, rest st = c :: tl -> JS.isLower c = false) ->
  run (alts [word "mon"; word "tue"; word "wed"; word "thu"; word "fri";
             word "sat"; word "sun"]) k st = None.
Proof.
  intros H. cbn -[Ascii.eqb]. destruct (rest st) as [|c tl]; [reflexivity |].
  specialize (H c tl eq_refl).
  repeat match goal with
         | |- context [Ascii.eqb ?a c] =>
             destruct (Ascii.eqb_spec a c) as [<-|_]; [discriminate |]
         end.
  reflexivity.
Qed.

Lemma weekday_exec_from_none (txt : list ascii) (whole : string)
  (p : option ascii) (i : nat) :
  Forall (fun c => JS.isLower c = false) txt ->
  exec_from weekdayRegex whole p i txt = None.
Proof.
  intros H. revert p i. induction H as [|c tl Hc Htl IH]; intros p i.
  - cbn [exec_from]. unfold weekdayRegex. cbn [run].
    rewrite weekday_alts_none by (intros ? ?; discriminate).
    by destruct (xorb _ _).
  - cbn [exec_from]. unfold weekdayRegex at 1. cbn [run].
    rewrite weekday_alts_none by (cbn [rest]; by intros ? ? [= <- _]).
    destruct (xorb _ _); apply IH.
Qed.

(** No upper-cased text passes the weekday test of the info table. *)
Lemma weekday_test_upper (s : string) :
  test weekdayRegex (JS.toUpperCase s) = false.
Proof.
  unfold test, exec, JS.toUpperCase. rewrite chars_str.
  rewrite weekday_exec_from_none; [done |].
  induction (JS.chars s) as [|c l IH]; constructor; [apply isLower_upperChar | done].
Qed.

Lemma infoRow_date (host : Date.Host) (row : Row) (roster : PartialRoster) :
  exists r, infoRow host row roster = Normal r /\ p_date r = p_date roster.
Proof.
  unfold infoRow. rewrite weekday_test_upper, andb_false_r.
  change (mret roster) with (Normal roster). rewrite bind_Normal.
  eexists. split; [reflexivity |].
  repeat match goal with
         | |- context [if ?b then _ else _] => destruct b
         | |- context [match exec ?r ?s with _ => _ end] => destruct (exec r s)
         end; reflexivity.
Qed.

Lemma parseInfoTable_date (host : Date.Host) (t : Table) :
  exists p, parseInfoTable host t = Normal p /\ p_date p = None.
Proof.
  unfold parseInfoTable.
  set (r0 := {| p_date := None; p_pctsDay := None; p_pctsNight := None;
                p_chargeNurses := Some {| day := ""; night := "" |} |}).
  assert (H : forall rows roster, exists p,
             fold_left (fun acc row => roster ← acc; infoRow host row roster)
                       rows (Normal roster) = Normal p /\
             p_date p = p_date roster).
  { induction rows as [|row rows IH]; intros roster; cbn [fold_left]; [eauto |].
    rewrite bind_Normal.
    destruct (infoRow_date host row roster) as (r & -> & <-). apply IH. }
  apply (H (table_tr t) r0).
Qed.

(** X4. The info-table parser never sets the date.  It tests the
    upper-cased text of each row against a weekday expression that is
    written in lower case and has no [i] flag, so the test fails on every
    row and the date of what it returns is unset, whatever the table
    holds. *)
Theorem info_table_never_sets_date (host : Date.Host) (t : Table) :
  (forall s, test weekdayRegex (JS.toUpperCase s) = false) /\
  exists p, parseInfoTable host t = Normal p /\ p_date p = None.
Proof. split; [apply weekday_test_upper | apply parseInfoTable_date]. Qed.

Lemma Number_toString_head (n : Z) :
  exists c s, JS.Number_toString n = String c s /\ Ascii.eqb c "T" = false.
Proof.
  unfold JS.Number_toString, NilZero.string_of_int.
  destruct (Z.to_int n) as [u|u].
  - destruct u; simpl; eexists _, _; split; reflexivity.
  - simpl. eexists _, _; split; reflexivity.
Qed.

Lemma zeroPad_head (k : nat) (n : Z) :
  exists c s, Date.zeroPad k n = String c s /\ Ascii.eqb c "T" = false.
Proof.
  unfold Date.zeroPad.
  destruct (k - String.length (JS.Number_toString n))%nat as [|m].
  - simpl replicate. change (JS.str []) with "". rewrite append_nil.
    apply Number_toString_head.
  - simpl replicate. change (JS.str ("0"%char :: replicate m "0"%char))
      with (String "0" (JS.str (replicate m "0"%char))).
    rewrite append_cons. eexists _, _; split; reflexivity.
Qed.

(** The date part of the ISO text is never empty. *)
Lemma isoDate_nonempty (t : Z) : isoDate t <> "".
Proof.
  unfold isoDate, Date.isoFormat.
  destruct (Date.civil_from_days (t / Date.msPerDay)) as [[y m] d].
  assert (H : exists c s, Date.isoYear y = String c s /\ Ascii.eqb c "T" = false).
  { unfold Date.isoYear.
    destruct ((0 <=? y) && (y <=? 9999)); [apply zeroPad_head |].
    destruct (y <? 0); rewrite append_cons; eexists _, _; split; reflexivity. }
  destruct H as (c & s & -> & Hc).
  rewrite append_cons, split_hd, Hc. discriminate.
Qed.

Lemma parseDate_nonempty (host : Date.Host) (input : string) :
  exists s, parseDate host input = Normal s /\ s <> "".
Proof.
  rewrite parseDate_spec. eexists. split; [reflexivity |].
  destruct (longFragment input ≫= Date.parse host); [apply isoDate_nonempty |].
  destruct (fallbackFragment input ≫= Date.parse host); apply isoDate_nonempty.
Qed.

(** X5. The date of the roster is always the date that [parseDate] reads
    from the text of the whole document body, never one read from the info
    table, and it is never empty. *)
Theorem roster_date_is_body_date (host : Date.Host) (doc : Document) (roster : Roster) :
  parseRosterFromHtml host doc = Normal roster ->
  parseDate host (doc_bodyText doc) = Normal (date roster) /\
  date roster <> "" /\ JS.truthy (date roster) = true.
Proof.
  unfold parseRosterFromHtml.
  destruct (parseDate_nonempty host (doc_bodyText doc)) as (d & -> & Hd).
  rewrite bind_Normal.
  destruct (parseAssignmentsAndBottomSection _ 501 532) as [g|e];
    [rewrite bind_Normal | by rewrite bind_Throw].
  destruct (infoTableOf (doc_tables doc)) as [[k t]|]; [| by rewrite bind_Throw].
  destruct (parseInfoTable_date host t) as (p & -> & Hp).
  rewrite bind_Normal, Hp. cbn [default JS.truthy].
  assert (Ht : JS.truthy d = true) by (by destruct d).
  rewrite Ht. change (mret d) with (Normal d). rewrite bind_Normal.
  intros [= <-]. done.
Qed.

Lemma roster_date_is_body_date_witness :
  exists roster,
    parseRosterFromHtml hostNY scenarioDoc = Normal roster /\
    parseDate hostNY (doc_bodyText scenarioDoc) = Normal (date roster) /\
    date roster <> "" /\ JS.truthy (date roster) = true.
Proof.
  destruct (parseRosterFromHtml hostNY scenarioDoc) as [roster|e] eqn:E;
    [| vm_compute in E; discriminate].
  exists roster. split; [reflexivity |].
  by apply (roster_date_is_body_date hostNY scenarioDoc).
Defined.

(* ===================================================================== *)
(** ** Properties: edge cases of the entry point, the dates and the header mapper *)
(* ===================================================================== *)

(** X6. A document with exactly one table never gives a roster: the only
    table is taken as the info table (whether or not it names the charge
    nurse), no content row is left, and the parse throws the error of the
    missing grid header, also when the grid is inside that table. *)
Theorem single_table_document_throws (host : Date.Host) (doc : Document) (t : Table) :
  doc_tables doc = [t] ->
  infoTableOf (doc_tables doc) = Some (0%nat, t) /\
  contentRows doc = [] /\
  parseRosterFromHtml host doc = Throw (Error "Assignment table header not found.").
Proof.
  intros Ht.
  assert (Hinfo : infoTableOf (doc_tables doc) = Some (0%nat, t)).
  { rewrite Ht. destruct (infoTableOf_cons t []) as (k & t' & E & Hk).
    rewrite E. destruct k as [|k]; [| by destruct k].
    by injection Hk as ->. }
  assert (Hrows : contentRows doc = []).
  { unfold contentRows. rewrite Hinfo, Ht. reflexivity. }
  split; [done |]. split; [done |].
  apply roster_throws. by rewrite Hrows.
Qed.

Lemma single_table_document_throws_witness :
  infoTableOf (doc_tables mergedDoc) = Some (0%nat, hd (mkTable []) (doc_tables mergedDoc)) /\
  contentRows mergedDoc = [] /\
  parseRosterFromHtml hostNY mergedDoc =
  Throw (Error "Assignment table header not found.").
Proof.
  apply (single_table_document_throws hostNY mergedDoc). reflexivity.
Defined.

(** X7. The order in which [parseDate] consults the three date forms.  A
    long-form date that the host reads decides the result, whatever else the
    text holds.  Otherwise, once the text holds an ISO-shaped fragment, the
    slash form is never consulted: if the host does not read the first ISO
    fragment as a date the result is the date of the clock, also when a
    valid slash date follows. *)
Theorem parseDate_order (host : Date.Host) (input : string) :
  (forall frag t, longFragment input = Some frag -> Date.parse host frag = Some t ->
     parseDate host input = Normal (isoDate t)) /\
  (forall m, longFragment input ≫= Date.parse host = None ->
     exec isoRegex input = Some m ->
     parseDate host input =
     Normal (match Date.parse host (matched m) with
             | Some t => isoDate t
             | None => isoDate (Date.now host)
             end)).
Proof.
  rewrite parseDate_spec. split.
  - intros frag t -> Ht. simpl. by rewrite Ht.
  - intros m -> Hm. unfold fallbackFragment. rewrite Hm. simpl.
    by destruct (Date.parse host (matched m)).
Qed.

Lemma parseDate_order_witness :
  parseDate hostNY "Printed 4/4/2025" = Normal "2025-04-04" /\
  parseDate hostNY "Ref 2025-13-45, printed 4/4/2025" = Normal "2025-11-02" /\
  parseDate hostNY "Ref 2025-01-02, for Friday, April 4th, 2025" = Normal "2025-04-04".
Proof.
  split; [vm_compute; reflexivity |]. split.
  - destruct (exec isoRegex "Ref 2025-13-45, printed 4/4/2025") as [m|] eqn:Hm;
      [| vm_compute in Hm; discriminate].
    rewrite (proj2 (parseDate_order hostNY "Ref 2025-13-45, printed 4/4/2025") m);
      [| vm_compute; reflexivity | exact Hm].
    vm_compute in Hm. injection Hm as <-. vm_compute. reflexivity.
  - rewrite (proj1 (parseDate_order hostNY "Ref 2025-01-02, for Friday, April 4th, 2025")
               "Friday April 4 2025" 1743742800000);
      vm_compute; reflexivity.
Defined.

(** X8. The column map has exactly the keys it was asked for, each with an
    index that is -1 or a position of the header; a key that is empty or
    white space only matches every cell, so it is mapped to column 0
    whenever the header has a cell. *)
Theorem autoMapHeaders_domain (headerCells keys : list string) (key : string) :
  (autoMapHeaders headerCells keys !! key = None <-> key ∉ keys) /\
  (forall idx, autoMapHeaders headerCells keys !! key = Some idx ->
     -1 <= idx < Z.of_nat (length headerCells)) /\
  (key ∈ keys -> normalize key = "" -> headerCells <> [] ->
   autoMapHeaders headerCells keys !! key = Some 0).
Proof.
  assert (Hnone : key ∉ keys -> autoMapHeaders headerCells keys !! key = None).
  { unfold autoMapHeaders. generalize (∅ : gmap string Z) (lookup_empty (M:=gmap string) (A:=Z) key).
    induction keys as [|k keys IH] using rev_ind; intros m Hm Hnin; [done |].
    rewrite fold_left_app. simpl.
    rewrite not_elem_of_app, not_elem_of_cons in Hnin. destruct Hnin as [Hnin [Hne _]].
    rewrite lookup_insert_ne by done. by apply IH. }
  split; [| split].
  - split; [| done]. intros H Hin.
    by rewrite (autoMapHeaders_lookup _ _ _ Hin) in H.
  - intros idx H. destruct (decide (key ∈ keys)) as [Hin|Hnin].
    + rewrite (autoMapHeaders_lookup _ _ _ Hin) in H. injection H as <-.
      destruct (findIndex_from_range (fun h (_ : Z) => headerMatches key h) 0 headerCells)
        as [E|E]; unfold JS.findIndex; lia.
    + rewrite Hnone in H by done. discriminate.
  - intros Hin Hblank Hne. rewrite (autoMapHeaders_lookup _ _ _ Hin). f_equal.
    destruct headerCells as [|h tl]; [done |].
    unfold JS.findIndex. cbn [JS.findIndex_from].
    rewrite headerMatches_normalize, Hblank.
    replace (JS.includes (normalize h) "") with true; [done |].
    symmetry. apply includes_spec. exists "", (normalize h). reflexivity.
Qed.

Lemma autoMapHeaders_domain_witness :
  autoMapHeaders ["ROOM"; "PATIENT"] ["room"; " "] !! " " = Some 0 /\
  autoMapHeaders ["ROOM"; "PATIENT"] ["room"; " "] !! "patient" = None.
Proof.
  destruct (autoMapHeaders_domain ["ROOM"; "PATIENT"] ["room"; " "] " ") as (_ & _ & H).
  destruct (autoMapHeaders_domain ["ROOM"; "PATIENT"] ["room"; " "] "patient") as (H' & _).
  split.
  - apply H; [apply list_elem_of_In; simpl; auto | reflexivity | discriminate].
  - apply H'. intros Hin. apply list_elem_of_In in Hin. simpl in Hin.
    destruct Hin as [?|[?|[]]]; discriminate.
Defined.

(* ===================================================================== *)
(** ** Properties: header search and outcome in services/docProcessor.ts  *)
(* ===================================================================== *)

Lemma forEach_from_app {A S : Type} (f : A -> Z -> S -> S) (i : Z) (l1 l2 : list A) (s : S) :
  DocProcessor.forEach_from f i (l1 ++ l2) s =
  DocProcessor.forEach_from f (i + Z.of_nat (length l1)) l2
                            (DocProcessor.forEach_from f i l1 s).
Proof.
  revert i s. induction l1 as [|x l1 IH]; intros i s; simpl.
  - by rewrite Z.add_0_r.
  - rewrite IH. f_equal. lia.
Qed.

Lemma scan_snoc (rows : list Row) (r : Row) :
  DocProcessor.scan (rows ++ [r]) =
  DocProcessor.scanRow r (Z.of_nat (length rows)) (DocProcessor.scan rows).
Proof.
  unfold DocProcessor.scan, DocProcessor.forEach. by rewrite forEach_from_app.
Qed.

Lemma scanRow_grid (r : Row) (i : Z) (st : DocProcessor.Scan) :
  DocProcessor.gridHeaderIndex (DocProcessor.scanRow r i st) =
    (if DocProcessor.maxGridScore st <? gridScoreOf r then i
     else DocProcessor.gridHeaderIndex st) /\
  DocProcessor.maxGridScore (DocProcessor.scanRow r i st) =
    (if DocProcessor.maxGridScore st <? gridScoreOf r then gridScoreOf r
     else DocProcessor.maxGridScore st).
Proof.
  unfold DocProcessor.scanRow, gridScoreOf.
  destruct (_ <? DocProcessor.score DocProcessor.GRID_HEADER_KEYWORDS _);
    cbn [DocProcessor.maxBottomScore];
    by destruct (_ <? DocProcessor.score DocProcessor.BOTTOM_HEADER_KEYWORDS _).
Qed.

Lemma scanRow_bottom (r : Row) (i : Z) (st : DocProcessor.Scan) :
  DocProcessor.bottomHeaderIndex (DocProcessor.scanRow r i st) = i \/
  DocProcessor.bottomHeaderIndex (DocProcessor.scanRow r i st) =
  DocProcessor.bottomHeaderIndex st.
Proof.
  unfold DocProcessor.scanRow.
  destruct (_ <? DocProcessor.score DocProcessor.GRID_HEADER_KEYWORDS _);
    cbn [DocProcessor.maxBottomScore DocProcessor.bottomHeaderIndex];
    destruct (_ <? DocProcessor.score DocProcessor.BOTTOM_HEADER_KEYWORDS _); auto.
Qed.

Lemma gridScoreOf_range (r : Row) : 0 <= gridScoreOf r <= 4.
Proof.
  unfold gridScoreOf, DocProcessor.score. split; [lia |].
  pose proof (List.filter_length_le
                (fun k => JS.includes (DocProcessor.rowTextUpper r) k)
                DocProcessor.GRID_HEADER_KEYWORDS) as H.
  simpl length in H at 2. lia.
Qed.

(** The state of the search after all rows. *)
Lemma scan_grid_inv (rows : list Row) :
  let st := DocProcessor.scan rows in
  0 <= DocProcessor.maxGridScore st <= 4 /\
  (forall r, r ∈ rows -> gridScoreOf r <= DocProcessor.maxGridScore st) /\
  (DocProcessor.gridHeaderIndex st = -1 /\ DocProcessor.maxGridScore st = 0 \/
   0 < DocProcessor.maxGridScore st /\
   exists r, 0 <= DocProcessor.gridHeaderIndex st < Z.of_nat (length rows) /\
     JS.array_get rows (DocProcessor.gridHeaderIndex st) = Some r /\
     gridScoreOf r = DocProcessor.maxGridScore st /\
     forall j r', 0 <= j < DocProcessor.gridHeaderIndex st ->
                  JS.array_get rows j = Some r' ->
                  gridScoreOf r' < DocProcessor.maxGridScore st) /\
  -1 <= DocProcessor.bottomHeaderIndex st < Z.of_nat (length rows).
Proof.
  induction rows as [|x rows IH] using rev_ind.
  - cbn. split; [lia |]. split; [intros r Hr; by apply elem_of_nil in Hr |].
    split; [by left | lia].
  - cbv zeta in IH. destruct IH as (Hmax & Hall & Hidx & Hbot).
    cbv zeta. rewrite scan_snoc.
    destruct (scanRow_grid x (Z.of_nat (length rows)) (DocProcessor.scan rows))
      as [-> ->].
    pose proof (gridScoreOf_range x) as Hx.
    rewrite length_app. cbn [length].
    assert (Hb : -1 <= DocProcessor.bottomHeaderIndex
                         (DocProcessor.scanRow x (Z.of_nat (length rows))
                                               (DocProcessor.scan rows))
                 < Z.of_nat (length rows + 1)).
    { destruct (scanRow_bottom x (Z.of_nat (length rows)) (DocProcessor.scan rows))
        as [->| ->]; lia. }
    destruct (Z.ltb_spec (DocProcessor.maxGridScore (DocProcessor.scan rows))
                         (gridScoreOf x)) as [Hlt|Hge].
    + split; [lia |]. split.
      * intros r Hr. apply elem_of_app in Hr as [Hr|Hr].
        -- specialize (Hall r Hr). lia.
        -- apply list_elem_of_singleton in Hr as ->. lia.
      * split; [| done]. right. split; [lia |]. exists x.
        split; [lia |].
        rewrite array_get_nonneg by lia. rewrite Nat2Z.id.
        split; [by rewrite lookup_app_r, Nat.sub_diag by lia |].
        split; [done |].
        intros j r' Hj Hr'. rewrite array_get_nonneg in Hr' by lia.
        rewrite lookup_app_l in Hr' by lia.
        assert (r' ∈ rows) as Hin by (by apply list_elem_of_lookup; eexists).
        specialize (Hall r' Hin). lia.
    + split; [lia |]. split.
      * intros r Hr. apply elem_of_app in Hr as [Hr|Hr]; [by apply Hall |].
        apply list_elem_of_singleton in Hr as ->. lia.
      * split; [| done].
        destruct Hidx as [[Hi Hm]|(Hpos & r & Hi & Hr & Hs & Hfirst)]; [by left |].
        right. split; [done |]. exists r. split; [lia |].
        rewrite array_get_nonneg in Hr |- * by lia.
        split; [by rewrite lookup_app_l by lia |]. split; [done |].
        intros j r' Hj Hr'. apply (Hfirst j r' Hj).
        rewrite array_get_nonneg in Hr' |- * by lia.
        by rewrite lookup_app_l in Hr' by lia.
Qed.

(** X9. The grid header of services/docProcessor.ts is the first of the
    best-scored rows.  The score of a row is the number of the keywords RM,
    PATIENT, RN DAYS and RN NIGHTS that the upper-cased text of its cells
    holds; the search keeps the greatest score of all content rows and the
    index of the first row that reaches it, and it keeps no index exactly
    when every row scores 0. *)
Theorem docProcessor_header_is_first_best (rows : list Row) :
  let st := DocProcessor.scan rows in
  (forall r, r ∈ rows -> gridScoreOf r <= DocProcessor.maxGridScore st) /\
  (DocProcessor.gridHeaderIndex st = -1 <-> forall r, r ∈ rows -> gridScoreOf r = 0) /\
  (DocProcessor.gridHeaderIndex st <> -1 ->
   exists r, JS.array_get rows (DocProcessor.gridHeaderIndex st) = Some r /\
     gridScoreOf r = DocProcessor.maxGridScore st /\
     forall j r', 0 <= j < DocProcessor.gridHeaderIndex st ->
                  JS.array_get rows j = Some r' ->
                  gridScoreOf r' < DocProcessor.maxGridScore st).
Proof.
  destruct (scan_grid_inv rows) as (Hmax & Hall & Hidx & _).
  cbv zeta. split; [done |]. split.
  - split.
    + intros E r Hr. destruct Hidx as [[_ Hm]|(_ & r' & Hi & _)]; [| lia].
      specialize (Hall r Hr). pose proof (gridScoreOf_range r). lia.
    + intros Hzero. destruct Hidx as [[Hi _]|(Hpos & r & Hi & Hr & Hs & _)]; [done |].
      rewrite array_get_nonneg in Hr by lia.
      assert (r ∈ rows) as Hin by (by apply list_elem_of_lookup; eexists).
      specialize (Hzero r Hin). lia.
  - intros Hne. destruct Hidx as [[Hi _]|(Hpos & r & Hi & Hr & Hs & Hfirst)]; [done |].
    by exists r.
Qed.

Lemma docProcessor_header_is_first_best_witness :
  let rows := flat_map table_tr (tail (doc_tables rmDoc)) in
  DocProcessor.gridHeaderIndex (DocProcessor.scan rows) = 1 /\
  DocProcessor.maxGridScore (DocProcessor.scan rows) = 4 /\
  exists r, JS.array_get rows 1 = Some r /\ gridScoreOf r = 4 /\
    forall j r', 0 <= j < 1 -> JS.array_get rows j = Some r' -> gridScoreOf r' < 4.
Proof.
  intros rows.
  assert (Hi : DocProcessor.gridHeaderIndex (DocProcessor.scan rows) = 1)
    by (vm_compute; reflexivity).
  assert (Hm : DocProcessor.maxGridScore (DocProcessor.scan rows) = 4)
    by (vm_compute; reflexivity).
  split; [done |]. split; [done |].
  destruct (docProcessor_header_is_first_best rows) as (_ & _ & H).
  rewrite Hi, Hm in H. apply H. discriminate.
Defined.

Lemma slice_nonempty {A} (l : list A) (a b : Z) :
  0 <= a < b -> b <= Z.of_nat (length l) ->
  exists x tl, DocProcessor.slice l a b = x :: tl.
Proof.
  intros Ha Hb. unfold DocProcessor.slice, DocProcessor.clampIndex.
  destruct (Z.ltb_spec a 0), (Z.ltb_spec b 0); try lia.
  rewrite !Z.min_l by lia.
  destruct (take (Z.to_nat (b - a)) (drop (Z.to_nat a) l)) as [|x tl] eqn:E.
  - apply (f_equal length) in E. rewrite length_take, length_drop in E.
    simpl in E. lia.
  - by exists x, tl.
Qed.

Lemma docProcessor_finalDate (host : Date.Host) (o : option string) :
  exists fd,
    (if JS.truthy (default "" o) then mret (default "" o) else today host) = Normal fd /\
    JS.truthy fd = true.
Proof.
  destruct (JS.truthy (default "" o)) eqn:E; [by eexists |].
  exists (isoDate (Date.now host)). split; [reflexivity |].
  pose proof (isoDate_nonempty (Date.now host)). by destruct (isoDate _).
Qed.

(** X10. What services/docProcessor.ts does with a document, case by case.
    With fewer than two tables it throws the table-count error; with two or
    more but no table that holds CHARGE NURSE, TEAM A or PCT'S it throws the
    info-table error; otherwise the content rows are the rows of all tables
    but the first such table, and it throws the grid-header error when no
    content row holds three of the four header keywords and returns a roster
    when one does.  It throws nothing else. *)
Theorem docProcessor_outcome (host : Date.Host) (doc : Document) :
  ((length (doc_tables doc) < 2)%nat ->
   DocProcessor.parseRosterFromHtml host doc =
   Throw (Error ("Parsing failed: Expected at least 2 tables (info, content), but found "
                 +:+ JS.Number_toString (Z.of_nat (length (doc_tables doc))) +:+ "."))) /\
  ((2 <= length (doc_tables doc))%nat ->
   (forall t, t ∈ doc_tables doc -> DocProcessor.isInfoTable t = false) ->
   DocProcessor.parseRosterFromHtml host doc =
   Throw (Error "Failed to identify the main information table (Charge Nurse, PCTs).")) /\
  (forall k t,
     (2 <= length (doc_tables doc))%nat ->
     JS.find_pos DocProcessor.isInfoTable (doc_tables doc) = Some (k, t) ->
     let rows := flat_map table_tr (delete k (doc_tables doc)) in
     ((forall r, r ∈ rows -> gridScoreOf r < 3) ->
      DocProcessor.parseRosterFromHtml host doc =
      Throw (Error "Could not find the main assignment grid header row (RM, PATIENT, etc.). Please check file formats.")) /\
     (forall r, r ∈ rows -> 3 <= gridScoreOf r ->
      exists roster, DocProcessor.parseRosterFromHtml host doc = Normal roster)).
Proof.
  split; [apply docProcessor_needs_two_tables |].
  split; [apply docProcessor_needs_info_keyword |].
  intros k t Hlen Hfind rows.
  destruct (scan_grid_inv rows) as (Hmax & Hall & Hidx & Hbot). cbv zeta in *.
  unfold DocProcessor.parseRosterFromHtml.
  destruct (Nat.ltb_spec (length (doc_tables doc)) 2); [lia |].
  rewrite Hfind. fold rows. split.
  - intros Hlow.
    assert (DocProcessor.maxGridScore (DocProcessor.scan rows) < 3) as Hlt.
    { destruct Hidx as [[_ ->]|(_ & r & Hi & Hr & <- & _)]; [lia |].
      apply Hlow. rewrite array_get_nonneg in Hr by lia.
      apply list_elem_of_lookup. by eexists. }
    destruct (Z.ltb_spec (DocProcessor.maxGridScore (DocProcessor.scan rows)) 3);
      [| lia].
    by rewrite orb_true_r.
  - intros r Hr Hscore. specialize (Hall r Hr).
    destruct Hidx as [[_ Hz]|(_ & r' & Hi & _)]; [lia |].
    destruct (Z.eqb_spec (DocProcessor.gridHeaderIndex (DocProcessor.scan rows)) (-1));
      [lia |].
    destruct (Z.ltb_spec (DocProcessor.maxGridScore (DocProcessor.scan rows)) 3);
      [lia |].
    cbn [orb].
    set (gh := DocProcessor.gridHeaderIndex (DocProcessor.scan rows)) in *.
    set (bh := DocProcessor.bottomHeaderIndex (DocProcessor.scan rows)) in *.
    set (bh' := if (bh =? gh) || (bh <? gh) ||
                   (DocProcessor.maxBottomScore (DocProcessor.scan rows) <? 2)
                then -1 else bh).
    assert (Hbh : bh' = -1 \/ gh < bh' < Z.of_nat (length rows)).
    { unfold bh'. destruct (Z.eqb_spec bh gh), (Z.ltb_spec bh gh); cbn [orb]; auto.
      destruct (_ <? 2); [auto | right; lia]. }
    destruct (slice_nonempty rows gh
                (if bh' =? -1 then Z.of_nat (length rows) else bh'))
      as (header & body & ->).
    { destruct (Z.eqb_spec bh' (-1)); lia. }
    { destruct (Z.eqb_spec bh' (-1)); lia. }
    destruct (DocProcessor.bottomPartOf rows bh') as [fl re].
    destruct (docProcessor_finalDate host
                (p_date (DocProcessor.parseInfoTable host t))) as (fd & -> & _).
    rewrite bind_Normal. by eexists.
Qed.

Lemma docProcessor_outcome_witness :
  exists roster, DocProcessor.parseRosterFromHtml hostNY rmDoc = Normal roster.
Proof.
  destruct (docProcessor_outcome hostNY rmDoc) as (_ & _ & H).
  destruct (H 0%nat (hd (mkTable []) (doc_tables rmDoc))) as [_ Hret];
    [simpl; lia | vm_compute; reflexivity |].
  apply (Hret (mkRow ["RM "; "PATIENT "; "RN DAYS "; "RN NIGHTS"])).
  - apply list_elem_of_In. simpl. auto.
  - vm_compute. discriminate.
Defined.

(** X11. A roster that services/docProcessor.ts returns has 32 assignment
    rows, none a hole, the row in slot [i] with a room text that reads as
    the number [501 + i], and it has a date that is not empty (the date read
    from the day-shift row or the date of the clock), so the caller's
    fallback to the file name is never taken. *)
Theorem docProcessor_roster_shape (host : Date.Host) (doc : Document) (roster : Roster) :
  DocProcessor.parseRosterFromHtml host doc = Normal roster ->
  length (assignments roster) = 32%nat /\
  (forall i, 0 <= i < 32 ->
     exists r, JS.array_get (assignments roster) i = Some (Some r) /\
               JS.parseInt10 (room r) = Some (501 + i)) /\
  JS.truthy (date roster) = true.
Proof.
  intros H. destruct (docProcessor_one_row_per_room host doc roster H) as [Hlen Hslots].
  split; [done |]. split; [done |].
  revert H. unfold DocProcessor.parseRosterFromHtml.
  destruct (_ <? 2)%nat; [discriminate |].
  destruct (JS.find_pos _ _) as [[k infoTable]|]; [| discriminate].
  destruct (_ || _); [discriminate |].
  destruct (DocProcessor.slice _ _ _) as [|header bodyRows]; [discriminate |].
  destruct (DocProcessor.bottomPartOf _ _) as [fl re].
  destruct (docProcessor_finalDate host
              (p_date (DocProcessor.parseInfoTable host infoTable))) as (fd & -> & Hfd).
  rewrite bind_Normal. by intros [= <-].
Qed.

Lemma docProcessor_roster_shape_witness :
  exists roster,
    DocProcessor.parseRosterFromHtml hostNY rmDoc = Normal roster /\
    length (assignments roster) = 32%nat /\
    patient <$> (JS.array_get (assignments roster) 11 ≫= id) = Some "J. Doe" /\
    JS.truthy (date roster) = true.
Proof.
  destruct (DocProcessor.parseRosterFromHtml hostNY rmDoc) as [roster|e] eqn:E;
    [| vm_compute in E; discriminate].
  exists roster. split; [reflexivity |].
  destruct (docProcessor_roster_shape hostNY rmDoc roster E) as (Hlen & _ & Hdate).
  split; [done |]. split; [| done].
  vm_compute in E. injection E as <-. reflexivity.
Defined.

Lemma dateOfDayRow_spec (host : Date.Host) (dayRow : Row) :
  DocProcessor.dateOfDayRow host dayRow =
  if JS.truthy (dpDateTextOf dayRow) then
    DocProcessor.localDate host <$>
      match Date.parse host (dpDateTextOf dayRow) with
      | Some t => Some t
      | None => Date.parse host (replace ordinalRegex (group 1)
                                         (dpDateTextOf dayRow))
      end
  else None.
Proof. reflexivity. Qed.

Lemma localDate_civilText (host : Date.Host) (t : Z) :
  DocProcessor.localDate host t = civilText (Date.localCivil host t) /\
  JS.truthy (DocProcessor.localDate host t) = true.
Proof.
  unfold DocProcessor.localDate, civilText, Date.getFullYear, Date.getMonth, Date.getDate.
  destruct (Date.localCivil host t) as [[y m] d]. cbn [fst snd].
  replace (m - 1 + 1) with m by lia. split; [done |].
  destruct (Number_toString_head y) as (c & s & -> & _). reflexivity.
Qed.

(** X12. The date of a roster of services/docProcessor.ts is the local
    civil date of what the host reads in the day-shift row.  When the host
    reads the date text of that row as UTC midnight of a day, as it reads
    every date-only ISO text, the info table's date and the roster's date
    are that day on a host at or east of UTC and the day before on a host
    west of UTC. *)
Theorem docProcessor_utc_midnight_date (host : Date.Host) (doc : Document)
  (roster : Roster) (k : nat) (infoTable : Table) (dayRow : Row) (day tz : Z) :
  DocProcessor.parseRosterFromHtml host doc = Normal roster ->
  JS.find_pos DocProcessor.isInfoTable (doc_tables doc) = Some (k, infoTable) ->
  dpDayRowOf infoTable = Some dayRow ->
  JS.truthy (dpDateTextOf dayRow) = true ->
  Date.parse host (dpDateTextOf dayRow) = Some (day * Date.msPerDay) ->
  Date.localTZA host (day * Date.msPerDay) = tz * 60000 ->
  p_date (DocProcessor.parseInfoTable host infoTable) = Some (date roster) /\
  (0 <= tz < 1440 -> date roster = civilText (Date.civil_from_days day)) /\
  (-1440 <= tz < 0 -> date roster = civilText (Date.civil_from_days (day - 1))).
Proof.
  intros H Hfind Hrow Htext Hparse Htz.
  assert (Hinfo : p_date (DocProcessor.parseInfoTable host infoTable) =
                  Some (DocProcessor.localDate host (day * Date.msPerDay))).
  { unfold DocProcessor.parseInfoTable. cbn [p_date].
    fold (dpDayRowOf infoTable). rewrite Hrow. cbn [mbind option_bind].
    by rewrite dateOfDayRow_spec, Htext, Hparse. }
  destruct (localDate_civilText host (day * Date.msPerDay)) as [Hcivil Htruthy].
  assert (Hdate : date roster = DocProcessor.localDate host (day * Date.msPerDay)).
  { revert H. unfold DocProcessor.parseRosterFromHtml.
    destruct (_ <? 2)%nat; [discriminate |]. rewrite Hfind.
    destruct (_ || _); [discriminate |]. cbv zeta.
    destruct (DocProcessor.slice _ _ _) as [|header bodyRows]; [discriminate |].
    destruct (DocProcessor.bottomPartOf _ _) as [fl re].
    rewrite Hinfo. unfold default. cbn [from_option id]. rewrite Htruthy.
    rewrite bind_Normal. by intros [= <-]. }
  split; [by rewrite Hinfo, Hdate |].
  rewrite Hdate, Hcivil. unfold Date.localCivil, Date.msPerDay in *. rewrite Htz.
  split; intros Hrange; f_equal; f_equal; symmetry.
  - apply (Z.div_unique _ _ _ (tz * 60000)); lia.
  - apply (Z.div_unique _ _ _ (tz * 60000 + 86400000)); lia.
Qed.

Lemma docProcessor_utc_midnight_date_witness :
  exists roster dayRow,
    DocProcessor.parseRosterFromHtml hostNY rmDoc = Normal roster /\
    dpDayRowOf (hd (mkTable []) (doc_tables rmDoc)) = Some dayRow /\
    dpDateTextOf dayRow = "2025-04-04" /\
    date roster = "2025-04-03".
Proof.
  destruct (DocProcessor.parseRosterFromHtml hostNY rmDoc) as [roster|e] eqn:E;
    [| vm_compute in E; discriminate].
  destruct (dpDayRowOf (hd (mkTable []) (doc_tables rmDoc))) as [dayRow|] eqn:Hrow;
    [| vm_compute in Hrow; discriminate].
  exists roster, dayRow. split; [reflexivity |]. split; [reflexivity |].
  assert (Htext : dpDateTextOf dayRow = "2025-04-04").
  { vm_compute in Hrow. injection Hrow as <-. vm_compute. reflexivity. }
  split; [exact Htext |].
  destruct (docProcessor_utc_midnight_date hostNY rmDoc roster 0%nat
              (hd (mkTable []) (doc_tables rmDoc)) dayRow 20182 (-300) E)
    as (_ & _ & H).
  - vm_compute. reflexivity.
  - exact Hrow.
  - by rewrite Htext.
  - rewrite Htext. vm_compute. reflexivity.
  - reflexivity.
  - rewrite H by lia. vm_compute. reflexivity.
Defined.

(* ===================================================================== *)
(** ** Properties: the statistics service                                 *)
(* ===================================================================== *)

Section MapFacts.

Context {V : Type}.
Implicit Types (m : JSMap.t V) (k : string) (f : V -> V).

Lemma get_None m k : JSMap.get m k = None <-> ~ In k (map fst m).
Proof.
  unfold JSMap.get. induction m as [|[k' v] m IH]; simpl; [tauto |].
  destruct (String.eqb_spec k' k) as [->|Hne]; simpl.
  - split; [discriminate | intros H; exfalso; apply H; by left].
  - rewrite IH. split; [intros H [?|?]; [done | tauto] | tauto].
Qed.

Lemma has_spec m k : JSMap.has m k = true <-> In k (map fst m).
Proof.
  unfold JSMap.has. destruct (JSMap.get m k) eqn:E.
  - split; [| done]. intros _.
    destruct (in_dec string_dec k (map fst m)) as [|Hn]; [done |].
    apply get_None in Hn. congruence.
  - apply get_None in E. split; [discriminate | done].
Qed.

Lemma has_false m k : JSMap.has m k = false <-> ~ In k (map fst m).
Proof.
  rewrite <- has_spec. by destruct (JSMap.has m k).
Qed.

Lemma alterEntry_keys k f m : map fst (alterEntry k f m) = map fst m.
Proof.
  unfold alterEntry. rewrite map_map. apply map_ext.
  intros e. by destruct (String.eqb (fst e) k).
Qed.

Lemma alterEntry_absent k f m : ~ In k (map fst m) -> alterEntry k f m = m.
Proof.
  unfold alterEntry. induction m as [|[k' v] m IH]; simpl; [done |].
  intros H. destruct (String.eqb_spec k' k) as [->|Hne]; [tauto |].
  rewrite IH by tauto. done.
Qed.

(** On a map with distinct keys a write through [get] rewrites the entry
    of the key in place. *)
Lemma update_alterEntry m k f :
  NoDup (map fst m) -> JSMap.update m k f = alterEntry k f m.
Proof.
  intros Hnd. unfold JSMap.update. destruct (JSMap.get m k) as [v|] eqn:E.
  - unfold JSMap.set.
    assert (Hh : JSMap.has m k = true) by (unfold JSMap.has; by rewrite E).
    rewrite Hh. clear Hh. unfold alterEntry. unfold JSMap.get in E.
    induction m as [|[k' v'] m IH]; simpl in *; [done |].
    apply NoDup_cons in Hnd as [Hk' Hnd].
    destruct (String.eqb_spec k' k) as [->|Hne]; simpl in E.
    + injection E as ->. f_equal.
      pose proof (alterEntry_absent k f m) as Ha. unfold alterEntry in Ha.
      rewrite Ha by (by rewrite <- list_elem_of_In).
      pose proof (alterEntry_absent k (fun _ => f v) m) as Hb. unfold alterEntry in Hb.
      rewrite <- Hb at 2 by (by rewrite <- list_elem_of_In).
      apply map_ext. intros e. by destruct (String.eqb_spec (fst e) k) as [<-|].
    + f_equal. by apply IH.
  - symmetry. apply alterEntry_absent. by apply get_None.
Qed.

Lemma alterEntry_Forall (P Q : string * V -> Prop) k f m :
  Forall P m ->
  (forall e, P e -> fst e = k -> Q (fst e, f (snd e))) ->
  (forall e, P e -> fst e <> k -> Q e) ->
  Forall Q (alterEntry k f m).
Proof.
  intros H Hf Hg. unfold alterEntry. apply List.Forall_forall.
  intros e' Hin. apply in_map_iff in Hin as (e & <- & Hin).
  rewrite List.Forall_forall in H.
  destruct (String.eqb_spec (fst e) k); [apply Hf | apply Hg]; auto.
Qed.

End MapFacts.

Lemma mapOk_ext (P Q : string -> list StatsService.PatientRef)
  (m : JSMap.t StatsService.NurseStats) :
  (forall k, P k = Q k) -> mapOk P m -> mapOk Q m.
Proof.
  intros Heq (Hnd & Hall & Habs). split; [done |]. split.
  - eapply List.Forall_impl; [| exact Hall].
    intros e (H1 & H2 & H3 & H4 & H5 & H6). unfold entryOk. by rewrite <- Heq.
  - intros k Hk. rewrite <- Heq. by apply Habs.
Qed.

Lemma initializeNurse_spec (n cn : string) (fl : bool)
  (m : JSMap.t StatsService.NurseStats) :
  StatsService.initializeNurse n cn fl m =
  if JSMap.has m n then m
  else (m ++ [(n, {| StatsService.name := n; StatsService.patientCount := 0;
                     StatsService.patients := [];
                     StatsService.isTriple := false;
                     StatsService.isOneToOne := false;
                     StatsService.isFloat := fl;
                     StatsService.isHighAssignment := false;
                     StatsService.chargeNurse := cn |})])%list.
Proof.
  unfold StatsService.initializeNurse, JSMap.set.
  by destruct (JSMap.has m n).
Qed.

Lemma initializeNurse_has (n cn : string) (fl : bool)
  (m : JSMap.t StatsService.NurseStats) :
  In n (map fst (StatsService.initializeNurse n cn fl m)).
Proof.
  rewrite initializeNurse_spec. destruct (JSMap.has m n) eqn:E.
  - by apply has_spec.
  - rewrite map_app. apply in_or_app. right. by left.
Qed.

Lemma initializeNurse_ok P (n cn : string) (fl : bool)
  (m : JSMap.t StatsService.NurseStats) :
  JS.trim n = n -> mapOk P m -> mapOk P (StatsService.initializeNurse n cn fl m).
Proof.
  intros Hn (Hnd & Hall & Habs). rewrite initializeNurse_spec.
  destruct (JSMap.has m n) eqn:E; [done |].
  apply has_false in E. split; [| split].
  - rewrite map_app. simpl. apply NoDup_app. split; [done |]. split.
    + intros x Hx Hx'. apply list_elem_of_singleton in Hx' as ->.
      by apply list_elem_of_In in Hx.
    + apply NoDup_singleton.
  - apply Forall_app. split; [done |]. constructor; [| constructor].
    unfold entryOk. simpl. by rewrite Habs.
  - intros k Hk. apply Habs. intros Hin. apply Hk.
    rewrite map_app. apply in_or_app. by left.
Qed.

Lemma shiftPatients_other (k rn room patient : string) :
  JS.trim rn <> k -> shiftPatients k rn room patient = [].
Proof.
  intros H. unfold shiftPatients.
  destruct (String.eqb_spec (JS.trim rn) k); [done |].
  by rewrite andb_false_r.
Qed.

Lemma shiftStep_ok P (rn cn room patient : string)
  (m : JSMap.t StatsService.NurseStats) :
  mapOk P m ->
  mapOk (fun k => (P k ++ shiftPatients k rn room patient)%list)
        (StatsService.shiftStep rn cn room patient m).
Proof.
  intros Hm. unfold StatsService.shiftStep.
  destruct (StatsService.nonBlank rn) eqn:Hrn.
  2:{ apply (mapOk_ext P); [| done]. intros k. unfold shiftPatients.
      rewrite Hrn. simpl. by rewrite app_nil_r. }
  pose proof (initializeNurse_ok P (JS.trim rn) cn false m (trim_idem rn) Hm) as Hm1.
  pose proof (initializeNurse_has (JS.trim rn) cn false m) as Hin.
  set (m1 := StatsService.initializeNurse (JS.trim rn) cn false m) in *.
  destruct (StatsService.nonBlank patient) eqn:Hp.
  2:{ apply (mapOk_ext P); [| done]. intros k. unfold shiftPatients.
      rewrite Hp, andb_false_r. by rewrite app_nil_r. }
  destruct Hm1 as (Hnd & Hall & Habs).
  rewrite update_alterEntry by done.
  split; [| split].
  - by rewrite alterEntry_keys.
  - apply (alterEntry_Forall (entryOk P)); [done | |].
    + intros e (H1 & H2 & H3 & H4 & H5 & H6) Hk.
      unfold entryOk. cbn [fst snd StatsService.addPatient StatsService.name
        StatsService.patients StatsService.patientCount StatsService.isTriple
        StatsService.isHighAssignment].
      repeat split; try done.
      * rewrite H3. unfold shiftPatients.
        by rewrite Hrn, Hp, Hk, String.eqb_refl.
      * rewrite length_app. simpl. lia.
    + intros e (H1 & H2 & H3 & H4 & H5 & H6) Hk.
      unfold entryOk. repeat split; try done.
      rewrite shiftPatients_other by done. by rewrite app_nil_r.
  - intros k Hk. rewrite alterEntry_keys in Hk.
    rewrite Habs by done. rewrite shiftPatients_other; [done |].
    by intros <-.
Qed.

Lemma setOneToOne_ok P (k : string) (m : JSMap.t StatsService.NurseStats) :
  mapOk P m -> mapOk P (JSMap.update m k StatsService.setOneToOne).
Proof.
  intros (Hnd & Hall & Habs). rewrite update_alterEntry by done.
  split; [by rewrite alterEntry_keys |]. split.
  - apply (alterEntry_Forall (entryOk P)); [done | | done].
    by intros e (H1 & H2 & H3 & H4 & H5 & H6) _.
  - intros k' Hk'. rewrite alterEntry_keys in Hk'. by apply Habs.
Qed.

Lemma markOneToOne_ok P (rn : string) (m : JSMap.t StatsService.NurseStats) :
  mapOk P m -> mapOk P (StatsService.markOneToOne rn m).
Proof.
  intros Hm. unfold StatsService.markOneToOne.
  destruct (_ && _); [by apply setOneToOne_ok | done].
Qed.

Lemma assignmentStep_ok P (cn : Shifts string) (a : AssignmentRow)
  (m : JSMap.t StatsService.NurseStats) :
  mapOk P m ->
  mapOk (fun k => (P k ++ rowPatients k (Some a))%list)
        (StatsService.assignmentStep cn a m).
Proof.
  intros Hm. unfold StatsService.assignmentStep.
  pose proof (shiftStep_ok _ (rnNight a) (night cn) (room a) (patient a) _
                (shiftStep_ok P (rnDay a) (day cn) (room a) (patient a) m Hm)) as H.
  apply (mapOk_ext _ (fun k => (P k ++ rowPatients k (Some a))%list)) in H.
  2:{ intros k. simpl. by rewrite app_assoc. }
  destruct (_ && _); [| done].
  destruct (_ || _); [| done].
  by apply markOneToOne_ok, markOneToOne_ok.
Qed.

Lemma assignments_fold_ok (cn : Shifts string) (rows : list (option AssignmentRow)) :
  forall P m, mapOk P m ->
  mapOk (fun k => (P k ++ patientsOf k rows)%list)
        (fold_left (fun m a => match a with
                               | Some a => StatsService.assignmentStep cn a m
                               | None => m
                               end) rows m).
Proof.
  induction rows as [|o rows IH]; intros P m Hm; cbn [fold_left].
  - apply (mapOk_ext P); [| done]. intros k. by rewrite app_nil_r.
  - destruct o as [a|].
    + apply (mapOk_ext (fun k => ((P k ++ rowPatients k (Some a)) ++ patientsOf k rows)%list)).
      * intros k. by rewrite <- app_assoc.
      * apply IH. by apply assignmentStep_ok.
    + by apply IH.
Qed.

Lemma floats_fold_ok P (cn : string) (names : list string) :
  forall m, mapOk P m ->
  mapOk P (fold_left (fun m name => StatsService.initializeNurse (JS.trim name) cn true m)
                     names m).
Proof.
  induction names as [|n names IH]; intros m Hm; cbn [fold_left]; [done |].
  apply IH. apply initializeNurse_ok; [apply trim_idem | done].
Qed.

(** The nurse map before the final pass. *)
Lemma nurseMapOf_ok (roster : Roster) :
  mapOk (fun k => patientsOf k (assignments roster)) (StatsService.nurseMapOf roster).
Proof.
  unfold StatsService.nurseMapOf.
  apply (assignments_fold_ok (chargeNurses roster) (assignments roster) (fun _ => [])).
  apply floats_fold_ok, floats_fold_ok.
  split; [constructor |]. split; [constructor | done].
Qed.

Lemma calculateNurseStats_In (roster : Roster) (s : StatsService.NurseStats) :
  In s (StatsService.calculateNurseStats roster) ->
  exists e, In e (StatsService.nurseMapOf roster) /\ s = StatsService.finalize (snd e).
Proof.
  unfold StatsService.calculateNurseStats, JSMap.values, JSMap.forEach.
  rewrite map_map. cbn [snd]. intros H.
  apply in_map_iff in H as (e & <- & He). by exists e.
Qed.

Lemma calculateNurseStats_names (roster : Roster) :
  map StatsService.name (StatsService.calculateNurseStats roster) =
  map fst (StatsService.nurseMapOf roster).
Proof.
  destruct (nurseMapOf_ok roster) as (_ & Hall & _).
  unfold StatsService.calculateNurseStats, JSMap.values, JSMap.forEach.
  rewrite !map_map. cbn [snd StatsService.finalize StatsService.name].
  apply map_ext_in. intros e He. rewrite List.Forall_forall in Hall.
  by destruct (Hall e He) as (H1 & _).
Qed.

(** The counts and flags of the statistics of one roster. *)
Lemma nurseStats_inv (roster : Roster) :
  NoDup (map StatsService.name (StatsService.calculateNurseStats roster)) /\
  forall s, In s (StatsService.calculateNurseStats roster) ->
    StatsService.patientCount s = Z.of_nat (length (StatsService.patients s)) /\
    (StatsService.isTriple s = true <-> StatsService.patientCount s = 3) /\
    (StatsService.isHighAssignment s = true <-> 5 <= StatsService.patientCount s).
Proof.
  destruct (nurseMapOf_ok roster) as (Hnd & Hall & _).
  split; [by rewrite calculateNurseStats_names |].
  intros s Hs. apply calculateNurseStats_In in Hs as (e & He & ->).
  rewrite List.Forall_forall in Hall.
  destruct (Hall e He) as (H1 & H2 & H3 & H4 & H5 & H6).
  cbn [StatsService.finalize StatsService.name StatsService.patients
       StatsService.patientCount StatsService.isTriple StatsService.isHighAssignment].
  rewrite H5, H6. split; [done |]. split.
  - destruct (Z.eqb_spec (StatsService.patientCount (snd e)) 3); split; done.
  - destruct (Z.leb_spec 5 (StatsService.patientCount (snd e))); split; try done; lia.
Qed.

(** X13. What [calculateNurseStats] returns: no name occurs twice and
    every name is trimmed; the patient count of a nurse is the length of
    the patient list; the triple flag is set exactly for a count of 3 and
    the high-assignment flag exactly for a count of 5 or more. *)
Theorem calculateNurseStats_invariants (roster : Roster) :
  NoDup (map StatsService.name (StatsService.calculateNurseStats roster)) /\
  forall s, In s (StatsService.calculateNurseStats roster) ->
    JS.trim (StatsService.name s) = StatsService.name s /\
    StatsService.patientCount s = Z.of_nat (length (StatsService.patients s)) /\
    (StatsService.isTriple s = true <-> StatsService.patientCount s = 3) /\
    (StatsService.isHighAssignment s = true <-> 5 <= StatsService.patientCount s).
Proof.
  destruct (nurseStats_inv roster) as [Hnd Hall]. split; [done |].
  intros s Hs. split; [| by apply Hall].
  destruct (nurseMapOf_ok roster) as (_ & Hok & _).
  apply calculateNurseStats_In in Hs as (e & He & ->).
  rewrite List.Forall_forall in Hok. destruct (Hok e He) as (H1 & H2 & _).
  cbn [StatsService.finalize StatsService.name]. by rewrite H1.
Qed.

(** X14. The patient list of a nurse: the patients of the rows on which
    the nurse is the day nurse or the night nurse (the name of the shift,
    trimmed, is the nurse's name) and which name a patient, in row order; a
    row on which the nurse has both shifts gives its patient twice.  A hole
    in the array gives nothing. *)
Theorem calculateNurseStats_patients (roster : Roster) (s : StatsService.NurseStats) :
  In s (StatsService.calculateNurseStats roster) ->
  StatsService.patients s = patientsOf (StatsService.name s) (assignments roster) /\
  StatsService.patientCount s =
    Z.of_nat (length (patientsOf (StatsService.name s) (assignments roster))).
Proof.
  intros Hs. destruct (nurseMapOf_ok roster) as (_ & Hall & _).
  apply calculateNurseStats_In in Hs as (e & He & ->).
  rewrite List.Forall_forall in Hall.
  destruct (Hall e He) as (H1 & H2 & H3 & H4 & H5 & H6).
  cbn [StatsService.finalize StatsService.name StatsService.patients
       StatsService.patientCount].
  by rewrite H4, H3, H1.
Qed.

Lemma calculateNurseStats_patients_witness :
  exists s,
    In s (StatsService.calculateNurseStats dayOneRoster) /\
    StatsService.name s = "Ann" /\
    StatsService.patientCount s = 4 /\
    map StatsService.pt_room (StatsService.patients s) = ["501"; "502"; "502"; "504"].
Proof.
  destruct (nth_error (StatsService.calculateNurseStats dayOneRoster) 1) as [s|] eqn:E;
    [| vm_compute in E; discriminate].
  exists s. pose proof (nth_error_In _ _ E) as Hin.
  split; [done |].
  assert (Hn : StatsService.name s = "Ann")
    by (vm_compute in E; by injection E as <-).
  destruct (calculateNurseStats_patients dayOneRoster s Hin) as [Hp Hc].
  rewrite Hc, Hp, Hn. repeat split; vm_compute; reflexivity.
Defined.

Lemma calculateNurseStats_invariants_witness :
  NoDup (map StatsService.name (StatsService.calculateNurseStats dayOneRoster)) /\
  map StatsService.name (StatsService.calculateNurseStats dayOneRoster) =
  ["Fay"; "Ann"; "Bob"; "Cy"].
Proof.
  split; [apply (calculateNurseStats_invariants dayOneRoster) |].
  vm_compute. reflexivity.
Defined.

Lemma sumCounts_app (l1 l2 : list StatsService.NurseStats) :
  sumCounts (l1 ++ l2) = sumCounts l1 + sumCounts l2.
Proof.
  unfold sumCounts. induction l1 as [|s l1 IH]; simpl; [done |].
  rewrite IH. lia.
Qed.

(** The fold of [reduce] is the sum of the counts. *)
Lemma totalPatients_sum (l : list StatsService.NurseStats) :
  StatsService.totalPatients (StatsService.calculateSummaryStats l) = sumCounts l.
Proof.
  unfold StatsService.calculateSummaryStats. cbn [StatsService.totalPatients].
  assert (H : forall acc,
             fold_left (fun sum nurse => sum + StatsService.patientCount nurse) l acc =
             acc + sumCounts l).
  { induction l as [|s l IH]; intros acc; simpl; [lia |].
    rewrite IH. unfold sumCounts. lia. }
  rewrite H. lia.
Qed.

(** Rewriting the entry of one key changes the sum of the counts by what it
    adds to the count of that entry. *)
Lemma sumCounts_alterEntry (k : string) (f : StatsService.NurseStats -> StatsService.NurseStats)
  (c : Z) (m : JSMap.t StatsService.NurseStats) :
  NoDup (map fst m) ->
  (forall v, StatsService.patientCount (f v) = StatsService.patientCount v + c) ->
  sumCounts (JSMap.values (alterEntry k f m)) =
  sumCounts (JSMap.values m) + (if JSMap.has m k then c else 0).
Proof.
  intros Hnd Hf. unfold JSMap.values.
  induction m as [|[k' v] m IH]; [simpl; lia |].
  apply NoDup_cons in Hnd as [Hk' Hnd]. rewrite list_elem_of_In in Hk'.
  specialize (IH Hnd). cbn [alterEntry map fst snd] in *.
  destruct (String.eqb_spec k' k) as [->|Hne].
  - fold (alterEntry k f m). rewrite alterEntry_absent by done.
    cbn [sumCounts foldr snd]. rewrite Hf.
    replace (JSMap.has ((k, v) :: m) k) with true; [lia |].
    symmetry. apply has_spec. by left.
  - cbn [sumCounts foldr snd] in *. fold (alterEntry k f m). unfold sumCounts in IH.
    rewrite IH.
    replace (JSMap.has ((k', v) :: m) k) with (JSMap.has m k); [lia |].
    destruct (JSMap.has m k) eqn:E; symmetry.
    + apply has_spec. right. by apply has_spec.
    + apply has_false. apply has_false in E. intros [?|?]; done.
Qed.

Lemma sumCounts_initializeNurse (n cn : string) (fl : bool)
  (m : JSMap.t StatsService.NurseStats) :
  sumCounts (JSMap.values (StatsService.initializeNurse n cn fl m)) =
  sumCounts (JSMap.values m).
Proof.
  rewrite initializeNurse_spec. destruct (JSMap.has m n); [done |].
  unfold JSMap.values. rewrite map_app, sumCounts_app. simpl. lia.
Qed.

Lemma sumCounts_shiftStep P (rn cn room patient : string)
  (m : JSMap.t StatsService.NurseStats) :
  mapOk P m ->
  sumCounts (JSMap.values (StatsService.shiftStep rn cn room patient m)) =
  sumCounts (JSMap.values m) +
  (if StatsService.nonBlank rn && StatsService.nonBlank patient then 1 else 0).
Proof.
  intros Hm. unfold StatsService.shiftStep.
  destruct (StatsService.nonBlank rn); [| simpl; lia].
  pose proof (initializeNurse_ok P (JS.trim rn) cn false m (trim_idem rn) Hm)
    as (Hnd & _ & _).
  pose proof (initializeNurse_has (JS.trim rn) cn false m) as Hin.
  destruct (StatsService.nonBlank patient); simpl.
  - rewrite update_alterEntry by done.
    rewrite (sumCounts_alterEntry _ _ 1) by done.
    rewrite sumCounts_initializeNurse.
    by rewrite (proj2 (has_spec _ _) Hin).
  - rewrite sumCounts_initializeNurse. lia.
Qed.

Lemma sumCounts_markOneToOne P (rn : string) (m : JSMap.t StatsService.NurseStats) :
  mapOk P m ->
  sumCounts (JSMap.values (StatsService.markOneToOne rn m)) = sumCounts (JSMap.values m).
Proof.
  intros (Hnd & _ & _). unfold StatsService.markOneToOne.
  destruct (_ && _); [| done].
  rewrite update_alterEntry by done.
  rewrite (sumCounts_alterEntry _ _ 0) by (done || (intros; simpl; lia)).
  destruct (JSMap.has m _); lia.
Qed.

Lemma sumCounts_assignmentStep P (cn : Shifts string) (a : AssignmentRow)
  (m : JSMap.t StatsService.NurseStats) :
  mapOk P m ->
  sumCounts (JSMap.values (StatsService.assignmentStep cn a m)) =
  sumCounts (JSMap.values m) + rowShifts (Some a).
Proof.
  intros Hm. unfold StatsService.assignmentStep.
  pose proof (shiftStep_ok P (rnDay a) (day cn) (room a) (patient a) m Hm) as H1.
  pose proof (shiftStep_ok _ (rnNight a) (night cn) (room a) (patient a) _ H1) as H2.
  assert (E : sumCounts (JSMap.values
                (StatsService.shiftStep (rnNight a) (night cn) (room a) (patient a)
                   (StatsService.shiftStep (rnDay a) (day cn) (room a) (patient a) m))) =
              sumCounts (JSMap.values m) + rowShifts (Some a)).
  { rewrite (sumCounts_shiftStep _ _ _ _ _ _ H1), (sumCounts_shiftStep _ _ _ _ _ _ Hm).
    unfold rowShifts. lia. }
  destruct (_ && _); [| done].
  destruct (_ || _); [| done].
  rewrite (sumCounts_markOneToOne _ _ _ (markOneToOne_ok _ _ _ H2)).
  by rewrite (sumCounts_markOneToOne _ _ _ H2).
Qed.

Lemma sumCounts_assignments (cn : Shifts string) (rows : list (option AssignmentRow)) :
  forall P m, mapOk P m ->
  sumCounts (JSMap.values
               (fold_left (fun m a => match a with
                                      | Some a => StatsService.assignmentStep cn a m
                                      | None => m
                                      end) rows m)) =
  sumCounts (JSMap.values m) + patientShifts rows.
Proof.
  induction rows as [|o rows IH]; intros P m Hm; cbn [fold_left patientShifts foldr].
  - lia.
  - fold (patientShifts rows). destruct o as [a|].
    + rewrite (IH _ _ (assignmentStep_ok P cn a m Hm)).
      rewrite (sumCounts_assignmentStep P) by done. lia.
    + rewrite (IH P m Hm). simpl. lia.
Qed.

Lemma sumCounts_floats (cn : string) (names : list string) :
  forall m,
  sumCounts (JSMap.values
               (fold_left (fun m name => StatsService.initializeNurse (JS.trim name) cn true m)
                          names m)) =
  sumCounts (JSMap.values m).
Proof.
  induction names as [|n names IH]; intros m; cbn [fold_left]; [done |].
  by rewrite IH, sumCounts_initializeNurse.
Qed.

Lemma sumCounts_calculateNurseStats (roster : Roster) :
  sumCounts (StatsService.calculateNurseStats roster) =
  patientShifts (assignments roster).
Proof.
  unfold StatsService.calculateNurseStats.
  assert (E : forall m, sumCounts (JSMap.values (JSMap.forEach StatsService.finalize m)) =
                        sumCounts (JSMap.values m)).
  { unfold JSMap.values, JSMap.forEach, sumCounts.
    induction m as [|e m IH]; simpl; [done | by rewrite IH]. }
  rewrite E. unfold StatsService.nurseMapOf.
  rewrite (sumCounts_assignments _ _ (fun _ => [])).
  - by rewrite !sumCounts_floats.
  - apply floats_fold_ok, floats_fold_ok.
    split; [constructor |]. split; [constructor | done].
Qed.

Lemma triples_bound (l : list StatsService.NurseStats) :
  (forall s, In s l -> 0 <= StatsService.patientCount s /\
                       (StatsService.isTriple s = true -> StatsService.patientCount s = 3)) ->
  3 * Z.of_nat (length (List.filter StatsService.isTriple l)) <= sumCounts l.
Proof.
  induction l as [|s l IH]; intros H; [simpl; lia |].
  assert (IH' := IH (fun s' Hs' => H s' (or_intror Hs'))).
  destruct (H s (or_introl eq_refl)) as [H0 H3].
  cbn [List.filter sumCounts foldr]. fold (sumCounts l).
  destruct (StatsService.isTriple s); [| lia].
  rewrite (H3 eq_refl). cbn [length]. lia.
Qed.

(** X15. The summary of the statistics of one roster.  The total of
    patients counts staffed patient shifts, not patients: it is the number
    of pairs of a row that names a patient and a shift of that row that
    names a nurse, so a patient with a day nurse and a night nurse counts
    twice.  Every nurse with the triple flag accounts for three of them,
    and none of the three flag counts exceeds the number of nurses. *)
Theorem summary_of_roster (roster : Roster) :
  let stats := StatsService.calculateSummaryStats (StatsService.calculateNurseStats roster) in
  StatsService.totalPatients stats = patientShifts (assignments roster) /\
  3 * StatsService.totalTriples stats <= StatsService.totalPatients stats /\
  0 <= StatsService.totalTriples stats <= StatsService.totalNurses stats /\
  0 <= StatsService.totalOneToOnes stats <= StatsService.totalNurses stats /\
  0 <= StatsService.totalFloats stats <= StatsService.totalNurses stats.
Proof.
  cbv zeta. rewrite totalPatients_sum.
  split; [apply sumCounts_calculateNurseStats |]. split.
  - cbn [StatsService.calculateSummaryStats StatsService.totalTriples].
    apply triples_bound. intros s Hs.
    destruct (proj2 (nurseStats_inv roster) s Hs) as (Hc & Ht & _).
    split; [lia | by apply Ht].
  - cbn [StatsService.calculateSummaryStats StatsService.totalTriples
         StatsService.totalOneToOnes StatsService.totalFloats StatsService.totalNurses].
    pose proof (List.filter_length_le StatsService.isTriple
                  (StatsService.calculateNurseStats roster)).
    pose proof (List.filter_length_le StatsService.isOneToOne
                  (StatsService.calculateNurseStats roster)).
    pose proof (List.filter_length_le StatsService.isFloat
                  (StatsService.calculateNurseStats roster)).
    lia.
Qed.

Lemma summary_of_roster_witness :
  StatsService.totalPatients
    (StatsService.calculateSummaryStats (StatsService.calculateNurseStats dayOneRoster)) = 6 /\
  StatsService.totalNurses
    (StatsService.calculateSummaryStats (StatsService.calculateNurseStats dayOneRoster)) = 4.
Proof.
  rewrite (proj1 (summary_of_roster dayOneRoster)). split; vm_compute; reflexivity.
Defined.

Lemma set_absent {V} (m : JSMap.t V) (k : string) (v : V) :
  JSMap.has m k = false -> JSMap.set m k v = (m ++ [(k, v)])%list.
Proof. intros H. unfold JSMap.set. by rewrite H. Qed.

Lemma setHighAssignment_fixed (s : StatsService.NurseStats) :
  (StatsService.isHighAssignment s = true <-> 5 <= StatsService.patientCount s) ->
  StatsService.setHighAssignment s = s.
Proof.
  intros H. destruct s as [n c ps t o f h cn]. unfold StatsService.setHighAssignment.
  simpl in *. f_equal.
  destruct (Z.leb_spec 5 c), h; try done.
  - symmetry. by apply H.
  - assert (5 <= c) by (by apply H). lia.
Qed.

Lemma addDailyStat_fresh (d : string) (l : list StatsService.NurseStats) :
  forall m, NoDup (map fst m ++ map StatsService.name l) ->
  fold_left (StatsService.addDailyStat d) l m =
  (m ++ map (fun s => (StatsService.name s, s)) l)%list.
Proof.
  induction l as [|s l IH]; intros m Hnd; cbn [fold_left map].
  - by rewrite app_nil_r.
  - cbn [map] in Hnd.
    assert (Hs : JSMap.has m (StatsService.name s) = false).
    { apply has_false. intros Hin. apply NoDup_app in Hnd as (_ & Hd & _).
      apply (Hd (StatsService.name s)); [by apply list_elem_of_In | by left]. }
    unfold StatsService.addDailyStat at 2. rewrite Hs, set_absent by done.
    rewrite IH.
    + by rewrite <- app_assoc.
    + rewrite map_app. cbn [map fst]. rewrite <- app_assoc. exact Hnd.
Qed.

(** X16. A batch of one roster gives the statistics of that roster:
    [processBatchRosters [r]] and [calculateNurseStats r] are the same
    list, with the same order, counts, patients and flags. *)
Theorem batch_of_one_roster (roster : Roster) :
  StatsService.processBatchRosters [roster] = StatsService.calculateNurseStats roster.
Proof.
  destruct (nurseStats_inv roster) as [Hnd Hall].
  unfold StatsService.processBatchRosters. cbn [fold_left].
  unfold StatsService.addRoster. rewrite addDailyStat_fresh by done.
  unfold JSMap.values, JSMap.forEach. cbn [app]. rewrite !map_map. cbn [snd].
  rewrite <- (map_id (StatsService.calculateNurseStats roster)) at 2.
  apply map_ext_in. intros s Hs. apply setHighAssignment_fixed.
  by destruct (Hall s Hs) as (_ & _ & H).
Qed.

Lemma countOf_app (n : string) (l1 l2 : list StatsService.NurseStats) :
  countOf n (l1 ++ l2) = countOf n l1 + countOf n l2.
Proof. unfold countOf. by rewrite List.filter_app, sumCounts_app. Qed.

Lemma countOf_alterEntry (n k : string)
  (f : StatsService.NurseStats -> StatsService.NurseStats) (c : Z)
  (m : JSMap.t StatsService.NurseStats) :
  aggOk m ->
  (forall v, StatsService.name (f v) = StatsService.name v /\
             StatsService.patientCount (f v) = StatsService.patientCount v + c) ->
  countOf n (JSMap.values (alterEntry k f m)) =
  countOf n (JSMap.values m) +
  (if JSMap.has m k && String.eqb k n then c else 0).
Proof.
  intros [Hnd Hall] Hf. unfold JSMap.values.
  induction m as [|[k' v] m IH]; [simpl; lia |].
  apply NoDup_cons in Hnd as [Hk' Hnd]. rewrite list_elem_of_In in Hk'.
  apply List.Forall_cons_iff in Hall as [[Hname _] Hall]. simpl in Hname.
  specialize (IH Hnd Hall). cbn [alterEntry map fst snd] in *.
  fold (alterEntry k f m) in *.
  change (countOf n (?x :: ?l)) with (countOf n ([x] ++ l)%list).
  rewrite !countOf_app.
  destruct (String.eqb_spec k' k) as [->|Hne].
  - rewrite alterEntry_absent by done. cbn [snd].
    replace (JSMap.has ((k, v) :: m) k) with true
      by (symmetry; apply has_spec; by left).
    unfold countOf. cbn [List.filter].
    destruct (Hf v) as [Hn Hc]. rewrite Hn, Hname.
    destruct (String.eqb k n); cbn [sumCounts foldr andb]; rewrite ?Hc; lia.
  - rewrite IH. cbn [snd].
    replace (JSMap.has ((k', v) :: m) k) with (JSMap.has m k); [lia |].
    destruct (JSMap.has m k) eqn:E; symmetry.
    + apply has_spec. right. by apply has_spec.
    + apply has_false. apply has_false in E. intros [?|?]; done.
Qed.

Lemma addDailyStat_ok (d : string) (m : JSMap.t StatsService.NurseStats)
  (s : StatsService.NurseStats) :
  aggOk m ->
  StatsService.patientCount s = Z.of_nat (length (StatsService.patients s)) ->
  aggOk (StatsService.addDailyStat d m s) /\
  (forall n, countOf n (JSMap.values (StatsService.addDailyStat d m s)) =
             countOf n (JSMap.values m) + countOf n [s]) /\
  sumCounts (JSMap.values (StatsService.addDailyStat d m s)) =
  sumCounts (JSMap.values m) + StatsService.patientCount s.
Proof.
  intros Hm Hs. pose proof Hm as [Hnd Hall]. unfold StatsService.addDailyStat.
  destruct (JSMap.has m (StatsService.name s)) eqn:E.
  - rewrite update_alterEntry by done. split; [| split].
    + split; [by rewrite alterEntry_keys |].
      eapply alterEntry_Forall; [exact Hall | | done].
      intros e [H1 H2] _. cbn [fst snd StatsService.mergeStat StatsService.name
        StatsService.patientCount StatsService.patients].
      split; [done |]. rewrite length_app, length_map. lia.
    + intros n. rewrite (countOf_alterEntry n _ _ (StatsService.patientCount s)) by done.
      rewrite E. unfold countOf. cbn [List.filter andb].
      destruct (String.eqb (StatsService.name s) n); simpl; lia.
    + rewrite (sumCounts_alterEntry _ _ (StatsService.patientCount s)) by done.
      by rewrite E.
  - rewrite set_absent by done. apply has_false in E. split; [| split].
    + split.
      * rewrite map_app. simpl. apply NoDup_app. split; [done |]. split.
        -- intros x Hx Hx'. apply list_elem_of_singleton in Hx' as ->.
           by apply list_elem_of_In in Hx.
        -- apply NoDup_singleton.
      * apply Forall_app. split; [done |]. by constructor.
    + intros n. unfold JSMap.values. by rewrite map_app, countOf_app.
    + unfold JSMap.values. rewrite map_app, sumCounts_app. simpl. lia.
Qed.

Lemma addRoster_ok (m : JSMap.t StatsService.NurseStats) (roster : Roster) :
  aggOk m ->
  aggOk (StatsService.addRoster m roster) /\
  (forall n, countOf n (JSMap.values (StatsService.addRoster m roster)) =
             countOf n (JSMap.values m) +
             countOf n (StatsService.calculateNurseStats roster)) /\
  sumCounts (JSMap.values (StatsService.addRoster m roster)) =
  sumCounts (JSMap.values m) + patientShifts (assignments roster).
Proof.
  intros Hm. unfold StatsService.addRoster.
  rewrite <- sumCounts_calculateNurseStats.
  pose proof (proj2 (nurseStats_inv roster)) as Hall.
  revert m Hm Hall.
  induction (StatsService.calculateNurseStats roster) as [|s l IH];
    intros m Hm Hall; cbn [fold_left].
  - split; [done |]. split; [intros n; unfold countOf; simpl; lia | simpl; lia].
  - destruct (addDailyStat_ok (date roster) m s Hm) as (Hm' & Hc & Hsum).
    { by destruct (Hall s (or_introl eq_refl)) as (H & _). }
    destruct (IH _ Hm' (fun s' Hs' => Hall s' (or_intror Hs'))) as (Hok & Hc' & Hsum').
    split; [done |]. split.
    + intros n. rewrite Hc', Hc.
      change (s :: l) with ([s] ++ l)%list. rewrite (countOf_app n [s] l). lia.
    + rewrite Hsum', Hsum. cbn [sumCounts foldr]. fold (sumCounts l). lia.
Qed.

Lemma rosters_fold_ok (rosters : list Roster) :
  forall m, aggOk m ->
  aggOk (fold_left StatsService.addRoster rosters m) /\
  (forall n, countOf n (JSMap.values (fold_left StatsService.addRoster rosters m)) =
             countOf n (JSMap.values m) + dailyCountsOf n rosters) /\
  sumCounts (JSMap.values (fold_left StatsService.addRoster rosters m)) =
  sumCounts (JSMap.values m) + batchShifts rosters.
Proof.
  induction rosters as [|r rosters IH]; intros m Hm; cbn [fold_left].
  - split; [done |]. split; [intros n; simpl; lia | simpl; lia].
  - destruct (addRoster_ok m r Hm) as (Hm' & Hc & Hsum).
    destruct (IH _ Hm') as (Hok & Hc' & Hsum').
    split; [done |]. split.
    + intros n. rewrite Hc', Hc. cbn [dailyCountsOf foldr].
      fold (dailyCountsOf n rosters). lia.
    + rewrite Hsum', Hsum. cbn [batchShifts foldr]. fold (batchShifts rosters). lia.
Qed.

(** X17. The aggregate of a batch of rosters.  No name occurs twice; the
    patient count of a name is the sum of the counts that the rosters give
    it day by day, and the total of patients is the number of staffed
    patient shifts of all rosters together; the count of an entry is the
    length of its patient list, and its high-assignment flag is set exactly
    for a count of 5 or more. *)
Theorem batch_counts_add_up (rosters : list Roster) :
  let stats := StatsService.processBatchRosters rosters in
  NoDup (map StatsService.name stats) /\
  (forall n, countOf n stats = dailyCountsOf n rosters) /\
  StatsService.totalPatients (StatsService.calculateSummaryStats stats) =
    batchShifts rosters /\
  (forall s, In s stats ->
     StatsService.patientCount s = Z.of_nat (length (StatsService.patients s)) /\
     (StatsService.isHighAssignment s = true <-> 5 <= StatsService.patientCount s)).
Proof.
  cbv zeta. unfold StatsService.processBatchRosters.
  destruct (rosters_fold_ok rosters []) as ((Hnd & Hall) & Hc & Hsum).
  { split; constructor. }
  set (m := fold_left StatsService.addRoster rosters []) in *.
  assert (Hnames : map StatsService.name
                     (JSMap.values (JSMap.forEach StatsService.setHighAssignment m)) =
                   map fst m).
  { unfold JSMap.values, JSMap.forEach. rewrite !map_map.
    apply map_ext_in. intros e He. rewrite List.Forall_forall in Hall.
    by destruct (Hall e He). }
  assert (Hfilter : forall n,
            countOf n (JSMap.values (JSMap.forEach StatsService.setHighAssignment m)) =
            countOf n (JSMap.values m)).
  { intros n. unfold JSMap.values, JSMap.forEach, countOf. clear.
    induction m as [|e m IH]; [done |]. cbn [map List.filter snd StatsService.name
      StatsService.setHighAssignment].
    destruct (String.eqb (StatsService.name (snd e)) n); [| exact IH].
    cbn [sumCounts foldr StatsService.patientCount]. unfold sumCounts in IH.
    by rewrite IH. }
  assert (Hsums : sumCounts (JSMap.values (JSMap.forEach StatsService.setHighAssignment m)) =
                  sumCounts (JSMap.values m)).
  { unfold JSMap.values, JSMap.forEach, sumCounts. clear.
    induction m as [|e m IH]; simpl; [done | by rewrite IH]. }
  split; [by rewrite Hnames |]. split; [| split].
  - intros n. rewrite Hfilter, Hc. unfold countOf. simpl. lia.
  - rewrite totalPatients_sum, Hsums, Hsum. simpl. lia.
  - intros s Hs. unfold JSMap.values, JSMap.forEach in Hs. rewrite map_map in Hs.
    apply in_map_iff in Hs as (e & <- & He). rewrite List.Forall_forall in Hall.
    destruct (Hall e He) as [_ Hlen].
    cbn [snd StatsService.setHighAssignment StatsService.patientCount
         StatsService.patients StatsService.isHighAssignment].
    split; [done |].
    destruct (Z.leb_spec 5 (StatsService.patientCount (snd e))); split; try done; lia.
Qed.

Lemma batch_counts_add_up_witness :
  countOf "Ann" (StatsService.processBatchRosters [dayOneRoster; dayTwoRoster]) = 4 + 2 /\
  StatsService.totalPatients
    (StatsService.calculateSummaryStats
       (StatsService.processBatchRosters [dayOneRoster; dayTwoRoster])) = 6 + 3.
Proof.
  destruct (batch_counts_add_up [dayOneRoster; dayTwoRoster]) as (_ & Hc & Ht & _).
  rewrite Hc, Ht. split; vm_compute; reflexivity.
Defined.

(** *** Who is in the statistics *)

Lemma initializeNurse_keys (n cn : string) (fl : bool)
  (m : JSMap.t StatsService.NurseStats) (k : string) :
  In k (map fst (StatsService.initializeNurse n cn fl m)) <->
  In k (map fst m) \/ k = n.
Proof.
  rewrite initializeNurse_spec. destruct (JSMap.has m n) eqn:E.
  - apply has_spec in E. split; [by left | by intros [?| ->]].
  - rewrite map_app, in_app_iff. simpl. split.
    + intros [?|[<-|[]]]; auto.
    + intros [?| ->]; auto.
Qed.

Lemma shiftStep_keys P (rn cn room patient : string)
  (m : JSMap.t StatsService.NurseStats) (k : string) :
  mapOk P m ->
  In k (map fst (StatsService.shiftStep rn cn room patient m)) <->
  In k (map fst m) \/ (StatsService.nonBlank rn = true /\ k = JS.trim rn).
Proof.
  intros Hm. unfold StatsService.shiftStep.
  destruct (StatsService.nonBlank rn) eqn:Hrn.
  2:{ split; [by left | by intros [?|[? _]]]. }
  pose proof (initializeNurse_ok P (JS.trim rn) cn false m (trim_idem rn) Hm)
    as (Hnd & _ & _).
  destruct (StatsService.nonBlank patient).
  - rewrite update_alterEntry by done. rewrite alterEntry_keys, initializeNurse_keys.
    split; [intros [?| ->]; auto | intros [?|[_ ->]]; auto].
  - rewrite initializeNurse_keys.
    split; [intros [?| ->]; auto | intros [?|[_ ->]]; auto].
Qed.

Lemma markOneToOne_entries P (rn : string) (m : JSMap.t StatsService.NurseStats) :
  mapOk P m ->
  map fst (StatsService.markOneToOne rn m) = map fst m /\
  map (fun e => StatsService.isFloat (snd e)) (StatsService.markOneToOne rn m) =
  map (fun e => StatsService.isFloat (snd e)) m.
Proof.
  intros (Hnd & _ & _). unfold StatsService.markOneToOne.
  destruct (_ && _); [| done].
  rewrite update_alterEntry by done. split; [apply alterEntry_keys |].
  unfold alterEntry. rewrite map_map. apply map_ext. intros e.
  by destruct (String.eqb (fst e) _).
Qed.

(** The entries that bear the float flag, while the map is built: every
    key that is a float name, and no other. *)
Lemma floatFlag_initializeNurse (F : string -> Prop) (n cn : string) (fl : bool)
  (m : JSMap.t StatsService.NurseStats) :
  (fl = true <-> F n) \/ In n (map fst m) ->
  Forall (fun e => StatsService.isFloat (snd e) = true <-> F (fst e)) m ->
  Forall (fun e => StatsService.isFloat (snd e) = true <-> F (fst e))
         (StatsService.initializeNurse n cn fl m).
Proof.
  intros Hn H. rewrite initializeNurse_spec. destruct (JSMap.has m n) eqn:E; [done |].
  apply has_false in E. destruct Hn as [Hn|Hn]; [| done].
  apply Forall_app. split; [done |]. constructor; [exact Hn | constructor].
Qed.

Lemma floatFlag_alterEntry (F : string -> Prop) (k : string)
  (f : StatsService.NurseStats -> StatsService.NurseStats)
  (m : JSMap.t StatsService.NurseStats) :
  (forall v, StatsService.isFloat (f v) = StatsService.isFloat v) ->
  Forall (fun e => StatsService.isFloat (snd e) = true <-> F (fst e)) m ->
  Forall (fun e => StatsService.isFloat (snd e) = true <-> F (fst e)) (alterEntry k f m).
Proof.
  intros Hf H. eapply alterEntry_Forall; [exact H | | done].
  intros e He _. cbn [fst snd]. by rewrite Hf.
Qed.

Lemma floatFlag_shiftStep P (F : string -> Prop) (rn cn room patient : string)
  (m : JSMap.t StatsService.NurseStats) :
  mapOk P m ->
  (forall k, F k -> In k (map fst m)) ->
  Forall (fun e => StatsService.isFloat (snd e) = true <-> F (fst e)) m ->
  Forall (fun e => StatsService.isFloat (snd e) = true <-> F (fst e))
         (StatsService.shiftStep rn cn room patient m).
Proof.
  intros Hm Hsub H. unfold StatsService.shiftStep.
  destruct (StatsService.nonBlank rn); [| done].
  pose proof (initializeNurse_ok P (JS.trim rn) cn false m (trim_idem rn) Hm)
    as (Hnd & _ & _).
  assert (H1 : Forall (fun e => StatsService.isFloat (snd e) = true <-> F (fst e))
                      (StatsService.initializeNurse (JS.trim rn) cn false m)).
  { apply floatFlag_initializeNurse; [| done].
    destruct (in_dec string_dec (JS.trim rn) (map fst m)) as [|Hn]; [by right |].
    left. split; [done |]. intros HF. by apply Hsub in HF. }
  destruct (StatsService.nonBlank patient); [| done].
  rewrite update_alterEntry by done. by apply floatFlag_alterEntry.
Qed.

Lemma floatFlag_markOneToOne P (F : string -> Prop) (rn : string)
  (m : JSMap.t StatsService.NurseStats) :
  mapOk P m ->
  Forall (fun e => StatsService.isFloat (snd e) = true <-> F (fst e)) m ->
  Forall (fun e => StatsService.isFloat (snd e) = true <-> F (fst e))
         (StatsService.markOneToOne rn m).
Proof.
  intros (Hnd & _ & _) H. unfold StatsService.markOneToOne.
  destruct (_ && _); [| done].
  rewrite update_alterEntry by done. by apply floatFlag_alterEntry.
Qed.

Lemma members_assignmentStep P (F : string -> Prop) (cn : Shifts string)
  (a : AssignmentRow) (m : JSMap.t StatsService.NurseStats) :
  mapOk P m ->
  (forall k, F k -> In k (map fst m)) ->
  Forall (fun e => StatsService.isFloat (snd e) = true <-> F (fst e)) m ->
  (forall k, In k (map fst (StatsService.assignmentStep cn a m)) <->
             In k (map fst m) \/ nurseNamed k (Some a)) /\
  Forall (fun e => StatsService.isFloat (snd e) = true <-> F (fst e))
         (StatsService.assignmentStep cn a m).
Proof.
  intros Hm Hsub H. unfold StatsService.assignmentStep.
  pose proof (shiftStep_ok P (rnDay a) (day cn) (room a) (patient a) m Hm) as Hm1.
  pose proof (shiftStep_ok _ (rnNight a) (night cn) (room a) (patient a) _ Hm1) as Hm2.
  pose proof (floatFlag_shiftStep P F (rnDay a) (day cn) (room a) (patient a) m Hm Hsub H)
    as H1.
  assert (Hsub1 : forall k, F k ->
            In k (map fst (StatsService.shiftStep (rnDay a) (day cn) (room a) (patient a) m))).
  { intros k Hk. apply (shiftStep_keys P); [done |]. left. by apply Hsub. }
  pose proof (floatFlag_shiftStep _ F (rnNight a) (night cn) (room a) (patient a) _
                Hm1 Hsub1 H1) as H2.
  set (m2 := StatsService.shiftStep (rnNight a) (night cn) (room a) (patient a)
               (StatsService.shiftStep (rnDay a) (day cn) (room a) (patient a) m)) in *.
  assert (Hkeys : forall k, In k (map fst m2) <-> In k (map fst m) \/ nurseNamed k (Some a)).
  { intros k. unfold m2. rewrite (shiftStep_keys _ _ _ _ _ _ _ Hm1).
    rewrite (shiftStep_keys P) by done. simpl. tauto. }
  destruct (_ && _); [| done].
  destruct (_ || _); [| done].
  pose proof (markOneToOne_ok _ (rnDay a) m2 Hm2) as Hm3.
  split.
  - intros k.
    rewrite (proj1 (markOneToOne_entries _ (rnNight a) _ Hm3)).
    rewrite (proj1 (markOneToOne_entries _ (rnDay a) _ Hm2)). apply Hkeys.
  - eapply floatFlag_markOneToOne; [exact Hm3 |].
    eapply floatFlag_markOneToOne; [exact Hm2 | exact H2].
Qed.

Lemma members_assignments (F : string -> Prop) (cn : Shifts string)
  (rows : list (option AssignmentRow)) :
  forall P m, mapOk P m ->
  (forall k, F k -> In k (map fst m)) ->
  Forall (fun e => StatsService.isFloat (snd e) = true <-> F (fst e)) m ->
  let m' := fold_left (fun m a => match a with
                                  | Some a => StatsService.assignmentStep cn a m
                                  | None => m
                                  end) rows m in
  (forall k, In k (map fst m') <->
             In k (map fst m) \/ exists o, In o rows /\ nurseNamed k o) /\
  Forall (fun e => StatsService.isFloat (snd e) = true <-> F (fst e)) m'.
Proof.
  induction rows as [|o rows IH]; intros P m Hm Hsub H; cbn [fold_left].
  - split; [| done]. intros k. split; [by left | by intros [?|(o & [] & _)]].
  - destruct o as [a|].
    + destruct (members_assignmentStep P F cn a m Hm Hsub H) as [Hk Hf].
      destruct (IH _ _ (assignmentStep_ok P cn a m Hm)
                  (fun k HF => proj2 (Hk k) (or_introl (Hsub k HF))) Hf) as [Hk' Hf'].
      split; [| done]. intros k. rewrite Hk', Hk. split.
      * intros [[?|Hn]|(o & Ho & Hn)]; [by left | |].
        -- right. exists (Some a). split; [by left | done].
        -- right. exists o. split; [by right | done].
      * intros [?|(o & [<-|Ho] & Hn)]; [by left; left | by left; right |].
        right. by exists o.
    + destruct (IH P m Hm Hsub H) as [Hk' Hf']. split; [| done].
      intros k. rewrite Hk'. split.
      * intros [?|(o & Ho & Hn)]; [by left |]. right. exists o. split; [by right | done].
      * intros [?|(o & [<-|Ho] & Hn)]; [by left | done |]. right. by exists o.
Qed.

Lemma members_floats (cn : string) (names : list string) :
  forall m,
  Forall (fun e => StatsService.isFloat (snd e) = true) m ->
  let m' := fold_left (fun m name => StatsService.initializeNurse (JS.trim name) cn true m)
                      names m in
  (forall k, In k (map fst m') <-> In k (map fst m) \/ In k (map JS.trim names)) /\
  Forall (fun e => StatsService.isFloat (snd e) = true) m'.
Proof.
  induction names as [|n names IH]; intros m H; cbn [fold_left].
  - split; [| done]. intros k. simpl. tauto.
  - destruct (IH (StatsService.initializeNurse (JS.trim n) cn true m)) as [Hk Hf].
    { rewrite initializeNurse_spec. destruct (JSMap.has m (JS.trim n)); [done |].
      apply Forall_app. split; [done |]. constructor; [reflexivity | constructor]. }
    split; [| done]. intros k. rewrite Hk, initializeNurse_keys. simpl.
    split; [intros [[?| ->]|?]; auto | intros [?|[<-|?]]; auto].
Qed.

(** X22. Who is in the statistics of a roster, and who is a float.  A
    name is in the list exactly when it is the trimmed name of a float of
    either shift or the trimmed nurse of a shift of some row whose nurse is
    not blank (with or without a patient); and an entry bears the float
    flag exactly when its name is the trimmed name of a float, whether or
    not the nurse also has rows. *)
Theorem calculateNurseStats_members (roster : Roster) :
  (forall n, In n (map StatsService.name (StatsService.calculateNurseStats roster)) <->
     In n (floatNames roster) \/
     exists o, In o (assignments roster) /\ nurseNamed n o) /\
  (forall s, In s (StatsService.calculateNurseStats roster) ->
     (StatsService.isFloat s = true <-> In (StatsService.name s) (floatNames roster))).
Proof.
  destruct (members_floats (day (chargeNurses roster)) (day (floats roster)) [])
    as [Hk1 Hf1]; [constructor |].
  destruct (members_floats (night (chargeNurses roster)) (night (floats roster)) _ Hf1)
    as [Hk2 Hf2]. cbv zeta in *.
  set (m0 := fold_left
               (fun m name => StatsService.initializeNurse (JS.trim name)
                                (night (chargeNurses roster)) true m)
               (night (floats roster))
               (fold_left
                  (fun m name => StatsService.initializeNurse (JS.trim name)
                                   (day (chargeNurses roster)) true m)
                  (day (floats roster)) [])) in *.
  assert (Hkeys0 : forall k, In k (map fst m0) <-> In k (floatNames roster)).
  { intros k. rewrite Hk2, Hk1. unfold floatNames. rewrite map_app, in_app_iff.
    simpl. tauto. }
  assert (Hm0 : mapOk (fun _ => []) m0).
  { apply floats_fold_ok, floats_fold_ok.
    split; [constructor |]. split; [constructor | done]. }
  destruct (members_assignments (fun k => In k (floatNames roster))
              (chargeNurses roster) (assignments roster) _ m0 Hm0) as [Hk Hf].
  { intros k. apply Hkeys0. }
  { apply List.Forall_forall. intros e He.
    rewrite List.Forall_forall in Hf2. rewrite (Hf2 e He).
    split; [intros _ | done]. apply Hkeys0, in_map_iff. by exists e. }
  cbv zeta in *.
  split.
  - intros n. rewrite calculateNurseStats_names.
    etransitivity; [exact (Hk n) |]. by rewrite Hkeys0.
  - intros s Hs. apply calculateNurseStats_In in Hs as (e & He & ->).
    rewrite List.Forall_forall in Hf. specialize (Hf e He).
    destruct (nurseMapOf_ok roster) as (_ & Hall & _).
    rewrite List.Forall_forall in Hall. destruct (Hall e He) as (H1 & _).
    cbn [StatsService.finalize StatsService.isFloat StatsService.name].
    by rewrite H1.
Qed.

Lemma calculateNurseStats_members_witness :
  In "Cy" (map StatsService.name (StatsService.calculateNurseStats dayOneRoster)) /\
  In "Fay" (map StatsService.name (StatsService.calculateNurseStats dayOneRoster)).
Proof.
  destruct (calculateNurseStats_members dayOneRoster) as [H _]. split.
  - apply (proj2 (H "Cy")). right. exists (Some (mkAssignment "503" "" "" "Cy" "")).
    split; [unfold dayOneRoster, mkRoster; cbn [assignments map In]; auto |].
    left. split; reflexivity.
  - apply (proj2 (H "Fay")). left. left. reflexivity.
Defined.

(* ===================================================================== *)
(** ** Properties: the export service and the list editor                 *)
(* ===================================================================== *)

Section ClassFacts.

Variable p : ascii -> bool.

(** The first character of a text that satisfies [p], if there is one. *)
Lemma first_split (txt : list ascii) :
  Forall (fun c => p c = false) txt \/
  exists pre c post, txt = (pre ++ c :: post)%list /\
    Forall (fun c => p c = false) pre /\ p c = true.
Proof.
  induction txt as [|c txt IH]; [by left |].
  destruct (p c) eqn:E.
  - right. exists [], c, txt. by repeat split.
  - destruct IH as [H|(pre & c' & post & -> & Hpre & Hc)].
    + left. by constructor.
    + right. exists (c :: pre), c', post. repeat split; [| done]. by constructor.
Qed.

Lemma exec_from_Class_none (whole : string) (txt : list ascii) (pr : option ascii)
  (i : nat) :
  Forall (fun c => p c = false) txt ->
  exec_from (Class p) whole pr i txt = None.
Proof.
  intros H. revert pr i. induction H as [|c txt Hc _ IH]; intros pr i.
  - reflexivity.
  - cbn [exec_from run rest]. rewrite Hc. apply IH.
Qed.

Lemma exec_from_Class_some (whole : string) (pre : list ascii) (c : ascii)
  (post : list ascii) (pr : option ascii) (i : nat) :
  Forall (fun c => p c = false) pre -> p c = true ->
  exec_from (Class p) whole pr i (pre ++ c :: post) =
  Some (Match whole (i + length pre) (S (i + length pre)) []).
Proof.
  intros H Hc. revert pr i. induction H as [|x pre Hx _ IH]; intros pr i.
  - cbn [app exec_from run rest pos caps]. rewrite Hc. cbn [pos caps length].
    by rewrite Nat.add_0_r.
  - cbn [app exec_from run rest]. rewrite Hx. rewrite IH. cbn [length].
    by rewrite Nat.add_succ_r.
Qed.

(** A test for one character of a class looks for it in the text. *)
Lemma test_Class (s : string) : test (Class p) s = existsb p (JS.chars s).
Proof.
  unfold test, exec.
  destruct (first_split (JS.chars s)) as [H|(pre & c & post & E & Hpre & Hc)].
  - rewrite exec_from_Class_none by done. symmetry.
    apply not_true_is_false. intros Hex. apply existsb_exists in Hex as (x & Hx & Hpx).
    rewrite List.Forall_forall in H. by rewrite (H x Hx) in Hpx.
  - rewrite E. rewrite exec_from_Class_some by done. symmetry.
    apply existsb_exists. exists c. split; [| done].
    apply in_or_app. right. by left.
Qed.

(** Replacing every character of a class by a fixed text. *)
Lemma replaceAll_from_Class (whole r : string) (fuel : nat) :
  forall (txt : list ascii) (pr : option ascii) (i : nat),
  (length txt < fuel)%nat ->
  replaceAll_from fuel (Class p) (fun _ => r) whole pr i txt =
  flat_map (fun c => if p c then JS.chars r else [c]) txt.
Proof.
  induction fuel as [|fuel IH]; intros txt pr i Hlen; [lia |].
  cbn [replaceAll_from].
  destruct (first_split txt) as [H|(pre & c & post & -> & Hpre & Hc)].
  - rewrite exec_from_Class_none by done.
    induction H as [|x txt Hx _ IHt]; [done |]. cbn [flat_map]. rewrite Hx.
    simpl. f_equal. apply IHt. simpl in Hlen. lia.
  - rewrite exec_from_Class_some by done. cbn [index lastIndex].
    replace (i + length pre - i)%nat with (length pre) by lia.
    replace (S (i + length pre) - i)%nat with (S (length pre)) by lia.
    destruct (Nat.ltb_spec (i + length pre) (S (i + length pre))); [| lia].
    rewrite take_app_length.
    replace (drop (S (length pre)) (pre ++ c :: post)) with post.
    2:{ change (c :: post) with ([c] ++ post)%list. rewrite app_assoc.
        rewrite drop_app_length'; [done |]. rewrite length_app. simpl. lia. }
    rewrite flat_map_app. cbn [flat_map]. rewrite Hc.
    rewrite IH by (rewrite length_app in Hlen; simpl in Hlen; lia).
    f_equal. clear -Hpre. induction Hpre as [|x pre Hx _ IHp]; [done |].
    cbn [flat_map]. rewrite Hx. simpl. by rewrite <- IHp.
Qed.

End ClassFacts.

(** Doubling the quotes. *)
Lemma replaceAll_quotes (s : string) :
  replaceAll ExportService.quoteRegex
             (fun _ => String ExportService.quote (String ExportService.quote "")) s =
  JS.str (flat_map (fun c => if Ascii.eqb ExportService.quote c
                             then [ExportService.quote; ExportService.quote]
                             else [c]) (JS.chars s)).
Proof.
  unfold replaceAll, ExportService.quoteRegex, lit.
  rewrite replaceAll_from_Class; [done |].
  unfold JS.chars. clear. induction s as [|c s IH]; simpl; lia.
Qed.

Lemma doubling_injective (q : ascii) (l1 l2 : list ascii) :
  flat_map (fun c => if Ascii.eqb q c then [q; q] else [c]) l1 =
  flat_map (fun c => if Ascii.eqb q c then [q; q] else [c]) l2 ->
  l1 = l2.
Proof.
  revert l2. induction l1 as [|a l1 IH]; intros [|b l2]; cbn [flat_map].
  - done.
  - by destruct (Ascii.eqb q b).
  - by destruct (Ascii.eqb q a).
  - destruct (Ascii.eqb_spec q a) as [<-|Ha], (Ascii.eqb_spec q b) as [<-|Hb];
      simpl; intros H.
    + injection H as H. f_equal. by apply IH.
    + injection H as <- _. done.
    + injection H as -> _. done.
    + injection H as -> H. f_equal. by apply IH.
Qed.

Lemma doubling_count (q : ascii) (l : list ascii) :
  count_occ ascii_dec (flat_map (fun c => if Ascii.eqb q c then [q; q] else [c]) l) q =
  (2 * count_occ ascii_dec l q)%nat.
Proof.
  induction l as [|a l IH]; [done |]. cbn [flat_map].
  rewrite count_occ_app, IH.
  destruct (Ascii.eqb_spec q a) as [<-|Ha].
  - rewrite count_occ_cons_eq by done. simpl.
    destruct (ascii_dec q q); [lia | done].
  - rewrite count_occ_cons_neq by (by intros ->). simpl.
    destruct (ascii_dec a q); [by subst | lia].
Qed.

Lemma doubling_length (q : ascii) (l : list ascii) :
  (length l <= length (flat_map (fun c => if Ascii.eqb q c then [q; q] else [c]) l))%nat.
Proof.
  induction l as [|a l IH]; [done |]. cbn [flat_map]. rewrite length_app.
  destruct (Ascii.eqb q a); simpl; lia.
Qed.

Lemma chars_append (s t : string) :
  JS.chars (s +:+ t) = (JS.chars s ++ JS.chars t)%list.
Proof.
  unfold JS.chars. induction s as [|c s IH]; simpl; [done | by rewrite IH].
Qed.

Lemma chars_String (a : ascii) (s : string) :
  JS.chars (String a s) = a :: JS.chars s.
Proof. reflexivity. Qed.

(** The text of an escaped cell, by its characters. *)
Lemma escapeCsvCell_chars (c : ExportService.CellData) :
  let s := ExportService.String_ c in
  JS.chars (ExportService.escapeCsvCell c) =
  if existsb (fun x => Ascii.eqb x ExportService.quote || Ascii.eqb x ","%char ||
                       Ascii.eqb x "010"%char) (JS.chars s)
  then (ExportService.quote ::
        flat_map (fun x => if Ascii.eqb ExportService.quote x
                           then [ExportService.quote; ExportService.quote]
                           else [x]) (JS.chars s) ++ [ExportService.quote])%list
  else JS.chars s.
Proof.
  cbv zeta. unfold ExportService.escapeCsvCell, ExportService.specialRegex.
  rewrite test_Class. destruct (existsb _ _); [| done].
  rewrite replaceAll_quotes.
  rewrite chars_append, chars_String, chars_str. reflexivity.
Qed.

(** X18. Escaping a cell of the report loses nothing and keeps the quotes
    balanced.  Two texts with the same escaped form are the same text; the
    escaped form of any cell holds an even number of double quotes; and a
    text is left as it is exactly when it holds no double quote, comma or
    line feed. *)
Theorem escapeCsvCell_lossless :
  (forall s1 s2,
     ExportService.escapeCsvCell (ExportService.CString s1) =
     ExportService.escapeCsvCell (ExportService.CString s2) -> s1 = s2) /\
  (forall c, Nat.Even (count_occ ascii_dec (JS.chars (ExportService.escapeCsvCell c))
                                 ExportService.quote)) /\
  (forall s,
     ExportService.escapeCsvCell (ExportService.CString s) = s <->
     forall x, In x (JS.chars s) ->
       x <> ExportService.quote /\ x <> ","%char /\ x <> "010"%char).
Proof.
  set (special := fun x => Ascii.eqb x ExportService.quote || Ascii.eqb x ","%char ||
                           Ascii.eqb x "010"%char).
  assert (Hplain : forall l, existsb special l = false ->
                     forall x, In x l ->
                       x <> ExportService.quote /\ x <> ","%char /\ x <> "010"%char).
  { intros l H x Hx.
    assert (special x = false) as Hs.
    { apply not_true_is_false. intros Hs.
      assert (existsb special l = true) by (apply existsb_exists; eauto). congruence. }
    unfold special in Hs. apply orb_false_elim in Hs as [Hs H3].
    apply orb_false_elim in Hs as [H1 H2].
    repeat split; intros ->; by rewrite Ascii.eqb_refl in *. }
  split; [| split].
  - intros s1 s2 H. apply (f_equal JS.chars) in H.
    rewrite !escapeCsvCell_chars in H. cbv zeta in H. cbn [ExportService.String_] in H.
    fold special in H.
    rewrite <- (str_chars s1), <- (str_chars s2). f_equal.
    destruct (existsb special (JS.chars s1)) eqn:E1,
             (existsb special (JS.chars s2)) eqn:E2.
    + injection H as H. apply app_inv_tail in H.
      exact (doubling_injective ExportService.quote _ _ H).
    + exfalso. destruct (Hplain _ E2 ExportService.quote) as [Hq _]; [| done].
      rewrite <- H. by left.
    + exfalso. destruct (Hplain _ E1 ExportService.quote) as [Hq _]; [| done].
      rewrite H. by left.
    + done.
  - intros c. rewrite escapeCsvCell_chars. cbv zeta. fold special.
    destruct (existsb special _) eqn:E.
    + cbn [count_occ].
      destruct (ascii_dec ExportService.quote ExportService.quote) as [_|]; [| done].
      rewrite count_occ_app, doubling_count. cbn [count_occ].
      destruct (ascii_dec ExportService.quote ExportService.quote) as [_|]; [| done].
      exists (S (count_occ ascii_dec (JS.chars (ExportService.String_ c))
                           ExportService.quote)). lia.
    + exists 0%nat. simpl. apply count_occ_not_In. intros Hin.
      by destruct (Hplain _ E _ Hin) as [Hq _].
  - intros s. split.
    + intros H. apply (f_equal JS.chars) in H.
      rewrite escapeCsvCell_chars in H. cbv zeta in H. cbn [ExportService.String_] in H.
      fold special in H.
      destruct (existsb special (JS.chars s)) eqn:E; [| by apply Hplain].
      apply (f_equal (@length ascii)) in H. cbn [length] in H.
      rewrite length_app in H. cbn [length] in H.
      pose proof (doubling_length ExportService.quote (JS.chars s)). lia.
    + intros H. rewrite <- (str_chars (ExportService.escapeCsvCell _)).
      rewrite escapeCsvCell_chars. cbv zeta. cbn [ExportService.String_]. fold special.
      replace (existsb special (JS.chars s)) with false; [apply str_chars |].
      symmetry. apply not_true_is_false. intros Hex.
      apply existsb_exists in Hex as (x & Hx & Hs).
      destruct (H x Hx) as (H1 & H2 & H3). unfold special in Hs.
      destruct (Ascii.eqb_spec x ExportService.quote); [done |].
      destruct (Ascii.eqb_spec x ","%char); [done |].
      destruct (Ascii.eqb_spec x "010"%char); done.
Qed.

Lemma escapeCsvCell_lossless_witness :
  ExportService.escapeCsvCell (ExportService.CString "Doe, J. (512)") <>
  ExportService.escapeCsvCell (ExportService.CString "Doe; J. (512)") /\
  ExportService.escapeCsvCell (ExportService.CString "Doe; J. (512)") = "Doe; J. (512)".
Proof.
  split.
  - intros H. apply (proj1 escapeCsvCell_lossless) in H. discriminate.
  - apply (proj2 (proj2 escapeCsvCell_lossless)). intros x Hx.
    simpl in Hx. repeat (destruct Hx as [<-|Hx]; [by repeat split |]). done.
Defined.

Lemma split_no_sep (sep : ascii) (s : string) :
  ~ In sep (JS.chars s) -> JS.split sep s = [s].
Proof.
  induction s as [|c s IH]; [done |]. rewrite chars_String. intros H.
  cbn [JS.split]. destruct (Ascii.eqb_spec c sep) as [->|_].
  - exfalso. apply H. by left.
  - rewrite IH; [done |]. intros Hin. apply H. by right.
Qed.

Lemma split_append (sep : ascii) (x rest : string) :
  ~ In sep (JS.chars x) ->
  JS.split sep (x +:+ String sep rest) = x :: JS.split sep rest.
Proof.
  induction x as [|c x IH]; intros H.
  - rewrite append_nil. cbn [JS.split]. by rewrite Ascii.eqb_refl.
  - rewrite chars_String in H. rewrite append_cons. cbn [JS.split].
    destruct (Ascii.eqb_spec c sep) as [->|_].
    + exfalso. apply H. by left.
    + rewrite IH; [done |]. intros Hin. apply H. by right.
Qed.

(** Splitting what was joined gives the lines back. *)
Lemma split_join (values : list string) :
  values <> [] ->
  Forall (fun v => ~ In "010"%char (JS.chars v)) values ->
  JS.split "010"%char (ListEditor.text values) = values.
Proof.
  intros Hne H. unfold ListEditor.text.
  induction H as [|v values Hv Hall IH]; [done |].
  destruct values as [|w values].
  - by apply split_no_sep.
  - change (DocProcessor.join (String "010"%char "") (v :: w :: values))
      with (v +:+ String "010"%char "" +:+
            DocProcessor.join (String "010"%char "") (w :: values)).
    rewrite append_cons, append_nil. rewrite split_append by done.
    by rewrite IH.
Qed.

(** X19. The list editor of the grid.  Saving the text that the editor
    shows for a list gives the list back, provided no entry is blank or
    holds a line feed; whatever text is saved, the list handed on has no
    blank entry and no entry with a line feed (entries keep the white space
    around them), so saving what the editor then shows changes nothing. *)
Theorem listEditor_round_trip :
  (forall values,
     Forall (fun v => ~ In "010"%char (JS.chars v) /\ JS.trim v <> "") values ->
     ListEditor.handleSave (ListEditor.text values) = values) /\
  (forall newText,
     Forall (fun v => ~ In "010"%char (JS.chars v) /\ JS.trim v <> "")
            (ListEditor.handleSave newText)) /\
  (forall newText,
     ListEditor.handleSave (ListEditor.text (ListEditor.handleSave newText)) =
     ListEditor.handleSave newText).
Proof.
  assert (Hrt : forall values,
            Forall (fun v => ~ In "010"%char (JS.chars v) /\ JS.trim v <> "") values ->
            ListEditor.handleSave (ListEditor.text values) = values).
  { intros values H. unfold ListEditor.handleSave.
    destruct values as [|v values]; [reflexivity |].
    rewrite split_join; [| done |].
    - induction H as [|x l [_ Hx] _ IH]; [done |]. cbn [List.filter].
      destruct (String.eqb_spec (JS.trim x) ""); [done |]. simpl. by rewrite IH.
    - eapply List.Forall_impl; [| exact H]. by intros x [Hx _]. }
  assert (Hok : forall newText,
            Forall (fun v => ~ In "010"%char (JS.chars v) /\ JS.trim v <> "")
                   (ListEditor.handleSave newText)).
  { intros newText. apply List.Forall_forall. intros v Hv.
    unfold ListEditor.handleSave in Hv. apply List.filter_In in Hv as [Hin Ht].
    split; [by apply split_pieces in Hin |].
    by destruct (String.eqb_spec (JS.trim v) ""). }
  split; [done |]. split; [done |].
  intros newText. apply Hrt, Hok.
Qed.

Lemma listEditor_round_trip_witness :
  ListEditor.handleSave (ListEditor.text [" Ann"; "Bob "]) = [" Ann"; "Bob "] /\
  ListEditor.handleSave (ListEditor.text ["Ann"; " "; "Bob"]) = ["Ann"; "Bob"].
Proof.
  split; [| vm_compute; reflexivity].
  apply (proj1 listEditor_round_trip).
  repeat constructor; simpl; try discriminate;
    intros H; repeat (destruct H as [H|H]; [discriminate |]); done.
Defined.

(* ===================================================================== *)
(** ** Properties: the charts and the nurse lists                         *)
(* ===================================================================== *)

Section SortFacts.

Context {A : Type}.
Variable cmp : A -> A -> Z.

Lemma insertBy_perm (x : A) (l : list A) : Permutation (insertBy cmp x l) (x :: l).
Proof.
  induction l as [|y l IH]; simpl; [done |].
  destruct (0 <? cmp x y); [| done].
  rewrite IH. apply perm_swap.
Qed.

Lemma sortBy_perm (l : list A) : Permutation (sortBy cmp l) l.
Proof.
  induction l as [|x l IH]; simpl; [done |].
  by rewrite insertBy_perm, IH.
Qed.

(** A comparator that never puts two elements each behind the other. *)
Hypothesis cmp_anti : forall x y, 0 < cmp x y -> cmp y x <= 0.

Lemma insertBy_HdRel (a x : A) (l : list A) :
  HdRel (fun a b => cmp a b <= 0) a l -> cmp a x <= 0 ->
  HdRel (fun a b => cmp a b <= 0) a (insertBy cmp x l).
Proof.
  intros H Hx. destruct l as [|y l]; simpl; [by constructor |].
  destruct (0 <? cmp x y); constructor; [by inversion H | done].
Qed.

Lemma insertBy_Sorted (x : A) (l : list A) :
  Sorted (fun a b => cmp a b <= 0) l ->
  Sorted (fun a b => cmp a b <= 0) (insertBy cmp x l).
Proof.
  induction l as [|y l IH]; intros H; simpl.
  - by repeat constructor.
  - apply Sorted_inv in H as [Hs Hhd].
    destruct (Z.ltb_spec 0 (cmp x y)) as [Hlt|Hge].
    + constructor; [by apply IH |]. apply insertBy_HdRel; [done |].
      by apply cmp_anti.
    + constructor; [by constructor |]. by constructor.
Qed.

Lemma sortBy_Sorted (l : list A) : Sorted (fun a b => cmp a b <= 0) (sortBy cmp l).
Proof.
  induction l as [|x l IH]; simpl; [constructor | by apply insertBy_Sorted].
Qed.

End SortFacts.

Lemma slice_first_ten {A} (l : list A) : DocProcessor.slice l 0 10 = take 10 l.
Proof.
  unfold DocProcessor.slice, DocProcessor.clampIndex.
  change (0 <? 0) with false. change (10 <? 0) with false. cbv iota.
  destruct (Z.le_ge_cases 10 (Z.of_nat (length l))).
  - rewrite (Z.min_l 0), (Z.min_l 10) by lia. reflexivity.
  - rewrite (Z.min_l 0), (Z.min_r 10) by lia.
    replace (drop (Z.to_nat 0) l) with l by reflexivity.
    rewrite !take_ge by lia. reflexivity.
Qed.

(** X20. The data of a bar chart: the ten best of the nurses that the
    chart keeps.  The bars are the first ten (or all, if fewer) of those
    nurses in an order of non-increasing patient count, so no nurse that is
    left out has more patients than a nurse that is shown; and every bar of
    the patient-count chart has a positive count. *)
Theorem chartData_top_ten (keep : StatsService.NurseStats -> bool)
  (nurseStats : list StatsService.NurseStats) :
  let data := map (fun n => {| Charts.name := StatsService.name n;
                               Charts.count := StatsService.patientCount n |})
                  (List.filter keep nurseStats) in
  let shown := Charts.chartData keep nurseStats in
  (exists rest,
     Permutation data (shown ++ rest) /\
     StronglySorted (fun a b => Charts.count b <= Charts.count a) (shown ++ rest)) /\
  length shown = Nat.min 10 (length data) /\
  (forall d, In d (Charts.patientCountData nurseStats) -> 0 < Charts.count d).
Proof.
  assert (Hperm : forall keep',
            Permutation
              (map (fun n => {| Charts.name := StatsService.name n;
                                Charts.count := StatsService.patientCount n |})
                   (List.filter keep' nurseStats))
              (Charts.chartData keep' nurseStats ++
               drop 10 (sortBy (fun a b => Charts.count b - Charts.count a)
                          (map (fun n => {| Charts.name := StatsService.name n;
                                            Charts.count := StatsService.patientCount n |})
                               (List.filter keep' nurseStats))))).
  { intros keep'. unfold Charts.chartData. rewrite slice_first_ten, take_drop.
    symmetry. apply sortBy_perm. }
  cbv zeta. split; [| split].
  - eexists. split; [apply Hperm |].
    unfold Charts.chartData. rewrite slice_first_ten, take_drop.
    apply Sorted_StronglySorted; [intros a b c; lia |].
    eapply Sorted_ind with (P := fun l => Sorted _ l);
      [constructor | | apply (sortBy_Sorted (fun a b => Charts.count b - Charts.count a))].
    + intros a l Hs IH Hhd. constructor; [done |].
      destruct Hhd; constructor. lia.
    + intros x y. lia.
  - unfold Charts.chartData. rewrite slice_first_ten, length_take.
    by rewrite (Permutation_length (sortBy_perm _ _)).
  - intros d Hd. unfold Charts.patientCountData in Hd.
    assert (Hin : In d (map (fun n => {| Charts.name := StatsService.name n;
                                         Charts.count := StatsService.patientCount n |})
                            (List.filter (fun n => 0 <? StatsService.patientCount n)
                                         nurseStats))).
    { eapply Permutation_in; [symmetry; apply Hperm |]. apply in_or_app. by left. }
    apply in_map_iff in Hin as (n & <- & Hn). apply List.filter_In in Hn as [_ Hn].
    simpl. lia.
Qed.

Lemma chartData_top_ten_witness :
  Charts.patientCountData (StatsService.calculateNurseStats dayOneRoster) =
    [{| Charts.name := "Ann"; Charts.count := 4 |};
     {| Charts.name := "Bob"; Charts.count := 2 |}] /\
  (forall d, In d (Charts.patientCountData (StatsService.calculateNurseStats dayOneRoster)) ->
             0 < Charts.count d).
Proof.
  split; [vm_compute; reflexivity |].
  apply (chartData_top_ten (fun n => 0 <? StatsService.patientCount n)
           (StatsService.calculateNurseStats dayOneRoster)).
Defined.

Lemma JSSet_has_spec (s : JSSet.t) (x : string) : JSSet.has s x = true <-> In x s.
Proof.
  unfold JSSet.has. rewrite existsb_exists. split.
  - intros (y & Hy & E). apply String.eqb_eq in E. by subst.
  - intros H. exists x. split; [done | apply String.eqb_refl].
Qed.

Lemma JSSet_add_spec (s : JSSet.t) (x : string) :
  (forall y, In y (JSSet.add s x) <-> In y s \/ y = x) /\
  (NoDup s -> NoDup (JSSet.add s x)).
Proof.
  unfold JSSet.add. destruct (JSSet.has s x) eqn:E.
  - apply JSSet_has_spec in E. split; [| done].
    intros y. split; [by left | by intros [?| ->]].
  - assert (~ In x s) as Hn by (rewrite <- JSSet_has_spec; congruence).
    split.
    + intros y. rewrite in_app_iff. simpl.
      split; [intros [?|[<-|[]]]; auto | intros [?| ->]; auto].
    + intros Hnd. apply NoDup_app. split; [done |]. split; [| apply NoDup_singleton].
      intros y Hy Hy'. apply list_elem_of_singleton in Hy' as ->.
      by apply list_elem_of_In in Hy.
Qed.

Lemma JSSet_from_spec (arr : list string) :
  (forall y, In y (JSSet.from arr) <-> In y arr) /\ NoDup (JSSet.from arr).
Proof.
  unfold JSSet.from.
  assert (H : forall s, NoDup s ->
            (forall y, In y (fold_left JSSet.add arr s) <-> In y s \/ In y arr) /\
            NoDup (fold_left JSSet.add arr s)).
  { induction arr as [|x arr IH]; intros s Hs; cbn [fold_left].
    - split; [| done]. intros y. simpl. tauto.
    - destruct (JSSet_add_spec s x) as [Hin Hnd].
      destruct (IH _ (Hnd Hs)) as [Hin' Hnd']. split; [| done].
      intros y. rewrite Hin', Hin. simpl. intuition. }
  destruct (H [] (NoDup_nil_2)) as [Hin Hnd]. split; [| done].
  intros y. rewrite Hin. simpl. tauto.
Qed.

Lemma nonBlank_truthy (s : string) :
  JS.truthy s && JS.truthy (JS.trim s) = StatsService.nonBlank s.
Proof.
  unfold StatsService.nonBlank. f_equal. by destruct (JS.trim s).
Qed.

Lemma compareText_anti (x y : string) : 0 < compareText x y -> compareText y x <= 0.
Proof.
  unfold compareText. rewrite (String.compare_antisym y x).
  destruct (String.compare x y); simpl; lia.
Qed.

Lemma compareText_leb (x y : string) :
  compareText x y <= 0 <-> String.leb x y = true.
Proof.
  unfold compareText, String.leb. destruct (String.compare x y); split; (done || lia).
Qed.

(** X21. The nurse list that the application offers for a shift.  If the
    assignments have a hole the computation throws a TypeError.  Otherwise
    it returns a list without duplicates, in ascending order of the code
    units, that holds exactly the floats of the shift that are not blank,
    as they are written, and the trimmed nurse of every assignment whose
    nurse is not blank. *)
Theorem shiftNurses_spec (floatsOfShift : list string) (rn : AssignmentRow -> string)
  (assignments : list (option AssignmentRow)) :
  (In None assignments ->
   exists message,
     App.shiftNurses floatsOfShift rn assignments = Throw (TypeError message)) /\
  (forall rows, assignments = map Some rows ->
   exists l,
     App.shiftNurses floatsOfShift rn assignments = Normal l /\
     NoDup l /\
     Sorted (fun a b => String.leb a b = true) l /\
     forall n, In n l <->
       (In n floatsOfShift /\ StatsService.nonBlank n = true) \/
       (exists a, In a rows /\ StatsService.nonBlank (rn a) = true /\
                  n = JS.trim (rn a))).
Proof.
  unfold App.shiftNurses.
  set (step := fun (acc : completion JSSet.t) (assignment : option AssignmentRow) =>
                 nurses ← acc;
                 match assignment with
                 | Some a =>
                     if JS.truthy (rn a) && JS.truthy (JS.trim (rn a))
                     then mret (JSSet.add nurses (JS.trim (rn a)))
                     else mret nurses
                 | None => Throw (TypeError "Cannot read properties of undefined")
                 end).
  assert (Hthrow : forall l e, fold_left step l (Throw e) = Throw e).
  { induction l as [|o l IH]; intros e; cbn [fold_left]; [done |].
    unfold step at 2. rewrite bind_Throw. apply IH. }
  split.
  - intros Hin. exists "Cannot read properties of undefined".
    generalize (JSSet.from (List.filter StatsService.nonBlank floatsOfShift)).
    induction assignments as [|o l IH]; intros s; [done |].
    cbn [fold_left]. unfold step at 2. change (mret s) with (Normal s).
    rewrite bind_Normal. destruct o as [a|].
    + destruct Hin as [?|Hin]; [done |].
      destruct (_ && _); apply (IH Hin).
    + by rewrite Hthrow, bind_Throw.
  - intros rows ->.
    destruct (JSSet_from_spec (List.filter StatsService.nonBlank floatsOfShift))
      as [Hin0 Hnd0].
    assert (H : forall s, NoDup s -> exists s',
              fold_left step (map Some rows) (Normal s) = Normal s' /\ NoDup s' /\
              forall n, In n s' <->
                In n s \/ exists a, In a rows /\ StatsService.nonBlank (rn a) = true /\
                                    n = JS.trim (rn a)).
    { induction rows as [|a rows IH]; intros s Hs; cbn [map fold_left].
      - exists s. split; [done |]. split; [done |]. intros n. split; [by left |].
        by intros [?|(a & [] & _)].
      - unfold step at 2. rewrite bind_Normal, nonBlank_truthy.
        destruct (StatsService.nonBlank (rn a)) eqn:E.
        + change (mret (JSSet.add s (JS.trim (rn a))))
            with (Normal (JSSet.add s (JS.trim (rn a)))).
          destruct (JSSet_add_spec s (JS.trim (rn a))) as [Hin Hnd].
          destruct (IH _ (Hnd Hs)) as (s' & E' & Hnd' & Hin').
          exists s'. split; [exact E' |]. split; [done |].
          intros n. rewrite Hin', Hin. split.
          * intros [[?| ->]|(a' & Ha' & Hb & ->)].
            -- by left.
            -- right. exists a. split; [by left |]. by split.
            -- right. exists a'. split; [by right |]. by split.
          * intros [?|(a' & [<-|Ha'] & Hb & ->)].
            -- left. by left.
            -- left. by right.
            -- right. exists a'. by repeat split.
        + change (mret s) with (Normal s).
          destruct (IH _ Hs) as (s' & E' & Hnd' & Hin').
          exists s'. split; [exact E' |]. split; [done |].
          intros n. rewrite Hin'. split.
          * intros [?|(a' & Ha' & Hb & ->)]; [by left |].
            right. exists a'. split; [by right |]. by split.
          * intros [?|(a' & [<-|Ha'] & Hb & ->)]; [by left | congruence |].
            right. exists a'. by repeat split. }
    destruct (H _ Hnd0) as (s' & E' & Hnd' & Hin').
    exists (sortBy compareText s'). split.
    { exact (f_equal (fun c : completion JSSet.t =>
                        c ≫= (fun nurses => mret (sortBy compareText nurses))) E'). }
    split; [| split].
    + by rewrite sortBy_perm.
    + eapply Sorted_ind with (P := fun l => Sorted _ l);
        [constructor | | apply (sortBy_Sorted compareText compareText_anti)].
      intros a l Hs IH Hhd. constructor; [done |].
      destruct Hhd; constructor. by apply compareText_leb.
    + intros n. split.
      * intros Hn. apply (Permutation_in _ (sortBy_perm compareText s')) in Hn.
        apply Hin' in Hn as [Hn|Hn]; [| by right].
        apply Hin0, List.filter_In in Hn. by left.
      * intros Hn. apply (Permutation_in _ (Permutation_sym (sortBy_perm compareText s'))).
        apply Hin'. destruct Hn as [Hn|Hn]; [| by right].
        left. by apply Hin0, List.filter_In.
Qed.

Lemma shiftNurses_spec_witness :
  App.shiftNurses (day (floats dayOneRoster)) rnDay (assignments dayOneRoster) =
    Normal [" Fay "; "Ann"; "Cy"] /\
  exists message, App.shiftNurses [] rnDay [None] = Throw (TypeError message).
Proof.
  split; [vm_compute; reflexivity |].
  apply (proj1 (shiftNurses_spec [] rnDay [None])). by left.
Defined.

(** *** The one-to-one flag *)

Lemma oneFlag_alterEntry (R : string -> Prop) (k : string)
  (f : StatsService.NurseStats -> StatsService.NurseStats)
  (m : JSMap.t StatsService.NurseStats) :
  (forall v, StatsService.isOneToOne (f v) = StatsService.isOneToOne v) ->
  Forall (fun e => StatsService.isOneToOne (snd e) = true <-> R (fst e)) m ->
  Forall (fun e => StatsService.isOneToOne (snd e) = true <-> R (fst e)) (alterEntry k f m).
Proof.
  intros Hf H. eapply alterEntry_Forall; [exact H | | done].
  intros e He _. cbn [fst snd]. by rewrite Hf.
Qed.

Lemma oneFlag_shiftStep P (R : string -> Prop) (rn cn room patient : string)
  (m : JSMap.t StatsService.NurseStats) :
  mapOk P m ->
  (StatsService.nonBlank rn = true -> ~ In (JS.trim rn) (map fst m) -> ~ R (JS.trim rn)) ->
  Forall (fun e => StatsService.isOneToOne (snd e) = true <-> R (fst e)) m ->
  Forall (fun e => StatsService.isOneToOne (snd e) = true <-> R (fst e))
         (StatsService.shiftStep rn cn room patient m).
Proof.
  intros Hm Hnew H. unfold StatsService.shiftStep.
  destruct (StatsService.nonBlank rn) eqn:Hrn; [| done].
  pose proof (initializeNurse_ok P (JS.trim rn) cn false m (trim_idem rn) Hm)
    as (Hnd & _ & _).
  assert (H1 : Forall (fun e => StatsService.isOneToOne (snd e) = true <-> R (fst e))
                      (StatsService.initializeNurse (JS.trim rn) cn false m)).
  { rewrite initializeNurse_spec. destruct (JSMap.has m (JS.trim rn)) eqn:E; [done |].
    apply has_false in E. apply Forall_app. split; [done |].
    constructor; [| constructor]. cbn [fst snd StatsService.isOneToOne].
    split; [done |]. intros HR. by destruct (Hnew eq_refl E). }
  destruct (StatsService.nonBlank patient); [| done].
  rewrite update_alterEntry by done. by apply oneFlag_alterEntry.
Qed.

(** Marking the nurse of a shift. *)
Lemma oneFlag_markOneToOne P (R : string -> Prop) (rn : string)
  (m : JSMap.t StatsService.NurseStats) :
  mapOk P m ->
  Forall (fun e => StatsService.isOneToOne (snd e) = true <-> R (fst e)) m ->
  Forall (fun e => StatsService.isOneToOne (snd e) = true <->
                   R (fst e) \/ (JS.truthy rn = true /\ JS.trim rn = fst e))
         (StatsService.markOneToOne rn m).
Proof.
  intros (Hnd & _ & _) H. unfold StatsService.markOneToOne.
  destruct (JS.truthy rn) eqn:Ht; cbn [andb].
  - destruct (JSMap.has m (JS.trim rn)) eqn:Hh.
    + rewrite update_alterEntry by done.
      eapply alterEntry_Forall; [exact H | |].
      * intros e He Hk. cbn [fst snd StatsService.setOneToOne StatsService.isOneToOne].
        split; [intros _; by right | done].
      * intros e He Hk. rewrite He. split; [by left |].
        intros [?|[_ ?]]; [done | congruence].
    + apply has_false in Hh. apply List.Forall_forall. intros e He.
      rewrite List.Forall_forall in H. rewrite (H e He). split; [by left |].
      intros [?|[_ Hk]]; [done |]. exfalso. apply Hh. rewrite Hk.
      apply in_map_iff. by exists e.
  - eapply List.Forall_impl; [| exact H]. intros e He. cbn beta in *. rewrite He.
    split; [by left | by intros [?|[? _]]].
Qed.

Lemma oneToOneFor_named (k : string) (o : option AssignmentRow) :
  k <> "" -> oneToOneFor k o -> nurseNamed k o.
Proof.
  intros Hk. destruct o as [a|]; [| done]. simpl.
  assert (Hnb : forall rn, JS.truthy rn = true -> JS.trim rn = k ->
                           StatsService.nonBlank rn = true).
  { intros rn Ht Hrn. unfold StatsService.nonBlank. rewrite Ht, Hrn. simpl.
    by destruct (String.eqb_spec k ""). }
  intros [_ [[Ht Hrn]|[Ht Hrn]]]; [left | right]; split; auto.
Qed.

Lemma nonBlank_trim_nonempty (rn : string) :
  StatsService.nonBlank rn = true -> JS.trim rn <> "".
Proof.
  unfold StatsService.nonBlank. intros H. apply andb_prop in H as [_ H].
  by destruct (String.eqb_spec (JS.trim rn) "").
Qed.

Lemma oneFlag_assignments (F : string -> Prop) (cn : Shifts string) P
  (m0 : JSMap.t StatsService.NurseStats) :
  mapOk P m0 ->
  (forall k, F k -> In k (map fst m0)) ->
  Forall (fun e => StatsService.isFloat (snd e) = true <-> F (fst e)) m0 ->
  Forall (fun e => StatsService.isOneToOne (snd e) = false) m0 ->
  forall rows,
  Forall (fun e => StatsService.isOneToOne (snd e) = true <->
                   exists o, In o rows /\ oneToOneFor (fst e) o)
         (fold_left (fun m a => match a with
                                | Some a => StatsService.assignmentStep cn a m
                                | None => m
                                end) rows m0).
Proof.
  intros Hm0 Hsub Hfl Hzero rows.
  induction rows as [|o rows IH] using rev_ind.
  - cbn [fold_left]. eapply List.Forall_impl; [| exact Hzero].
    intros e He. cbn beta in *. rewrite He. split; [done | by intros (o & [] & _)].
  - rewrite fold_left_app. cbn [fold_left].
    pose proof (assignments_fold_ok cn rows P m0 Hm0) as Hm.
    destruct (members_assignments F cn rows P m0 Hm0 Hsub Hfl) as [Hkeys _].
    cbv zeta in Hkeys.
    set (m := fold_left _ rows m0) in *.
    set (R := fun k => exists o', In o' rows /\ oneToOneFor k o').
    assert (Hext : forall (k : string) (extra : Prop),
              (oneToOneFor k o <-> extra) ->
              ((exists o', In o' (rows ++ [o]) /\ oneToOneFor k o') <-> R k \/ extra)).
    { intros k extra Hx. unfold R. split.
      - intros (o' & Ho' & Hf). apply in_app_iff in Ho' as [Ho'|[<-|[]]].
        + left. by exists o'.
        + right. by apply Hx.
      - intros [(o' & Ho' & Hf)|Hf].
        + exists o'. split; [apply in_app_iff; by left | done].
        + exists o. split; [apply in_app_iff; right; by left | by apply Hx]. }
    destruct o as [a|].
    2:{ eapply List.Forall_impl; [| exact IH]. intros e He. cbn beta in *.
        rewrite He, (Hext (fst e) False) by done. tauto. }
    assert (Hnew : forall rn (m' : JSMap.t StatsService.NurseStats),
              (forall k, In k (map fst m) -> In k (map fst m')) ->
              StatsService.nonBlank rn = true ->
              ~ In (JS.trim rn) (map fst m') -> ~ R (JS.trim rn)).
    { intros rn m' Hsubm Hrn Hnot (o' & Ho' & Hf).
      apply Hnot, Hsubm, Hkeys. right. exists o'. split; [done |].
      apply oneToOneFor_named; [by apply nonBlank_trim_nonempty | done]. }
    unfold StatsService.assignmentStep.
    pose proof (shiftStep_ok _ (rnDay a) (day cn) (room a) (patient a) m Hm) as Hm1.
    pose proof (shiftStep_ok _ (rnNight a) (night cn) (room a) (patient a) _ Hm1) as Hm2.
    pose proof (oneFlag_shiftStep _ R (rnDay a) (day cn) (room a) (patient a) m Hm
                  (Hnew (rnDay a) m (fun k H => H)) IH) as H1.
    pose proof (oneFlag_shiftStep _ R (rnNight a) (night cn) (room a) (patient a) _ Hm1
                  (Hnew (rnNight a) _
                     (fun k H => proj2 (shiftStep_keys _ (rnDay a) (day cn) (room a) (patient a)
                                                      m k Hm) (or_introl H)))
                  H1) as H2.
    set (m2 := StatsService.shiftStep (rnNight a) (night cn) (room a) (patient a)
                 (StatsService.shiftStep (rnDay a) (day cn) (room a) (patient a) m)) in *.
    cbv zeta.
    destruct (StatsService.nonBlank (patient a) && StatsService.nonBlank (status a)) eqn:Hps.
    + destruct (JS.includes _ "1:1" || JS.includes _ "1-1") eqn:Hst.
      * pose proof (oneFlag_markOneToOne _ R (rnDay a) m2 Hm2 H2) as H3.
        pose proof (oneFlag_markOneToOne _
                      (fun k => R k \/ (JS.truthy (rnDay a) = true /\ JS.trim (rnDay a) = k))
                      (rnNight a) _
                      (markOneToOne_ok _ (rnDay a) m2 Hm2) H3) as H4.
        eapply List.Forall_impl; [| exact H4]. intros e He. cbn beta in *.
        rewrite He.
        rewrite (Hext (fst e)
                   ((JS.truthy (rnDay a) = true /\ JS.trim (rnDay a) = fst e) \/
                    (JS.truthy (rnNight a) = true /\ JS.trim (rnNight a) = fst e)));
          [tauto |].
        simpl. unfold highAcuity. rewrite Hps, Hst. simpl. tauto.
      * eapply List.Forall_impl; [| exact H2]. intros e He. cbn beta in *.
        rewrite He, (Hext (fst e) False); [tauto |]. simpl.
        unfold highAcuity. rewrite Hps, Hst. simpl. split; [by intros [? _] | done].
    + eapply List.Forall_impl; [| exact H2]. intros e He. cbn beta in *.
      rewrite He, (Hext (fst e) False); [tauto |]. simpl.
      unfold highAcuity. rewrite Hps. simpl. split; [by intros [? _] | done].
Qed.

Lemma floats_oneFlag (cn : string) (names : list string) :
  forall m,
  Forall (fun e => StatsService.isOneToOne (snd e) = false) m ->
  Forall (fun e => StatsService.isOneToOne (snd e) = false)
         (fold_left (fun m name => StatsService.initializeNurse (JS.trim name) cn true m)
                    names m).
Proof.
  induction names as [|n names IH]; intros m H; cbn [fold_left]; [done |].
  apply IH. rewrite initializeNurse_spec. destruct (JSMap.has m (JS.trim n)); [done |].
  apply Forall_app. split; [done |]. by repeat constructor.
Qed.

(** X23. The one-to-one flag.  A nurse bears the flag exactly when some
    row names a patient, has a status that holds 1:1 or 1-1 in any case,
    and names the nurse for the day or the night shift: the nurse of that
    shift is not the empty text and, trimmed, is the nurse's name. *)
Theorem calculateNurseStats_oneToOne (roster : Roster) (s : StatsService.NurseStats) :
  In s (StatsService.calculateNurseStats roster) ->
  (StatsService.isOneToOne s = true <->
   exists o, In o (assignments roster) /\ oneToOneFor (StatsService.name s) o).
Proof.
  intros Hs.
  destruct (members_floats (day (chargeNurses roster)) (day (floats roster)) [])
    as [Hk1 Hf1]; [constructor |].
  destruct (members_floats (night (chargeNurses roster)) (night (floats roster)) _ Hf1)
    as [Hk2 Hf2]. cbv zeta in *.
  set (m0 := fold_left
               (fun m name => StatsService.initializeNurse (JS.trim name)
                                (night (chargeNurses roster)) true m)
               (night (floats roster))
               (fold_left
                  (fun m name => StatsService.initializeNurse (JS.trim name)
                                   (day (chargeNurses roster)) true m)
                  (day (floats roster)) [])) in *.
  assert (Hm0 : mapOk (fun _ => []) m0).
  { apply floats_fold_ok, floats_fold_ok.
    split; [constructor |]. split; [constructor | done]. }
  assert (Hzero : Forall (fun e => StatsService.isOneToOne (snd e) = false) m0).
  { apply floats_oneFlag, floats_oneFlag. constructor. }
  pose proof (oneFlag_assignments (fun k => In k (map fst m0)) (chargeNurses roster)
                _ m0 Hm0 (fun k H => H)) as H.
  specialize (H ltac:(apply List.Forall_forall; intros e He;
                      rewrite List.Forall_forall in Hf2; rewrite (Hf2 e He);
                      split; [intros _; apply in_map_iff; by exists e | done])
                Hzero (assignments roster)).
  apply calculateNurseStats_In in Hs as (e & He & ->).
  rewrite List.Forall_forall in H. specialize (H e He).
  destruct (nurseMapOf_ok roster) as (_ & Hall & _).
  rewrite List.Forall_forall in Hall. destruct (Hall e He) as (H1 & _).
  cbn [StatsService.finalize StatsService.isOneToOne StatsService.name].
  by rewrite H1.
Qed.

Lemma calculateNurseStats_oneToOne_witness :
  exists s,
    In s (StatsService.calculateNurseStats dayOneRoster) /\
    StatsService.name s = "Ann" /\ StatsService.isOneToOne s = true.
Proof.
  destruct (nth_error (StatsService.calculateNurseStats dayOneRoster) 1) as [s|] eqn:E;
    [| vm_compute in E; discriminate].
  exists s. pose proof (nth_error_In _ _ E) as Hin.
  assert (Hn : StatsService.name s = "Ann")
    by (vm_compute in E; by injection E as <-).
  split; [done |]. split; [done |].
  apply (proj2 (calculateNurseStats_oneToOne dayOneRoster s Hin)). rewrite Hn.
  exists (Some (mkAssignment "502" "B" "1:1" "Ann" "Ann")).
  split; [right; left; reflexivity |].
  split; [vm_compute; reflexivity |]. left. split; vm_compute; reflexivity.
Defined.

(* ===================================================================== *)
(** ** Properties: the grid of services/docProcessor.ts                   *)
(* ===================================================================== *)

Lemma dp_placeRow_spec (colIdx : DocProcessor.ColIdx) (row : Row)
  (a : list (option AssignmentRow)) :
  DocProcessor.placeRow colIdx row a =
  match dpRoomOf colIdx row with
  | Some n => if (501 <=? n) && (n <=? 532)
              then JS.array_set a (n - 501) (dpRowFrom colIdx row) else a
  | None => a
  end.
Proof.
  unfold DocProcessor.placeRow, dpRoomOf, dpRowFrom. cbv zeta.
  by destruct (JS.truthy _).
Qed.

Lemma dp_fill_slots (colIdx : DocProcessor.ColIdx) (body : list Row) :
  let a := fold_left (fun a row => DocProcessor.placeRow colIdx row a) body
                     (JS.array_from 32 (fun i => Some (defaultRow 501 i))) in
  length a = 32%nat /\
  forall i, 0 <= i < 32 -> a !! Z.to_nat i = Some (Some (dpSlotOf colIdx body i)).
Proof.
  induction body as [|r body IH] using rev_ind; cbv zeta.
  - split; [apply array_from_length |].
    intros i Hi. simpl. rewrite array_from_lookup by lia. by rewrite Z2Nat.id by lia.
  - cbv zeta in IH. destruct IH as [IHlen IH].
    rewrite fold_left_app. cbn [fold_left].
    set (a := fold_left _ body _) in *.
    assert (Hmiss : forall i, dpClaims colIdx (501 + i) r = false ->
                      dpSlotOf colIdx (body ++ [r]) i = dpSlotOf colIdx body i).
    { intros i H. unfold dpSlotOf. rewrite List.filter_app. simpl. rewrite H.
      by rewrite app_nil_r. }
    rewrite dp_placeRow_spec.
    destruct (dpRoomOf colIdx r) as [n|] eqn:Hn.
    + destruct (Z.leb_spec 501 n), (Z.leb_spec n 532); cbn [andb].
      * rewrite array_set_inside by lia. split; [by rewrite length_insert |].
        intros i Hi. destruct (decide (i = n - 501)) as [->|Hne].
        -- rewrite list_lookup_insert_eq by lia. unfold dpSlotOf.
           rewrite List.filter_app. simpl. unfold dpClaims at 2. rewrite Hn.
           replace (n =? 501 + (n - 501)) with true by (symmetry; apply Z.eqb_eq; lia).
           by rewrite last_snoc.
        -- rewrite list_lookup_insert_ne by lia. rewrite Hmiss; [by apply IH |].
           unfold dpClaims. rewrite Hn. apply Z.eqb_neq. lia.
      * split; [done |]. intros i Hi. rewrite Hmiss; [by apply IH |].
        unfold dpClaims. rewrite Hn. apply Z.eqb_neq. lia.
      * split; [done |]. intros i Hi. rewrite Hmiss; [by apply IH |].
        unfold dpClaims. rewrite Hn. apply Z.eqb_neq. lia.
      * split; [done |]. intros i Hi. rewrite Hmiss; [by apply IH |].
        unfold dpClaims. rewrite Hn. apply Z.eqb_neq. lia.
    + split; [done |]. intros i Hi. rewrite Hmiss; [by apply IH |].
      unfold dpClaims. by rewrite Hn.
Qed.

(** Without an RM column no row claims a room. *)
Lemma dp_no_rm_column (colIdx : DocProcessor.ColIdx) (row : Row) :
  DocProcessor.c_rm colIdx = -1 -> dpRoomOf colIdx row = None.
Proof.
  intros H. unfold dpRoomOf. rewrite H. by rewrite array_get_negative by lia.
Qed.

(** X24. The assignments of services/docProcessor.ts, slot by slot.  The
    grid rows are the header row and the body rows after it; slot [i] of
    the returned roster holds the row built from the last body row whose RM
    cell is not empty and reads as the number [501 + i], whatever earlier
    rows say, and the default row when no body row claims the room.  When
    the header has no RM column every slot holds the default row. *)
Theorem docProcessor_last_write_wins (host : Date.Host) (doc : Document) (roster : Roster) :
  DocProcessor.parseRosterFromHtml host doc = Normal roster ->
  exists header body,
    dpGridRows (dpContentRows doc) = header :: body /\
    (forall i, 0 <= i < 32 ->
       JS.array_get (assignments roster) i =
       Some (Some (dpSlotOf (dpColIdxOf header) body i))) /\
    (DocProcessor.c_rm (dpColIdxOf header) = -1 ->
     forall i, 0 <= i < 32 ->
       JS.array_get (assignments roster) i = Some (Some (defaultRow 501 i))).
Proof.
  unfold DocProcessor.parseRosterFromHtml, dpContentRows, dpGridRows.
  destruct (_ <? 2)%nat; [discriminate |].
  destruct (JS.find_pos _ _) as [[k infoTable]|]; [| discriminate].
  destruct (_ || _); [discriminate |]. cbv zeta.
  destruct (DocProcessor.slice _ _ _) as [|header bodyRows]; [discriminate |].
  destruct (DocProcessor.bottomPartOf _ _) as [fl re].
  destruct (docProcessor_finalDate host
              (p_date (DocProcessor.parseInfoTable host infoTable))) as (fd & -> & _).
  rewrite bind_Normal. intros [= <-]. cbn [assignments].
  exists header, bodyRows. split; [done |].
  fold (dpColIdxOf header).
  destruct (dp_fill_slots (dpColIdxOf header) bodyRows) as [Hlen Hslots].
  cbv zeta in Hlen, Hslots.
  assert (Hdefault : DocProcessor.c_rm (dpColIdxOf header) = -1 ->
            forall i, dpSlotOf (dpColIdxOf header) bodyRows i = defaultRow 501 i).
  { intros Hrm i. unfold dpSlotOf.
    replace (List.filter _ bodyRows) with (@nil Row); [done |].
    symmetry. apply last_None, last_filter_None. intros r _.
    unfold dpClaims. by rewrite dp_no_rm_column. }
  assert (Hall : forall i, 0 <= i < 32 ->
            JS.array_get
              (if DocProcessor.c_rm (dpColIdxOf header) =? -1
               then JS.array_from 32 (fun i => Some (defaultRow 501 i))
               else fold_left (fun a row => DocProcessor.placeRow (dpColIdxOf header) row a)
                              bodyRows
                              (JS.array_from 32 (fun i => Some (defaultRow 501 i)))) i =
            Some (Some (dpSlotOf (dpColIdxOf header) bodyRows i))).
  { intros i Hi. rewrite array_get_nonneg by lia.
    destruct (Z.eqb_spec (DocProcessor.c_rm (dpColIdxOf header)) (-1)) as [Hrm|_].
    - rewrite array_from_lookup by lia. rewrite Z2Nat.id by lia.
      by rewrite Hdefault.
    - by apply Hslots. }
  split; [done |]. intros Hrm i Hi. rewrite Hall by done. by rewrite Hdefault.
Qed.

Lemma docProcessor_last_write_wins_witness :
  exists roster,
    DocProcessor.parseRosterFromHtml hostNY rmDuplicateDoc = Normal roster /\
    patient <$> (JS.array_get (assignments roster) 4 ≫= id) = Some "B. Later" /\
    extNight <$> (JS.array_get (assignments roster) 4 ≫= id) = Some "16".
Proof.
  destruct (DocProcessor.parseRosterFromHtml hostNY rmDuplicateDoc) as [roster|e] eqn:E;
    [| vm_compute in E; discriminate].
  exists roster. split; [reflexivity |].
  destruct (docProcessor_last_write_wins hostNY rmDuplicateDoc roster E)
    as (header & body & Hrows & Hslots & _).
  rewrite (Hslots 4) by lia.
  vm_compute in Hrows. injection Hrows as <- <-.
  split; vm_compute; reflexivity.
Defined.

(** *** The extension columns *)

Lemma find_sorted_least (p : Z -> bool) (l : list Z) :
  StronglySorted Z.lt l ->
  match List.find p l with
  | Some k => In k l /\ p k = true /\ forall j, In j l -> p j = true -> k <= j
  | None => forall j, In j l -> p j = false
  end.
Proof.
  induction 1 as [|x l Hs IH Hx]; cbn [List.find]; [by intros j [] |].
  destruct (p x) eqn:Hp.
  - split; [by left |]. split; [done |].
    intros j [<-|Hj] _; [lia |]. rewrite List.Forall_forall in Hx.
    specialize (Hx j Hj). lia.
  - destruct (List.find p l) as [k|].
    + destruct IH as (Hin & Hk & Hleast). split; [by right |]. split; [done |].
      intros j [<-|Hj] Hpj; [congruence | by apply Hleast].
    + intros j [<-|Hj]; [done | by apply IH].
Qed.

(** The positions of the header cells that hold EXT, in ascending order. *)
Lemma extIndices_from (l : list string) (off : nat) :
  let ext := List.filter (fun i => -1 <? i)
               (imap (fun i h => if JS.includes h "EXT"
                                 then Z.of_nat (off + i) else -1) l) in
  StronglySorted Z.lt ext /\
  forall z, In z ext <->
    exists i h, z = Z.of_nat (off + i) /\ l !! i = Some h /\ JS.includes h "EXT" = true.
Proof.
  revert off. induction l as [|x l IH]; intros off; cbv zeta.
  - split; [constructor |]. intros z. split; [intros [] | by intros (i & h & _ & Hi & _)].
  - cbn [imap].
    rewrite (imap_ext _ (fun i h => if JS.includes h "EXT"
                                    then Z.of_nat (S off + i) else -1))
      by (intros i h _; simpl; destruct (JS.includes h "EXT"); [f_equal; lia | done]).
    destruct (IH (S off)) as [Hs Hin]. cbv zeta in Hs, Hin.
    assert (Hshift : forall z,
              (exists i h, z = Z.of_nat (off + i) /\ (x :: l) !! i = Some h /\
                           JS.includes h "EXT" = true) <->
              (z = Z.of_nat off /\ JS.includes x "EXT" = true) \/
              (exists i h, z = Z.of_nat (S off + i) /\ l !! i = Some h /\
                           JS.includes h "EXT" = true)).
    { intros z. split.
      - intros ([|i] & h & -> & Hi & Hh); simpl in Hi.
        + left. injection Hi as ->. split; [f_equal; lia | done].
        + right. exists i, h. split; [f_equal; lia | done].
      - intros [[-> Hx]|(i & h & -> & Hi & Hh)].
        + exists 0%nat, x. split; [f_equal; lia | done].
        + exists (S i), h. split; [f_equal; lia | done]. }
    cbn [List.filter]. rewrite Nat.add_0_r.
    destruct (JS.includes x "EXT") eqn:Hx.
    + destruct (Z.ltb_spec (-1) (Z.of_nat off)); [| lia]. split.
      * constructor; [done |]. apply List.Forall_forall. intros z Hz.
        apply Hin in Hz as (i & h & -> & _). lia.
      * intros z. rewrite Hshift. cbn [In]. rewrite Hin. intuition.
    + cbn [Z.ltb Z.compare]. split; [done |].
      intros z. rewrite Hshift, Hin. intuition congruence.
Qed.

Lemma extIndices_spec (headerCells : list string) :
  let ext := List.filter (fun i => -1 <? i)
               (imap (fun i h => if JS.includes h "EXT" then Z.of_nat i else -1)
                     headerCells) in
  StronglySorted Z.lt ext /\ forall z, In z ext <-> isExtColumn headerCells z.
Proof.
  destruct (extIndices_from headerCells 0) as [Hs Hin]. cbv zeta in *.
  split; [exact Hs |]. intros z. rewrite (Hin z). unfold isExtColumn. split.
  - intros (i & h & -> & Hi & Hh). exists h. rewrite array_get_nonneg by lia.
    by rewrite Nat2Z.id.
  - intros (h & Hz & Hh). destruct (Z.ltb_spec z 0) as [Hneg|Hpos].
    + by rewrite array_get_negative in Hz.
    + rewrite array_get_nonneg in Hz by done.
      exists (Z.to_nat z), h. split; [simpl; lia | done].
Qed.

Lemma leastExtColumn_find (headerCells : list string) (p : Z -> bool) :
  leastExtColumn headerCells p
    (default (-1)
       (List.find p
          (List.filter (fun i => -1 <? i)
             (imap (fun i h => if JS.includes h "EXT" then Z.of_nat i else -1)
                   headerCells)))).
Proof.
  destruct (extIndices_spec headerCells) as [Hs Hin]. cbv zeta in *.
  pose proof (find_sorted_least p _ Hs) as H.
  destruct (List.find p _) as [k|]; cbn [default].
  - destruct H as (Hk & Hp & Hleast). right. split; [by apply Hin |].
    split; [done |]. intros j Hj. apply Hleast. by apply Hin.
  - left. split; [done |]. intros j Hj. apply H. by apply Hin.
Qed.

(** X25. The extension columns of services/docProcessor.ts.  The day
    extension is read from the first header cell with EXT to the right of
    RN DAYS and, when there is an RN NIGHTS column, to the left of it; the
    night extension from the first cell with EXT to the right of RN NIGHTS;
    each is -1 when there is no such cell.  Without an RN NIGHTS column the
    night extension is the first cell with EXT of the whole header, and
    then both extensions are read from the same column whenever that cell
    is to the right of RN DAYS. *)
Theorem docProcessor_ext_columns (headerCells : list string) :
  let c := DocProcessor.colIdxOf headerCells in
  leastExtColumn headerCells
    (fun i => (DocProcessor.c_rnDay c <? i) &&
              (if -1 <? DocProcessor.c_rnNight c
               then i <? DocProcessor.c_rnNight c else true))
    (DocProcessor.c_extDay c) /\
  leastExtColumn headerCells (fun i => DocProcessor.c_rnNight c <? i)
    (DocProcessor.c_extNight c) /\
  (DocProcessor.c_rnNight c = -1 ->
   DocProcessor.c_rnDay c < DocProcessor.c_extNight c ->
   DocProcessor.c_extDay c = DocProcessor.c_extNight c).
Proof.
  cbv zeta.
  assert (H1 := leastExtColumn_find headerCells
            (fun i => (DocProcessor.c_rnDay (DocProcessor.colIdxOf headerCells) <? i) &&
                      (if -1 <? DocProcessor.c_rnNight (DocProcessor.colIdxOf headerCells)
                       then i <? DocProcessor.c_rnNight (DocProcessor.colIdxOf headerCells)
                       else true))).
  assert (H2 := leastExtColumn_find headerCells
            (fun i => DocProcessor.c_rnNight (DocProcessor.colIdxOf headerCells) <? i)).
  split; [exact H1 |]. split; [exact H2 |].
  intros Hn Hlt.
  change (leastExtColumn headerCells
            (fun i => (DocProcessor.c_rnDay (DocProcessor.colIdxOf headerCells) <? i) &&
                      (if -1 <? DocProcessor.c_rnNight (DocProcessor.colIdxOf headerCells)
                       then i <? DocProcessor.c_rnNight (DocProcessor.colIdxOf headerCells)
                       else true))
            (DocProcessor.c_extDay (DocProcessor.colIdxOf headerCells))) in H1.
  change (leastExtColumn headerCells
            (fun i => DocProcessor.c_rnNight (DocProcessor.colIdxOf headerCells) <? i)
            (DocProcessor.c_extNight (DocProcessor.colIdxOf headerCells))) in H2.
  set (c := DocProcessor.colIdxOf headerCells) in *.
  assert (Hd : forall j, isExtColumn headerCells j -> 0 <= j).
  { intros j (h & Hj & _). destruct (Z.ltb_spec j 0); [| done].
    by rewrite array_get_negative in Hj. }
  destruct H2 as [[E2 _]|(Hx2 & Hp2 & Hl2)].
  { pose proof (findIndex_from_range (fun h (_ : Z) => JS.includes h "RN DAYS") 0 headerCells)
      as Hr.
    assert (-1 <= DocProcessor.c_rnDay c) by (unfold c; simpl; unfold JS.findIndex; lia).
    lia. }
  destruct H1 as [[E1 Hnone]|(Hx1 & Hp1 & Hl1)].
  - exfalso. specialize (Hnone _ Hx2). rewrite Hn in Hnone. cbn [Z.ltb Z.compare] in Hnone.
    rewrite andb_true_r in Hnone. apply Z.ltb_ge in Hnone. lia.
  - assert (DocProcessor.c_extDay c <= DocProcessor.c_extNight c).
    { apply Hl1; [done |]. rewrite Hn. cbn [Z.ltb Z.compare].
      rewrite andb_true_r. by apply Z.ltb_lt. }
    assert (DocProcessor.c_extNight c <= DocProcessor.c_extDay c).
    { apply Hl2; [done |]. rewrite Hn. apply Z.ltb_lt. specialize (Hd _ Hx1). lia. }
    lia.
Qed.

Lemma docProcessor_ext_columns_witness :
  DocProcessor.c_extDay
    (DocProcessor.colIdxOf ["RM"; "PATIENT"; "RN DAYS"; "EXT"; "NOTES"]) = 3 /\
  DocProcessor.c_extNight
    (DocProcessor.colIdxOf ["RM"; "PATIENT"; "RN DAYS"; "EXT"; "NOTES"]) = 3.
Proof.
  destruct (docProcessor_ext_columns ["RM"; "PATIENT"; "RN DAYS"; "EXT"; "NOTES"])
    as (_ & _ & H).
  assert (E : DocProcessor.c_extNight
                (DocProcessor.colIdxOf ["RM"; "PATIENT"; "RN DAYS"; "EXT"; "NOTES"]) = 3)
    by (vm_compute; reflexivity).
  split; [| exact E]. rewrite H; [exact E | vm_compute; reflexivity |].
  rewrite E. vm_compute. reflexivity.
Defined.

(* ===================================================================== *)
(** ** Properties: from the parsed roster to the statistics               *)
(* ===================================================================== *)

Lemma extractListFromCell_clean (cell : option Cell) :
  cleanList (extractListFromCell cell).
Proof.
  intros e H. unfold extractListFromCell in H.
  apply List.filter_In in H as [H Ht]. apply in_map_iff in H as (piece & <- & _).
  split; [by destruct (JS.trim piece) | apply trim_idem].
Qed.

Lemma dp_extractListFromCell_clean (cell : option Cell) :
  cleanList (DocProcessor.extractListFromCell cell).
Proof.
  destruct cell as [c|]; [apply (extractListFromCell_clean (Some c)) | by intros e []].
Qed.

Lemma cleanList_nil : cleanList [].
Proof. by intros e []. Qed.

Lemma lastListOf_clean (p : string -> bool) (rows : list Row) :
  cleanList (lastListOf p rows).
Proof.
  unfold lastListOf. destruct (last _); [apply extractListFromCell_clean | apply cleanList_nil].
Qed.

Lemma roster_lists_inv (host : Date.Host) (doc : Document) (roster : Roster) :
  parseRosterFromHtml host doc = Normal roster ->
  exists g,
    parseAssignmentsAndBottomSection (contentRows doc) 501 532 = Normal g /\
    floats roster = g_floats g /\ respiratory roster = g_respiratory g.
Proof.
  unfold parseRosterFromHtml, contentRows.
  destruct (parseDate_returns host (doc_bodyText doc)) as [d ->].
  rewrite bind_Normal.
  destruct (parseAssignmentsAndBottomSection _ 501 532) as [g|e];
    [rewrite bind_Normal | by rewrite bind_Throw].
  destruct (infoTableOf (doc_tables doc)) as [[k t]|]; [| by rewrite bind_Throw].
  destruct (parseInfoTable host t) as [p|e] eqn:Hp;
    [rewrite bind_Normal | by rewrite bind_Throw].
  destruct (finalDate_returns host (p_date p) d) as [fd ->].
  rewrite bind_Normal. intros [= <-]. by exists g.
Qed.

Lemma bottomPartOf_clean (contentRows : list Row) (bottomHeaderIndex : Z) :
  cleanList (day (fst (DocProcessor.bottomPartOf contentRows bottomHeaderIndex))) /\
  cleanList (night (fst (DocProcessor.bottomPartOf contentRows bottomHeaderIndex))) /\
  cleanList (snd (DocProcessor.bottomPartOf contentRows bottomHeaderIndex)).
Proof.
  unfold DocProcessor.bottomPartOf. cbv zeta.
  destruct (_ =? -1); [split; [| split]; apply cleanList_nil |].
  destruct (DocProcessor.slice contentRows _ _) as [|hd [|data tl]];
    [split; [| split]; apply cleanList_nil.. |].
  cbn [fst snd day night].
  split; [| split];
    match goal with
    | |- cleanList (match ?o with _ => _ end) =>
        destruct o; [apply dp_extractListFromCell_clean | apply cleanList_nil]
    end.
Qed.

Lemma dp_roster_lists_inv (host : Date.Host) (doc : Document) (roster : Roster) :
  DocProcessor.parseRosterFromHtml host doc = Normal roster ->
  exists rows bh,
    floats roster = fst (DocProcessor.bottomPartOf rows bh) /\
    respiratory roster = snd (DocProcessor.bottomPartOf rows bh).
Proof.
  unfold DocProcessor.parseRosterFromHtml.
  destruct (_ <? 2)%nat; [discriminate |].
  destruct (JS.find_pos _ _) as [[k infoTable]|]; [| discriminate].
  destruct (_ || _); [discriminate |]. cbv zeta.
  destruct (DocProcessor.slice _ _ _) as [|header bodyRows]; [discriminate |].
  destruct (DocProcessor.bottomPartOf _ _) as [fl re] eqn:Hb.
  destruct (docProcessor_finalDate host
              (p_date (DocProcessor.parseInfoTable host infoTable))) as (fd & -> & _).
  rewrite bind_Normal. intros [= <-]. cbn [floats respiratory].
  match type of Hb with
  | DocProcessor.bottomPartOf ?r ?b = _ => exists r, b
  end.
  by rewrite Hb.
Qed.

(** The keys of the nurse map are not empty when the float names are not. *)
Lemma nonempty_initializeNurse (n cn : string) (fl : bool)
  (m : JSMap.t StatsService.NurseStats) :
  n <> "" -> Forall (fun e => fst e <> "") m ->
  Forall (fun e => fst e <> "") (StatsService.initializeNurse n cn fl m).
Proof.
  intros Hn H. rewrite initializeNurse_spec. destruct (JSMap.has m n); [done |].
  apply Forall_app. split; [done |]. by repeat constructor.
Qed.

Lemma nonempty_keys (f : JSMap.t StatsService.NurseStats -> JSMap.t StatsService.NurseStats)
  (m : JSMap.t StatsService.NurseStats) :
  map fst (f m) = map fst m ->
  Forall (fun e => fst e <> "") m -> Forall (fun e => fst e <> "") (f m).
Proof.
  intros Hk H. rewrite List.Forall_forall in *. intros e He.
  assert (In (fst e) (map fst m)) as Hin by (rewrite <- Hk; apply in_map_iff; by exists e).
  apply in_map_iff in Hin as (e' & <- & He'). by apply H.
Qed.

Lemma nonempty_shiftStep P (rn cn room patient : string)
  (m : JSMap.t StatsService.NurseStats) :
  mapOk P m ->
  Forall (fun e => fst e <> "") m ->
  Forall (fun e => fst e <> "") (StatsService.shiftStep rn cn room patient m).
Proof.
  intros Hm H. unfold StatsService.shiftStep.
  destruct (StatsService.nonBlank rn) eqn:Hrn; [| done].
  pose proof (initializeNurse_ok P (JS.trim rn) cn false m (trim_idem rn) Hm)
    as (Hnd & _ & _).
  pose proof (nonempty_initializeNurse (JS.trim rn) cn false m
                (nonBlank_trim_nonempty rn Hrn) H) as H1.
  destruct (StatsService.nonBlank patient); [| done].
  rewrite update_alterEntry by done.
  apply (nonempty_keys (alterEntry _ _)); [apply alterEntry_keys | done].
Qed.

Lemma nonempty_assignments (cn : Shifts string) (rows : list (option AssignmentRow)) :
  forall P m, mapOk P m ->
  Forall (fun e => fst e <> "") m ->
  Forall (fun e => fst e <> "")
         (fold_left (fun m a => match a with
                                | Some a => StatsService.assignmentStep cn a m
                                | None => m
                                end) rows m).
Proof.
  induction rows as [|o rows IH]; intros P m Hm H; cbn [fold_left]; [done |].
  destruct o as [a|]; [| by apply (IH P)].
  apply (IH _ _ (assignmentStep_ok P cn a m Hm)).
  unfold StatsService.assignmentStep.
  pose proof (shiftStep_ok P (rnDay a) (day cn) (room a) (patient a) m Hm) as Hm1.
  pose proof (shiftStep_ok _ (rnNight a) (night cn) (room a) (patient a) _ Hm1) as Hm2.
  pose proof (nonempty_shiftStep _ (rnNight a) (night cn) (room a) (patient a) _ Hm1
                (nonempty_shiftStep _ (rnDay a) (day cn) (room a) (patient a) _ Hm H))
    as H2.
  destruct (_ && _); [| done].
  destruct (_ || _); [| done].
  apply (nonempty_keys (StatsService.markOneToOne (rnNight a)));
    [apply (markOneToOne_entries _ _ _ (markOneToOne_ok _ (rnDay a) _ Hm2)) |].
  apply (nonempty_keys (StatsService.markOneToOne (rnDay a)));
    [apply (markOneToOne_entries _ _ _ Hm2) | done].
Qed.

Lemma nonempty_floats (cn : string) (names : list string) :
  cleanList names ->
  forall m, Forall (fun e => fst e <> "") m ->
  Forall (fun e => fst e <> "")
         (fold_left (fun m name => StatsService.initializeNurse (JS.trim name) cn true m)
                    names m).
Proof.
  induction names as [|n names IH]; intros Hc m H; cbn [fold_left]; [done |].
  apply IH; [intros e He; apply Hc; by right |].
  apply nonempty_initializeNurse; [| done].
  destruct (Hc n (or_introl eq_refl)) as [Hn ->]. done.
Qed.

(** X26. From the parsed roster to the statistics.  In a roster returned
    by either parser the day floats, the night floats and the respiratory
    list have no blank entry: every entry is non-empty and has no white
    space at either end.  The statistics of such a roster therefore have no
    nurse with an empty name. *)
Theorem parsed_lists_are_clean (host : Date.Host) (doc : Document) (roster : Roster) :
  parseRosterFromHtml host doc = Normal roster \/
  DocProcessor.parseRosterFromHtml host doc = Normal roster ->
  cleanList (day (floats roster)) /\
  cleanList (night (floats roster)) /\
  cleanList (respiratory roster) /\
  forall s, In s (StatsService.calculateNurseStats roster) -> StatsService.name s <> "".
Proof.
  intros H.
  assert (Hclean : cleanList (day (floats roster)) /\ cleanList (night (floats roster)) /\
                   cleanList (respiratory roster)).
  { destruct H as [H|H].
    - apply roster_lists_inv in H as (g & Hg & -> & ->).
      pose proof (grid_normal_inv _ _ _ _ Hg) as [Hh _].
      rewrite (grid_sections _ 501 532 Hh) in Hg. injection Hg as <-.
      cbv zeta. cbn [g_floats g_respiratory].
      pose proof (bottom_fold (bottomRowsOf (contentRows doc))) as Hb. cbv zeta in Hb.
      destruct Hb as (-> & -> & ->). split; [| split]; apply lastListOf_clean.
    - apply dp_roster_lists_inv in H as (rows & bh & -> & ->).
      apply bottomPartOf_clean. }
  destruct Hclean as (Hd & Hn & Hr). split; [done |]. split; [done |]. split; [done |].
  intros s Hs. apply calculateNurseStats_In in Hs as (e & He & ->).
  assert (Hne : Forall (fun e => fst e <> "") (StatsService.nurseMapOf roster)).
  { unfold StatsService.nurseMapOf.
    apply (nonempty_assignments _ _ (fun _ => [])).
    - apply floats_fold_ok, floats_fold_ok.
      split; [constructor |]. split; [constructor | done].
    - apply nonempty_floats; [done |]. apply nonempty_floats; [done | constructor]. }
  rewrite List.Forall_forall in Hne. specialize (Hne e He).
  destruct (nurseMapOf_ok roster) as (_ & Hall & _).
  rewrite List.Forall_forall in Hall. destruct (Hall e He) as (H1 & _).
  cbn [StatsService.finalize StatsService.name]. by rewrite H1.
Qed.

Lemma parsed_lists_are_clean_witness :
  exists roster,
    parseRosterFromHtml hostNY scenarioDoc = Normal roster /\
    cleanList (day (floats roster)) /\
    forall s, In s (StatsService.calculateNurseStats roster) -> StatsService.name s <> "".
Proof.
  destruct (parseRosterFromHtml hostNY scenarioDoc) as [roster|e] eqn:E;
    [| vm_compute in E; discriminate].
  exists roster. split; [reflexivity |].
  destruct (parsed_lists_are_clean hostNY scenarioDoc roster (or_introl E))
    as (Hd & _ & _ & Hs).
  by split.
Defined.
